(** * AutoAdvisor MCP server: cleaning, filtering, ranking and dispatch

    A shallow embedding of [src/mcp_server/tools.py], of the dispatcher
    [call_tool] of [src/server.py] with the handler that its decorator
    registers, and of the column check of [src/data_check.py].

    Conventions of the embedding:
    - a pandas [DataFrame] is its list of column labels and its list of
      rows; a row holds the eleven columns the program reads, each one a
      dynamically typed [cell];
    - a floating point number is the rational ([Q]) it denotes, and two
      of them compare as these rationals do; what rounding and overflow
      make of a conversion or of a mean is left to the library operation
      that computes it; the float NaN only occurs as the missing-value
      marker [NaN] of a cell;
    - a Python exception is a value of [exn]; a function that may raise
      returns a [result];
    - a JSON argument object is a finite map from keys to JSON values;
    - what the program delegates to Python's builtins and string
      methods, to pandas, to scikit-learn's least-squares solver and to
      the validation of the MCP SDK is a field of the class [Builtins],
      so that every property below holds whatever these libraries
      compute. *)

From Stdlib Require Import QArith ZArith String Ascii List Lia Lqa DecimalString.
From stdpp Require Import base gmap strings list sorting.

Local Open Scope string_scope.
Local Open Scope list_scope.

(** ** Python values, exceptions and results *)

(** JSON values as [json.loads] hands them to the dispatcher. *)
#[local] Unset Elimination Schemes.
Inductive value :=
| VNull
| VBool (b : bool)
| VNum (q : Q)
| VStr (s : string)
| VList (l : list value)
| VDict (d : list (string * value)).
#[local] Set Elimination Schemes.

(** The exception classes the program raises or meets. *)
Inductive exn :=
| ValueError (msg : string)
| KeyError (key : string)
| TypeError (msg : string)
| OverflowError (msg : string)
| OSError (msg : string).

(** [str(e)]: a [KeyError] prints the repr of its key. *)
Definition str_exn (e : exn) : string :=
  match e with
  | ValueError m => m
  | KeyError k => "'" +:+ k +:+ "'"
  | TypeError m => m
  | OverflowError m => m
  | OSError m => m
  end.

Inductive result (A : Type) :=
| Ok (a : A)
| Raise (e : exn).
Arguments Ok {A} a.
Arguments Raise {A} e.

#[global] Instance result_ret : MRet result := fun A a => Ok a.
#[global] Instance result_bind : MBind result := fun A B f m =>
  match m with
  | Ok a => f a
  | Raise e => Raise e
  end.

(** A cell of a DataFrame: missing, a number, or a Python [str]. *)
Inductive cell :=
| NaN
| Num (q : Q)
| Str (s : string).

(** What the program takes from its libraries. *)
Class Builtins := {
  (** [int(s)] and [float(s)] on a [str] *)
  int_of_str : string -> result Z;
  float_of_str : string -> result Q;
  (** [float(x)] on an [int] or a [float]: the double nearest to an
      [int], or [OverflowError] for an [int] beyond the range of a
      double *)
  float_of_num : Q -> result Q;
  (** [str(v)] on a value that is not a [str] *)
  repr : value -> string;
  (** [s.strip()] and [s.lower()], on whatever text Python has them *)
  py_strip : string -> string;
  py_lower : string -> string;
  (** stripping a stripped string changes nothing *)
  py_strip_idempotent : forall s, py_strip (py_strip s) = py_strip s;
  (** [pd.to_numeric(..., errors="coerce")] on a [str] cell; [None] is NaN *)
  to_numeric_str : string -> option Q;
  (** [astype(str)] on a numeric cell *)
  str_of_float : Q -> string;
  (** [astype(str)] on a missing value: the text it becomes (the three
      letters "nan" in pandas 1 and 2), or [None] where it stays missing
      (pandas 3) *)
  astype_str_na : option string;
  (** [Series.mean()] of a non-empty list of numbers, as a double *)
  float_mean : list Q -> Q;
  (** [LinearRegression().fit(X, y)]: coefficients and intercept *)
  lstsq : list (list Q) -> list Q -> result (list Q * Q);
  (** the message of the [jsonschema.ValidationError] that the arguments
      of a call raise against the input schema of the tool of that name *)
  validation_message : string -> gmap string value -> string
}.

(** ** [str.strip] and [str.lower] on ASCII text

    The two string methods as they act on ASCII text, for the reference
    instance of [Builtins] below: bytes from 128 on are neither white
    space nor letters here. The program itself is embedded over
    [py_strip] and [py_lower]. *)

(** [str.isspace] on a code point below 128. *)
Definition is_space (a : ascii) : bool :=
  let n := nat_of_ascii a in
  ((9 <=? n)%nat && (n <=? 13)%nat) || ((28 <=? n)%nat && (n <=? 32)%nat).

Fixpoint lstrip (s : string) : string :=
  match s with
  | EmptyString => EmptyString
  | String a s' => if is_space a then lstrip s' else s
  end.

Fixpoint rstrip (s : string) : string :=
  match s with
  | EmptyString => EmptyString
  | String a s' =>
      match rstrip s' with
      | EmptyString => if is_space a then EmptyString else String a EmptyString
      | t => String a t
      end
  end.

Definition strip (s : string) : string := rstrip (lstrip s).

Definition lower_ascii (a : ascii) : ascii :=
  let n := nat_of_ascii a in
  if (65 <=? n)%nat && (n <=? 90)%nat then ascii_of_nat (n + 32) else a.

Fixpoint lower (s : string) : string :=
  match s with
  | EmptyString => EmptyString
  | String a s' => String (lower_ascii a) (lower s')
  end.

(** ** Python builtins on JSON values *)

Section Python.
Context `{Builtins}.

(** Truth value of an object, as [if args[col]] tests it. *)
Definition truthy (v : value) : bool :=
  match v with
  | VNull => false
  | VBool b => b
  | VNum q => negb (Qeq_bool q 0)
  | VStr s => negb (String.eqb s "")
  | VList l => match l with [] => false | _ => true end
  | VDict d => match d with [] => false | _ => true end
  end.

Definition py_str (v : value) : string :=
  match v with
  | VStr s => s
  | _ => repr v
  end.

(** [int(v)]: a number is truncated towards zero. *)
Definition py_int (v : value) : result Z :=
  match v with
  | VNum q => Ok (Z.quot (Qnum q) (Z.pos (Qden q)))
  | VBool b => Ok (if b then 1 else 0)%Z
  | VStr s => int_of_str s
  | VNull => Raise (TypeError
      "int() argument must be a string, a bytes-like object or a real number, not 'NoneType'")
  | VList _ => Raise (TypeError
      "int() argument must be a string, a bytes-like object or a real number, not 'list'")
  | VDict _ => Raise (TypeError
      "int() argument must be a string, a bytes-like object or a real number, not 'dict'")
  end.

Definition py_float (v : value) : result Q :=
  match v with
  | VNum q => float_of_num q
  | VBool b => Ok (if b then 1 else 0)%Q
  | VStr s => float_of_str s
  | VNull => Raise (TypeError
      "float() argument must be a string or a real number, not 'NoneType'")
  | VList _ => Raise (TypeError
      "float() argument must be a string or a real number, not 'list'")
  | VDict _ => Raise (TypeError
      "float() argument must be a string or a real number, not 'dict'")
  end.

(** [s is not None] *)
Definition is_not_None (v : value) : bool :=
  match v with
  | VNull => false
  | _ => true
  end.
End Python.

(** ** DataFrames *)

Record row := {
  Car_Make : cell;
  Car_Model : cell;
  Year : cell;
  Mileage : cell;
  Price : cell;
  Fuel_Type : cell;
  Color : cell;
  Transmission : cell;
  Options_Features : cell;
  Condition : cell;
  Accident : cell
}.

Record DataFrame := {
  columns : list string;
  rows : list row
}.

(** [df[mask]] with a row-wise boolean mask. *)
Definition df_mask (p : row -> bool) (df : DataFrame) : DataFrame :=
  {| columns := columns df; rows := List.filter p (rows df) |}.

(** Column-wise assignment [df[c] = f(df[c])], seen row by row. *)
Definition df_apply (f : row -> row) (df : DataFrame) : DataFrame :=
  {| columns := columns df; rows := List.map f (rows df) |}.

Definition isna (c : cell) : bool :=
  match c with
  | NaN => true
  | _ => false
  end.

(** Comparisons of a numeric column with a scalar: NaN compares false.
    The program only compares columns that [to_numeric] has made numeric,
    so the [Str] case is never reached from [_clean_df]. *)
Definition cell_ge (c : cell) (b : Q) : bool :=
  match c with
  | Num q => Qle_bool b q
  | _ => false
  end.

Definition cell_le (c : cell) (b : Q) : bool :=
  match c with
  | Num q => Qle_bool q b
  | _ => false
  end.

Definition cell_gt (c : cell) (b : Q) : bool :=
  match c with
  | Num q => negb (Qle_bool q b)
  | _ => false
  end.

Definition REQUIRED_COLUMNS : list string :=
  ["Car Make"; "Car Model"; "Year"; "Mileage"; "Price"; "Fuel Type";
   "Color"; "Transmission"; "Options/Features"; "Condition"; "Accident"].

Definition mem_str (c : string) (l : list string) : bool :=
  existsb (String.eqb c) l.

(** ** Loading and cleaning ([tools.py], lines 19-41) *)

Section Cleaning.
Context `{Builtins}.

(** The message only has to name the missing columns; the exact
    rendering of the Python list is left to [repr]. *)
Definition _check_columns (df : DataFrame) : result DataFrame :=
  let missing :=
    List.filter (fun c => negb (mem_str c (columns df))) REQUIRED_COLUMNS in
  match missing with
  | [] => Ok df
  | _ => Raise (ValueError ("Missing columns in dataset: "
                  +:+ repr (VList (List.map VStr missing))))
  end.

Definition to_numeric (c : cell) : cell :=
  match c with
  | NaN => NaN
  | Num q => Num q
  | Str s => match to_numeric_str s with
             | Some q => Num q
             | None => NaN
             end
  end.

(** [astype(str)] at one cell: a number becomes its text; a missing
    value becomes a text or stays missing, as the installed pandas has
    it ([astype_str_na]). *)
Definition astype_str (c : cell) : cell :=
  match c with
  | NaN => match astype_str_na with
           | Some s => Str s
           | None => NaN
           end
  | Num q => Str (str_of_float q)
  | Str s => Str s
  end.

(** [.astype(str).str.strip()] at one cell: the [.str] methods pass a
    missing value on. *)
Definition str_strip (c : cell) : cell :=
  match astype_str c with
  | Str s => Str (py_strip s)
  | _ => NaN
  end.

Definition coerce_numeric (r : row) : row :=
  {| Car_Make := Car_Make r; Car_Model := Car_Model r;
     Year := to_numeric (Year r);
     Mileage := to_numeric (Mileage r);
     Price := to_numeric (Price r);
     Fuel_Type := Fuel_Type r; Color := Color r;
     Transmission := Transmission r;
     Options_Features := Options_Features r;
     Condition := Condition r; Accident := Accident r |}.

Definition normalize_strings (r : row) : row :=
  {| Car_Make := str_strip (Car_Make r);
     Car_Model := str_strip (Car_Model r);
     Year := Year r; Mileage := Mileage r; Price := Price r;
     Fuel_Type := str_strip (Fuel_Type r);
     Color := str_strip (Color r);
     Transmission := str_strip (Transmission r);
     Options_Features := Options_Features r;
     Condition := str_strip (Condition r);
     Accident := str_strip (Accident r) |}.

(** [dropna(subset=[...])] keeps the rows with no missing value in the
    seven listed columns. *)
Definition dropna_subset (r : row) : bool :=
  negb (isna (Year r) || isna (Mileage r) || isna (Price r)
        || isna (Fuel_Type r) || isna (Transmission r)
        || isna (Condition r) || isna (Accident r)).

Definition _clean_df (df : DataFrame) : DataFrame :=
  let df := df_apply coerce_numeric df in
  let df := df_apply normalize_strings df in
  let df := df_mask dropna_subset df in
  let df := df_mask (fun r => cell_ge (Year r) 2010 && cell_le (Year r) 2025) df in
  let df := df_mask (fun r => cell_ge (Mileage r) 0 && cell_le (Mileage r) 300000) df in
  let df := df_mask (fun r => cell_gt (Price r) 0 && cell_le (Price r) 400000) df in
  df.
End Cleaning.

(** ** Columns and argument objects *)

Inductive column :=
| C_Car_Make | C_Car_Model | C_Year | C_Mileage | C_Price | C_Fuel_Type
| C_Color | C_Transmission | C_Options_Features | C_Condition | C_Accident.

Definition label (c : column) : string :=
  match c with
  | C_Car_Make => "Car Make"
  | C_Car_Model => "Car Model"
  | C_Year => "Year"
  | C_Mileage => "Mileage"
  | C_Price => "Price"
  | C_Fuel_Type => "Fuel Type"
  | C_Color => "Color"
  | C_Transmission => "Transmission"
  | C_Options_Features => "Options/Features"
  | C_Condition => "Condition"
  | C_Accident => "Accident"
  end.

(** [df[col]] at one row. *)
Definition get (c : column) (r : row) : cell :=
  match c with
  | C_Car_Make => Car_Make r
  | C_Car_Model => Car_Model r
  | C_Year => Year r
  | C_Mileage => Mileage r
  | C_Price => Price r
  | C_Fuel_Type => Fuel_Type r
  | C_Color => Color r
  | C_Transmission => Transmission r
  | C_Options_Features => Options_Features r
  | C_Condition => Condition r
  | C_Accident => Accident r
  end.

(** The [arguments] dict of a tool call. *)
Abbreviation Args := (gmap string value).

(** [args.get(k)]: [None] when the key is absent. *)
Definition dict_get (args : Args) (k : string) : value :=
  default VNull (args !! k).

(** [args.get(k, d)] *)
Definition dict_get_default (args : Args) (k : string) (d : value) : value :=
  default d (args !! k).

(** [args[k]] *)
Definition dict_item (args : Args) (k : string) : result value :=
  match args !! k with
  | Some v => Ok v
  | None => Raise (KeyError k)
  end.

(** ** Filtering ([tools.py], lines 75-94) *)

Section Filtering.
Context `{Builtins}.

Definition _norm (v : value) : string := py_lower (py_strip (py_str v)).

(** [q[col].astype(str).str.strip().str.lower()] at one row; [None] is
    a missing value, which the [.str] methods pass on. *)
Definition col_norm (c : cell) : option string :=
  match astype_str c with
  | Str s => Some (py_lower (py_strip s))
  | _ => None
  end.

(** [... == _norm(args[col])] at one row: a missing value equals no
    string. *)
Definition norm_eq (c : cell) (v : value) : bool :=
  match col_norm c with
  | Some s => String.eqb s (_norm v)
  | None => false
  end.

Definition exact_columns : list column :=
  [C_Car_Make; C_Car_Model; C_Fuel_Type; C_Transmission; C_Condition; C_Accident].

(** One turn of the loop over the exact-match columns. *)
Definition exact_step (args : Args) (q : DataFrame) (col : column) : DataFrame :=
  match args !! label col with
  | Some v =>
      if truthy v
      then df_mask (fun r => norm_eq (get col r) v) q
      else q
  | None => q
  end.

(** One of the four [if args.get(k) is not None] blocks. *)
Definition range_step (args : Args) (k : string) (conv : value -> result Q)
    (test : row -> Q -> bool) (q : DataFrame) : result DataFrame :=
  if is_not_None (dict_get args k)
  then v ← dict_item args k; b ← conv v; Ok (df_mask (fun r => test r b) q)
  else Ok q.

Definition int_bound (v : value) : result Q := n ← py_int v; Ok (inject_Z n).

(** The four keys that carry a numeric bound, and the conversion each
    bound goes through: [int] for the years, [float] for price and
    mileage. *)
Definition bound_keys : list string :=
  ["Year_min"; "Year_max"; "Price_max"; "Mileage_max"].

Definition bound_conversion (k : string) : value -> result Q :=
  if String.eqb k "Year_min" || String.eqb k "Year_max" then int_bound else py_float.

Definition _apply_filters (df : DataFrame) (args : Args) : result DataFrame :=
  let q := df in
  let q := fold_left (exact_step args) exact_columns q in
  q ← range_step args "Year_min" int_bound (fun r b => cell_ge (Year r) b) q;
  q ← range_step args "Year_max" int_bound (fun r b => cell_le (Year r) b) q;
  q ← range_step args "Price_max" py_float (fun r b => cell_le (Price r) b) q;
  q ← range_step args "Mileage_max" py_float (fun r b => cell_le (Mileage r) b) q;
  Ok q.
End Filtering.

(** ** Sorting and truncation *)

(** The sort key of a numeric cell; pandas sorts missing values last in
    either direction. The program sorts cleaned frames only, whose
    [Price] and [Year] are numbers; any other cell sorts as missing. *)
Definition key_of (c : cell) : option Q :=
  match c with
  | Num q => Some q
  | _ => None
  end.

(** [a] may stand before [b] in ascending order. *)
Definition asc_le (a b : cell) : bool :=
  match key_of a, key_of b with
  | Some x, Some y => Qle_bool x y
  | Some _, None => true
  | None, Some _ => false
  | None, None => true
  end.

(** [a] may stand before [b] in descending order. *)
Definition desc_le (a b : cell) : bool :=
  match key_of a, key_of b with
  | Some x, Some y => Qle_bool y x
  | Some _, None => true
  | None, Some _ => false
  | None, None => true
  end.

(** [by=["Price","Year"], ascending=[True, False]] *)
Definition price_year_le (r1 r2 : row) : bool :=
  match key_of (Price r1), key_of (Price r2) with
  | Some p1, Some p2 =>
      match (p1 ?= p2)%Q with
      | Lt => true
      | Eq => desc_le (Year r1) (Year r2)
      | Gt => false
      end
  | Some _, None => true
  | None, Some _ => false
  | None, None => desc_le (Year r1) (Year r2)
  end.

(** pandas does not fix the order of rows with equal keys; the merge
    sort keeps them in the order of the frame. *)
Definition sort_values_price_year (rs : list row) : list row :=
  merge_sort (fun a b => Is_true (price_year_le a b)) rs.

(** [by="Price", ascending=asc] *)
Definition sort_values_price (asc : bool) (rs : list row) : list row :=
  merge_sort (fun a b => Is_true (if asc then asc_le (Price a) (Price b)
                                   else desc_le (Price a) (Price b))) rs.

(** [df.head(n)]: the first [n] rows, or all but the last [-n] rows when
    [n] is negative. *)
Definition df_head {A} (n : Z) (l : list A) : list A :=
  if (0 <=? n)%Z then take (Z.to_nat n) l
  else take (length l - Z.to_nat (- n)) l.

(** A record of [to_dict(orient="records")]: the projected columns in
    order, each with its cell. *)
Abbreviation record := (list (string * cell)).

(** [df[cols] ... .to_dict(orient="records")]. The projection keeps
    [Price] and [Year], so taking it before or after the sort gives the
    same records; it is applied here when the records are built. *)
Definition to_record (cols : list column) (r : row) : record :=
  List.map (fun c => (label c, get c r)) cols.

Definition to_dict_records (cols : list column) (rs : list row) : list record :=
  List.map (to_record cols) rs.

(** [rec[k]] for a key of the record. *)
Fixpoint record_get (k : string) (rec : record) : option cell :=
  match rec with
  | [] => None
  | (k', c) :: rec' => if String.eqb k k' then Some c else record_get k rec'
  end.

(** ** The price model: one-hot encoding and linear regression *)

(** The fitted [Pipeline]: one vocabulary per categorical feature (the
    [categories_] of the encoder), then the regression's coefficients
    and intercept. *)
Record Pipeline := {
  categories : list (list cell);
  coef : list Q;
  intercept : Q
}.

Definition cell_eqb (a b : cell) : bool :=
  match a, b with
  | NaN, NaN => true
  | Num x, Num y => Qeq_bool x y
  | Str s, Str t => String.eqb s t
  | _, _ => false
  end.

(** Order of a vocabulary: strings by code point, missing last. *)
Definition cell_leb (a b : cell) : bool :=
  match a, b with
  | Str s, Str t => String.leb s t
  | Num x, Num y => Qle_bool x y
  | Num _, Str _ => true
  | Str _, Num _ => false
  | _, NaN => true
  | NaN, _ => false
  end.

Fixpoint unique (l : list cell) : list cell :=
  match l with
  | [] => []
  | c :: l' => c :: List.filter (fun d => negb (cell_eqb c d)) (unique l')
  end.

(** The vocabulary the encoder learns from one column. *)
Definition fit_categories (col : list cell) : list cell :=
  merge_sort (fun a b => Is_true (cell_leb a b)) (unique col).

(** [OneHotEncoder(handle_unknown="ignore").transform] on one feature:
    one indicator per vocabulary entry. *)
Definition one_hot (vocab : list cell) (c : cell) : list Q :=
  List.map (fun v => if cell_eqb v c then 1%Q else 0%Q) vocab.

Definition feature_cols_numeric : list column := [C_Year; C_Mileage].
Definition feature_cols_categ : list column :=
  [C_Fuel_Type; C_Transmission; C_Condition; C_Accident; C_Car_Make; C_Car_Model].

(** A numeric feature handed to the regression must be a number. *)
Definition as_float (c : cell) : result Q :=
  match c with
  | Num q => Ok q
  | NaN => Raise (ValueError "Input X contains NaN.")
  | Str s => Raise (ValueError ("could not convert string to float: '" +:+ s +:+ "'"))
  end.

Fixpoint mapM {A B} (f : A -> result B) (l : list A) : result (list B) :=
  match l with
  | [] => Ok []
  | a :: l' => b ← f a; bs ← mapM f l'; Ok (b :: bs)
  end.

(** The [ColumnTransformer]: numeric columns passed through, then the
    indicator blocks of the categorical columns. *)
Definition encode_categ (cats : list (list cell)) (x : column -> cell) : list Q :=
  concat (zip_with (fun vocab c => one_hot vocab (x c)) cats feature_cols_categ).

Definition transform (cats : list (list cell)) (x : column -> cell) : result (list Q) :=
  nums ← mapM (fun c => as_float (x c)) feature_cols_numeric;
  Ok (nums ++ encode_categ cats x).

Fixpoint dot (w x : list Q) : Q :=
  match w, x with
  | a :: w', b :: x' => (a * b + dot w' x')%Q
  | _, _ => 0%Q
  end.

(** [model.predict] on one row. *)
Definition predict (model : Pipeline) (x : column -> cell) : result Q :=
  v ← transform (categories model) x;
  Ok (intercept model + dot (coef model) v)%Q.

(** The vocabulary of a categorical column of the training frame. *)
Definition vocabulary (df : DataFrame) (c : column) : list cell :=
  fit_categories (List.map (get c) (rows df)).

Section Fitting.
Context `{Builtins}.

(** [model.fit(X, y)] *)
Definition fit (df : DataFrame) : result Pipeline :=
  let cats := List.map (vocabulary df) feature_cols_categ in
  X ← mapM (fun r => transform cats (fun c => get c r)) (rows df);
  y ← mapM (fun r => as_float (Price r)) (rows df);
  '(w, b) ← lstsq X y;
  Ok {| categories := cats; coef := w; intercept := b |}.
End Fitting.

(** ** Dispatcher state ([server.py], lines 43-47) *)

Record State := {
  st_df : option DataFrame;
  st_model : option Pipeline;
  st_feature_columns : option (list string)
}.

(** [STATE] at process start. *)
Definition STATE0 : State :=
  {| st_df := None; st_model := None; st_feature_columns := None |}.

Section Init.
Context `{Builtins}.

(** [init_data_and_model]: [csv] is what [pd.read_csv(csv_path)] gives at
    the time of the call, a frame or an exception. The three entries of
    the state are assigned last, so a failed run leaves it as it was. *)
Definition init_data_and_model (csv : result DataFrame) (state : State) : result State :=
  df ← csv;
  df ← _check_columns df;
  let df := _clean_df df in
  model ← fit df;
  Ok {| st_df := Some df;
        st_model := Some model;
        st_feature_columns :=
          Some (List.map label (feature_cols_numeric ++ feature_cols_categ)) |}.
End Init.

(** ** Tools ([tools.py], lines 97-142) *)

(** The dicts the tools and the dispatcher return, one constructor per
    shape; the field names are the keys. *)
Inductive payload :=
| FilterCarsResult (count : nat) (results : list record)
| RecommendResult (budget_max : Q) (count : nat) (recommendations : list record)
| EstimateResult (input : record) (estimated_price : Q)
| AveragePriceResult (filters : Args) (average_price : option Q) (samples : nat)
| TopCarsResult (order : value) (results : list record)
| UnknownToolError (error : string)
| ErrorPayload (error : string) (args : Args).

Definition results_cols : list column :=
  [C_Car_Make; C_Car_Model; C_Year; C_Mileage; C_Price; C_Fuel_Type;
   C_Transmission; C_Condition; C_Accident].

Section Tools.
Context `{Builtins}.

(** [float(s.mean())]: missing values are skipped, and the mean of the
    numbers is the double pandas computes ([float_mean]). With no number
    at all the mean is NaN, rendered as [None] here. *)
Definition mean (l : list cell) : option Q :=
  match omap key_of l with
  | [] => None
  | xs => Some (float_mean xs)
  end.

Definition tool_filter_cars (df : DataFrame) (args : Args) : result payload :=
  q ← _apply_filters df args;
  limit ← py_int (dict_get_default args "limit" (VNum 20));
  let cols := results_cols ++ [C_Color] in
  let out := to_dict_records cols (df_head limit (sort_values_price_year (rows q))) in
  Ok (FilterCarsResult (length out) out).

Definition tool_recommend (df : DataFrame) (args : Args) : result payload :=
  match args !! "budget_max" with
  | None => Raise (ValueError "budget_max is required")
  | Some budget_max =>
      let args_local := <["Price_max" := budget_max]> args in
      q ← _apply_filters df args_local;
      let cols := results_cols in
      limit ← py_int (dict_get_default args "limit" (VNum 10));
      let out := to_dict_records cols (df_head limit (sort_values_price_year (rows q))) in
      b ← py_float budget_max;
      Ok (RecommendResult b (length out) out)
  end.

(** The [payload] dict of [tool_estimate_price], built key by key. *)
Definition estimation_payload (args : Args) : result record :=
  let make := py_str (dict_get_default args "Car Make" (VStr "")) in
  let model := py_str (dict_get_default args "Car Model" (VStr "")) in
  year ← (v ← dict_item args "Year"; py_int v);
  mileage ← (v ← dict_item args "Mileage"; py_float v);
  fuel ← dict_item args "Fuel Type";
  transmission ← dict_item args "Transmission";
  let condition := py_str (dict_get_default args "Condition" (VStr "Used")) in
  let accident := py_str (dict_get_default args "Accident" (VStr "No")) in
  Ok [("Car Make", Str make); ("Car Model", Str model);
      ("Year", Num (inject_Z year)); ("Mileage", Num mileage);
      ("Fuel Type", Str (py_str fuel)); ("Transmission", Str (py_str transmission));
      ("Condition", Str condition); ("Accident", Str accident)].

(** [pd.DataFrame([payload])[feature_columns]]: a label that is not a
    key of the payload raises [KeyError]; of pandas' message only the
    label is kept. *)
Definition select_columns (cols : list string) (rec : record) : result record :=
  mapM (fun c => match record_get c rec with
                 | Some v => Ok (c, v)
                 | None => Raise (KeyError c)
                 end) cols.

(** The one-row frame as the transformer reads it, by column label; a
    feature column that is absent is an error of the transformer. *)
Definition frame_row (rec : record) : result (column -> cell) :=
  _ ← mapM (fun c => match record_get (label c) rec with
                     | Some v => Ok v
                     | None => Raise (ValueError "columns are missing")
                     end) (feature_cols_numeric ++ feature_cols_categ);
  Ok (fun c => default NaN (record_get (label c) rec)).

Definition tool_estimate_price (model : Pipeline) (feature_columns : list string)
    (args : Args) : result payload :=
  payload ← estimation_payload args;
  X_pred ← select_columns feature_columns payload;
  x ← frame_row X_pred;
  pred ← predict model x;
  Ok (EstimateResult payload pred).

(** On a frame whose prices are all missing the mean is NaN, a case a
    cleaned frame never meets. *)
Definition tool_average_price (df : DataFrame) (args : Args) : result payload :=
  q ← _apply_filters df args;
  let avg := match rows q with
             | [] => None
             | _ => mean (List.map Price (rows q))
             end in
  let n := length (rows q) in
  Ok (AveragePriceResult args avg n).

Definition is_cheap (order : value) : bool :=
  match order with
  | VStr s => String.eqb s "cheap"
  | _ => false
  end.

Definition tool_top_cars (df : DataFrame) (args : Args) : result payload :=
  q ← _apply_filters df args;
  n ← py_int (dict_get_default args "n" (VNum 10));
  let order := dict_get_default args "sort_order" (VStr "cheap") in
  let asc := is_cheap order in
  let cols := results_cols in
  let out := to_dict_records cols (df_head n (sort_values_price asc (rows q))) in
  Ok (TopCarsResult order out).
End Tools.

(** ** Declared tools ([server.py], lines 49-149) *)

Inductive json_type := TString | TInteger | TNumber.

(** A number with no fractional part. *)
Definition is_integral (q : Q) : bool :=
  Qeq_bool (inject_Z (Z.quot (Qnum q) (Z.pos (Qden q)))) q.

Record property := {
  p_name : string;
  p_type : json_type;
  p_enum : option (list string);
  p_default : option value
}.

Record Tool := {
  name : string;
  properties : list property;
  required : list string;
  additionalProperties : bool
}.

Definition prop (n : string) (t : json_type) : property :=
  {| p_name := n; p_type := t; p_enum := None; p_default := None |}.

Definition prop_default (n : string) (t : json_type) (d : value) : property :=
  {| p_name := n; p_type := t; p_enum := None; p_default := Some d |}.

Definition yes_no : property :=
  {| p_name := "Accident"; p_type := TString; p_enum := Some ["Yes"; "No"];
     p_default := None |}.

Definition filter_cars_tool : Tool :=
  {| name := "filter_cars";
     properties :=
       [prop "Car Make" TString; prop "Car Model" TString;
        prop "Year_min" TInteger; prop "Year_max" TInteger;
        prop "Price_max" TNumber; prop "Mileage_max" TNumber;
        prop "Fuel Type" TString; prop "Transmission" TString;
        prop "Condition" TString; yes_no;
        prop_default "limit" TInteger (VNum 20)];
     required := [];
     additionalProperties := false |}.

Definition recommend_tool : Tool :=
  {| name := "recommend";
     properties :=
       [prop "budget_max" TNumber; prop "Car Make" TString;
        prop "Fuel Type" TString; prop "Transmission" TString;
        prop "Condition" TString; yes_no; prop "Year_min" TInteger;
        prop_default "limit" TInteger (VNum 10)];
     required := ["budget_max"];
     additionalProperties := false |}.

Definition estimate_price_tool : Tool :=
  {| name := "estimate_price";
     properties :=
       [prop "Car Make" TString; prop "Car Model" TString;
        prop "Year" TInteger; prop "Mileage" TNumber;
        prop "Fuel Type" TString; prop "Transmission" TString;
        prop "Condition" TString; yes_no];
     required := ["Year"; "Mileage"; "Fuel Type"; "Transmission"];
     additionalProperties := false |}.

Definition average_price_tool : Tool :=
  {| name := "average_price";
     properties :=
       [prop "Car Make" TString; prop "Car Model" TString;
        prop "Fuel Type" TString; prop "Transmission" TString;
        prop "Condition" TString; yes_no;
        prop "Year_min" TInteger; prop "Year_max" TInteger];
     required := [];
     additionalProperties := false |}.

Definition top_cars_tool : Tool :=
  {| name := "top_cars";
     properties :=
       [prop_default "n" TInteger (VNum 10);
        {| p_name := "sort_order"; p_type := TString;
           p_enum := Some ["cheap"; "expensive"];
           p_default := Some (VStr "cheap") |};
        prop "Car Make" TString; prop "Fuel Type" TString;
        prop "Transmission" TString; prop "Condition" TString; yes_no];
     required := [];
     additionalProperties := false |}.

Definition list_tools : list Tool :=
  [filter_cars_tool; recommend_tool; estimate_price_tool; average_price_tool;
   top_cars_tool].

(** ** The dispatcher ([server.py], lines 151-180) *)

Definition is_None {A} (o : option A) : bool :=
  match o with
  | None => true
  | Some _ => false
  end.

(** A handler handed [None] for the frame, the model or the feature
    list fails on its first use of it, inside the [try] block. After the
    lazy initialisation the frame and the model are never [None]. *)
Definition not_None {A} (o : option A) : result A :=
  match o with
  | Some a => Ok a
  | None => Raise (TypeError "'NoneType' object is not subscriptable")
  end.

Section Dispatcher.
Context `{Builtins}.

(** Lines 157-158. *)
Definition lazy_init (csv : result DataFrame) (STATE : State) : result State :=
  if is_None (st_df STATE) || is_None (st_model STATE)
  then init_data_and_model csv STATE
  else Ok STATE.

(** The body of the [try] block, lines 161-172. *)
Definition route (STATE : State) (name : string) (arguments : Args) : result payload :=
  if String.eqb name "filter_cars" then
    df ← not_None (st_df STATE); tool_filter_cars df arguments
  else if String.eqb name "recommend" then
    df ← not_None (st_df STATE); tool_recommend df arguments
  else if String.eqb name "estimate_price" then
    model ← not_None (st_model STATE);
    feature_columns ← not_None (st_feature_columns STATE);
    tool_estimate_price model feature_columns arguments
  else if String.eqb name "average_price" then
    df ← not_None (st_df STATE); tool_average_price df arguments
  else if String.eqb name "top_cars" then
    df ← not_None (st_df STATE); tool_top_cars df arguments
  else Ok (UnknownToolError ("Unknown tool: " +:+ name)).

(** [call_tool]: the state after the call, and either the payload that
    is serialised into the text block or the exception that leaves the
    function. [_to_py] and [json.dumps] act on the payload's rendering
    only and are the identity on this representation. *)
Definition call_tool (csv : result DataFrame) (STATE : State)
    (name : string) (arguments : Args) : State * result payload :=
  match lazy_init csv STATE with
  | Raise e => (STATE, Raise e)
  | Ok STATE =>
      let result :=
        match route STATE name arguments with
        | Ok result => result
        | Raise e => ErrorPayload (str_exn e) arguments
        end in
      (STATE, Ok result)
  end.
End Dispatcher.

(** ** The registered handler ([server.py], line 151)

    [@server.call_tool()] registers [call_tool] behind the request
    handler of the MCP SDK. For a tool that [list_tools] declares, that
    handler validates the arguments of a call against the tool's
    [inputSchema] with [jsonschema] and, when they do not conform,
    answers an error result without calling the decorated function; a
    tool that is not declared is not validated. An exception that leaves
    the decorated function is answered as an error result as well. *)

(** The three declared types as [jsonschema] reads them: a [bool] is
    neither an integer nor a number, and a float with no fractional part
    is an integer. *)
Definition has_type (t : json_type) (v : value) : bool :=
  match t, v with
  | TString, VStr _ => true
  | TInteger, VNum q => is_integral q
  | TNumber, VNum _ => true
  | _, _ => false
  end.

Definition in_enum (vals : option (list string)) (v : value) : bool :=
  match vals with
  | None => true
  | Some l => match v with
              | VStr s => mem_str s l
              | _ => false
              end
  end.

(** The declared property of that name, if any. *)
Definition property_of (tool : Tool) (k : string) : option property :=
  List.find (fun p => String.eqb (p_name p) k) (properties tool).

(** One entry of the argument object against the schema: a declared
    property has its type and is in its enum, any other key is allowed
    by [additionalProperties] only. *)
Definition entry_valid (tool : Tool) (kv : string * value) : bool :=
  match property_of tool (fst kv) with
  | Some p => has_type (p_type p) (snd kv) && in_enum (p_enum p) (snd kv)
  | None => additionalProperties tool
  end.

(** [jsonschema.validate(instance=arguments, schema=tool.inputSchema)]
    raises nothing. *)
Definition schema_valid (tool : Tool) (arguments : Args) : bool :=
  forallb (fun k => negb (is_None (arguments !! k))) (required tool)
  && forallb (entry_valid tool) (map_to_list arguments).

(** What the registered handler answers: the content the decorated
    function returned, or an error result ([isError]) with its text. *)
Inductive response :=
| Content (p : payload)
| ErrorResult (text : string).

(** The declared tool of that name, if any. *)
Definition tool_definition (nm : string) : option Tool :=
  List.find (fun t => String.eqb (name t) nm) list_tools.

Section Registered.
Context `{Builtins}.

(** The decorated function is called; an exception that leaves it
    becomes an error result. *)
Definition run_handler (csv : result DataFrame) (STATE : State)
    (nm : string) (arguments : Args) : State * response :=
  match call_tool csv STATE nm arguments with
  | (STATE, Ok p) => (STATE, Content p)
  | (STATE, Raise e) => (STATE, ErrorResult (str_exn e))
  end.

Definition registered_call_tool (csv : result DataFrame) (STATE : State)
    (nm : string) (arguments : Args) : State * response :=
  match tool_definition nm with
  | Some tool =>
      if schema_valid tool arguments
      then run_handler csv STATE nm arguments
      else (STATE, ErrorResult ("Input validation error: "
                                +:+ validation_message nm arguments))
  | None => run_handler csv STATE nm arguments
  end.
End Registered.

(** ** The filter as the specification words it

    A second reading of the filter, by predicates on one record, against
    which [_apply_filters] is compared below. *)

(** The ten keys that carry a criterion. *)
Definition criteria_keys : list string :=
  List.map label [C_Car_Make; C_Car_Model; C_Fuel_Type; C_Transmission;
                  C_Condition; C_Accident]
  ++ ["Year_min"; "Year_max"; "Price_max"; "Mileage_max"].

Definition no_criteria (args : Args) : bool :=
  forallb (fun k => is_None (args !! k)) criteria_keys.

Definition integer_or_null (o : option value) : bool :=
  match o with
  | None => true
  | Some VNull => true
  | Some (VNum q) => is_integral q
  | Some _ => false
  end.

Definition number_or_null (o : option value) : bool :=
  match o with
  | None => true
  | Some VNull => true
  | Some (VNum _) => true
  | Some _ => false
  end.

(** The numeric bounds have the types the schemas declare for them
    (integer for the years, number for price and mileage), or are null
    or absent. *)
Definition bounds_typed (args : Args) : bool :=
  integer_or_null (args !! "Year_min") && integer_or_null (args !! "Year_max")
  && number_or_null (args !! "Price_max") && number_or_null (args !! "Mileage_max").

Section FilterSpec.
Context `{Builtins}.

(** Case-insensitive, trimmed equality of two strings. *)
Definition trimmed_ci_eq (a b : string) : bool :=
  String.eqb (py_lower (py_strip a)) (py_lower (py_strip b)).

(** A field of a record equals the value of a criterion: the field has
    a text, and the two texts are equal up to case and surrounding
    white space. *)
Definition field_eq (c : cell) (v : value) : bool :=
  match astype_str c with
  | Str s => trimmed_ci_eq s (py_str v)
  | _ => false
  end.

(** The exact-match predicate of a column as the claim states it: in
    force as soon as the key is present. *)
Definition exact_holds_present (args : Args) (r : row) (col : column) : bool :=
  match args !! label col with
  | Some v => field_eq (get col r) v
  | None => true
  end.

(** The same predicate, in force only when the value is truthy. *)
Definition exact_holds (args : Args) (r : row) (col : column) : bool :=
  match args !! label col with
  | Some v => negb (truthy v) || field_eq (get col r) v
  | None => true
  end.

(** The bound a key carries: the number that [int] or [float] reads
    from its value, when the key is present and not null. *)
Definition bound_of (args : Args) (k : string) : option Q :=
  match args !! k with
  | Some v =>
      if is_not_None v
      then match bound_conversion k v with
           | Ok b => Some b
           | Raise _ => None
           end
      else None
  | None => None
  end.

(** A numeric bound constrains a record when the key carries one. *)
Definition bound_holds (args : Args) (k : string) (test : Q -> bool) : bool :=
  match bound_of args k with
  | Some b => test b
  | None => true
  end.

Definition bounds_hold (args : Args) (r : row) : bool :=
  bound_holds args "Year_min" (fun b => cell_ge (Year r) b)
  && bound_holds args "Year_max" (fun b => cell_le (Year r) b)
  && bound_holds args "Price_max" (fun b => cell_le (Price r) b)
  && bound_holds args "Mileage_max" (fun b => cell_le (Mileage r) b).

Definition satisfies_present (args : Args) (r : row) : bool :=
  forallb (exact_holds_present args r) exact_columns && bounds_hold args r.

Definition satisfies (args : Args) (r : row) : bool :=
  forallb (exact_holds args r) exact_columns && bounds_hold args r.
End FilterSpec.

(** ** A reference instance of the builtins

    Enough of Python to run the program on examples. Plain decimal
    integer literals are parsed, and integers are printed, as Python
    does; other literals are refused and other numbers are printed as a
    fraction. Strings are stripped and lowered as ASCII text. [float]
    refuses the integers that round beyond the largest double and
    returns any other number as it is; the mean is the exact one. The
    regression is the constant model, whose intercept is the mean
    target. The instance is given for either behaviour of [astype(str)]
    on a missing value. *)

Definition parse_int (s : string) : option Z :=
  match NilZero.int_of_string (strip s) with
  | Some d => Some (Z.of_int d)
  | None => None
  end.

Definition print_float (q : Q) : string :=
  if is_integral q
  then NilZero.string_of_int (Z.to_int (Qnum q / Z.pos (Qden q))) +:+ ".0"
  else NilZero.string_of_int (Z.to_int (Qnum q)) +:+ "/"
       +:+ NilZero.string_of_int (Z.to_int (Z.pos (Qden q))).

Definition print_value (v : value) : string :=
  match v with
  | VNull => "None"
  | VBool true => "True"
  | VBool false => "False"
  | VNum q => if is_integral q
              then NilZero.string_of_int (Z.to_int (Qnum q / Z.pos (Qden q)))
              else print_float q
  | VStr s => s
  | VList _ => "[...]"
  | VDict _ => "{...}"
  end.

Definition constant_fit (X : list (list Q)) (y : list Q) : result (list Q * Q) :=
  match X with
  | [] => Raise (ValueError "Found array with 0 sample(s)")
  | x :: _ =>
      Ok (List.map (fun _ => 0%Q) x,
          (fold_right Qplus 0%Q y / inject_Z (Z.of_nat (length y)))%Q)
  end.

(** An integer that rounds beyond the largest double, on either side. *)
Definition double_overflow (q : Q) : bool :=
  let top := inject_Z (2 ^ 1024 - 2 ^ 970) in
  is_integral q && (Qle_bool top q || Qle_bool q (- top)).

Definition exact_mean (xs : list Q) : Q :=
  (fold_right Qplus 0 xs / inject_Z (Z.of_nat (length xs)))%Q.

Definition reference_with (na : option string) : Builtins.
Proof.
  refine
    {| int_of_str s :=
         match parse_int s with
         | Some z => Ok z
         | None => Raise (ValueError
             ("invalid literal for int() with base 10: '" +:+ s +:+ "'"))
         end;
       float_of_str s :=
         match parse_int s with
         | Some z => Ok (inject_Z z)
         | None => Raise (ValueError
             ("could not convert string to float: '" +:+ s +:+ "'"))
         end;
       float_of_num q :=
         if double_overflow q
         then Raise (OverflowError "int too large to convert to float")
         else Ok q;
       repr := print_value;
       py_strip := strip;
       py_lower := lower;
       py_strip_idempotent := _;
       to_numeric_str s :=
         match parse_int s with
         | Some z => Some (inject_Z z)
         | None => None
         end;
       str_of_float := print_float;
       astype_str_na := na;
       float_mean := exact_mean;
       lstsq := constant_fit;
       validation_message nm _ :=
         "the arguments do not conform to the input schema of " +:+ nm |}.
  assert (Hr : forall s, rstrip (rstrip s) = rstrip s).
  { induction s as [|a s IH]; simpl; [reflexivity|].
    destruct (rstrip s) as [|b u] eqn:Hu.
    - destruct (is_space a) eqn:Ha; simpl; [reflexivity|]. by rewrite Ha.
    - change (rstrip (String a (String b u))) with
        (match rstrip (String b u) with
         | EmptyString => if is_space a then EmptyString else String a EmptyString
         | t => String a t
         end).
      rewrite IH. reflexivity. }
  assert (Hl : forall s, match lstrip s with
                         | EmptyString => True
                         | String a _ => is_space a = false
                         end).
  { induction s as [|a s IH]; simpl; [exact I|].
    destruct (is_space a) eqn:Ha; [exact IH | exact Ha]. }
  intros s. unfold strip. specialize (Hl s).
  destruct (lstrip s) as [|a t]; [reflexivity|].
  assert (Hk : exists u, rstrip (String a t) = String a u).
  { simpl. destruct (rstrip t); [rewrite Hl|]; eauto. }
  destruct Hk as [u Hu]. rewrite Hu. simpl lstrip. rewrite Hl, <- Hu. apply Hr.
Defined.

(** [astype(str)] as pandas 1 and 2 have it, and as pandas 3 has it. *)
Definition reference_builtins : Builtins := reference_with (Some "nan").
Definition pandas3_builtins : Builtins := reference_with None.

(** ** Example data *)

Definition mk_row (make model : string) (year mileage price : Z)
    (fuel transmission : cell) : row :=
  {| Car_Make := Str make; Car_Model := Str model;
     Year := Num (inject_Z year); Mileage := Num (inject_Z mileage);
     Price := Num (inject_Z price);
     Fuel_Type := fuel; Color := Str "Red"; Transmission := transmission;
     Options_Features := Str "GPS"; Condition := Str "Used";
     Accident := Str "No" |}.

Definition toyota : row :=
  mk_row "Toyota" "Corolla" 2018 40000 12000 (Str "Gasoline") (Str "Automatic").
Definition honda : row :=
  mk_row "Honda" "Civic" 2016 60000 9000 (Str "Gasoline") (Str "Manual").
Definition honda_new : row :=
  mk_row "Honda" "Fit" 2019 30000 9000 (Str "Gasoline") (Str "Manual").

(** A table as [read_csv] gives it, with all required columns. *)
Definition csv_two : DataFrame :=
  {| columns := REQUIRED_COLUMNS; rows := [toyota; honda] |}.
Definition csv_three : DataFrame :=
  {| columns := REQUIRED_COLUMNS; rows := [toyota; honda; honda_new] |}.

(** A table whose only record has an empty [Fuel Type] field. *)
Definition csv_missing_fuel : DataFrame :=
  {| columns := REQUIRED_COLUMNS;
     rows := [mk_row "Ford" "Focus" 2015 1000 10000 NaN (Str "Manual")] |}.

(** A table without the [Price] column; the cells of an absent column
    are never read. *)
Definition csv_no_price : DataFrame :=
  {| columns := ["Car Make"; "Car Model"; "Year"; "Mileage"; "Fuel Type";
                 "Color"; "Transmission"; "Options/Features"; "Condition";
                 "Accident"];
     rows := [toyota] |}.

(** Argument objects of the examples. *)
Definition args_empty_make : Args := {[ "Car Make" := VStr "" ]}.
Definition args_gasoline_2017 : Args :=
  <[ "Fuel Type" := VStr " gasoline" ]> {[ "Year_min" := VNum 2017 ]}.
Definition args_year_min_fraction : Args := {[ "Year_min" := VNum (4031 # 2) ]}.
Definition args_price_max_huge : Args :=
  {[ "Price_max" := VNum (inject_Z (10 ^ 400)) ]}.


(** ** Invariants of a cleaned record *)

Definition in_range (c : cell) (lo hi : Q) : bool := cell_ge c lo && cell_le c hi.

(** The range and non-null invariants of the data model. *)
Definition invariants (r : row) : bool :=
  in_range (Year r) 2010 2025
  && in_range (Mileage r) 0 300000
  && (cell_gt (Price r) 0 && cell_le (Price r) 400000)
  && negb (isna (Year r) || isna (Mileage r) || isna (Price r)
           || isna (Fuel_Type r) || isna (Transmission r)
           || isna (Condition r) || isna (Accident r)).

Definition cleaned (df : DataFrame) : Prop :=
  Forall (fun r => invariants r = true) (rows df).

(** Record [a] may stand before record [b] in a result list: its price
    is not greater, and at equal price its year is not smaller. *)
Definition price_year_ordered (a b : record) : Prop :=
  exists pa ya pb yb : Q,
    record_get "Price" a = Some (Num pa) /\ record_get "Year" a = Some (Num ya)
    /\ record_get "Price" b = Some (Num pb) /\ record_get "Year" b = Some (Num yb)
    /\ (pa <= pb)%Q /\ ((pa == pb)%Q -> (yb <= ya)%Q).

Definition args_limit_minus_one : Args := {[ "limit" := VNum (-1) ]}.
Definition args_budget_10000 : Args := {[ "budget_max" := VNum 10000 ]}.
Definition args_budget_null : Args := {[ "budget_max" := VNull ]}.


(** The rows a ranking tool selects before it projects them: the
    records that satisfy the criteria, sorted, then truncated. *)
Definition selected `{Builtins} (df : DataFrame) (criteria : Args) (limit : Z) : list row :=
  df_head limit (sort_values_price_year (List.filter (satisfies criteria) (rows df))).


(** ** Vocabulary of the dispatcher's claims *)

Definition initialized (STATE : State) : Prop :=
  is_Some (st_df STATE) /\ is_Some (st_model STATE).

(** The tool names [list_tools] declares. *)
Definition declared (nm : string) : Prop := In nm (List.map name list_tools).

(** A handler's success object: the dict of the tool of that name. *)
Definition success_object (nm : string) (p : payload) : Prop :=
  match p with
  | FilterCarsResult count results => nm = "filter_cars" /\ count = length results
  | RecommendResult _ count recommendations =>
      nm = "recommend" /\ count = length recommendations
  | EstimateResult _ _ => nm = "estimate_price"
  | AveragePriceResult _ _ _ => nm = "average_price"
  | TopCarsResult _ _ => nm = "top_cars"
  | UnknownToolError _ => False
  | ErrorPayload _ _ => False
  end.

(** The keys of the argument object each handler reads. *)
Definition handler_reads (nm : string) : list string :=
  if String.eqb nm "filter_cars" then criteria_keys ++ ["limit"]
  else if String.eqb nm "recommend" then criteria_keys ++ ["budget_max"; "limit"]
  else if String.eqb nm "estimate_price" then
    ["Car Make"; "Car Model"; "Year"; "Mileage"; "Fuel Type"; "Transmission";
     "Condition"; "Accident"]
  else if String.eqb nm "average_price" then criteria_keys
  else if String.eqb nm "top_cars" then criteria_keys ++ ["n"; "sort_order"]
  else [].

(** The feature list [init_data_and_model] stores. *)
Definition stored_feature_columns : list string :=
  List.map label (feature_cols_numeric ++ feature_cols_categ).


Definition args_bogus_property : Args := {[ "colour" := VStr "red" ]}.
Definition args_estimate_unseen : Args :=
  <[ "Year" := VNum 2020 ]> (<[ "Mileage" := VNum 15000 ]>
  (<[ "Fuel Type" := VStr "Hydrogen" ]> {[ "Transmission" := VStr "Automatic" ]})).


(** Two argument objects with the same entries at the given keys. *)
Definition agree_on (keys : list string) (args args' : Args) : Prop :=
  forall k, In k keys -> args !! k = args' !! k.


(** The argument objects of the specification's example scenario. *)
Definition args_scenario_filter : Args :=
  <[ "Fuel Type" := VStr "Gasoline" ]> (<[ "Year_min" := VNum 2015 ]>
  {[ "limit" := VNum 2 ]}).
Definition args_scenario_ford : Args := {[ "Car Make" := VStr "Ford" ]}.

(** ** Vocabulary of the further properties *)

Definition args_year_min_abc : Args := {[ "Year_min" := VStr "abc" ]}.
Definition args_make_toyota : Args := {[ "Car Make" := VStr "Toyota" ]}.

(** The three numbers of a record are in the ranges the cleaning keeps. *)
Definition numbers_in_range (r : row) : bool :=
  in_range (Year r) 2010 2025
  && in_range (Mileage r) 0 300000
  && (cell_gt (Price r) 0 && cell_le (Price r) 400000).

(** The columns [_clean_df] normalises as strings. *)
Definition normalized_columns : list column :=
  [C_Car_Make; C_Car_Model; C_Fuel_Type; C_Color; C_Transmission;
   C_Condition; C_Accident].

(** The categorical columns among those [dropna] checks. *)
Definition checked_text_columns : list column :=
  [C_Fuel_Type; C_Transmission; C_Condition; C_Accident].

(** A record has a missing value in one of them. *)
Definition missing_text (r : row) : bool :=
  isna (Fuel_Type r) || isna (Transmission r) || isna (Condition r)
  || isna (Accident r).

(** Whether the cleaning keeps a record of the table: its three numbers
    are in range once coerced and, where [astype(str)] keeps a missing
    value missing, none of the four checked categorical fields is
    missing. *)
Definition kept `{Builtins} (r : row) : bool :=
  numbers_in_range (coerce_numeric r)
  && match astype_str_na with
     | Some _ => true
     | None => negb (missing_text r)
     end.

(** A cell that holds a string which [strip] leaves as it is. *)
Definition stripped_text `{Builtins} (c : cell) : Prop :=
  exists s, c = Str s /\ py_strip s = s.

(** What holds of a record once cleaned, spelled out. *)
Definition clean_record `{Builtins} (r : row) : Prop :=
  (exists y, Year r = Num y /\ (2010 <= y)%Q /\ (y <= 2025)%Q)
  /\ (exists m, Mileage r = Num m /\ (0 <= m)%Q /\ (m <= 300000)%Q)
  /\ (exists p, Price r = Num p /\ (0 < p)%Q /\ (p <= 400000)%Q)
  /\ (forall c, In c checked_text_columns -> stripped_text (get c r))
  /\ (forall c, In c normalized_columns ->
        get c r = NaN \/ stripped_text (get c r)).

(** A table whose second record has a year that is not a number and
    whose third record is too old. *)
Definition csv_dirty : DataFrame :=
  {| columns := REQUIRED_COLUMNS;
     rows := [ {| Car_Make := Str " Toyota "; Car_Model := Str "Corolla";
                  Year := Str "2018"; Mileage := Num 40000; Price := Num 12000;
                  Fuel_Type := Str "Gasoline "; Color := NaN;
                  Transmission := Str "Automatic"; Options_Features := NaN;
                  Condition := Str "Used"; Accident := Str "No" |};
               {| Car_Make := Str "Honda"; Car_Model := Str "Civic";
                  Year := Str "unknown"; Mileage := Num 60000; Price := Num 9000;
                  Fuel_Type := Str "Gasoline"; Color := Str "Blue";
                  Transmission := Str "Manual"; Options_Features := Str "GPS";
                  Condition := Str "Used"; Accident := Str "No" |};
               mk_row "Ford" "Model T" 1927 1000 5000 (Str "Gasoline") (Str "Manual") ] |}.

(** The number of records of a frame that satisfy the criteria. *)
Definition matches `{Builtins} (df : DataFrame) (criteria : Args) : nat :=
  length (List.filter (satisfies criteria) (rows df)).

(** Record [a] may stand before record [b] in a list of cheapest-first
    results, and in a list of most-expensive-first results. *)
Definition price_not_greater (a b : record) : Prop :=
  exists pa pb : Q,
    record_get "Price" a = Some (Num pa) /\ record_get "Price" b = Some (Num pb)
    /\ (pa <= pb)%Q.

Definition price_not_smaller (a b : record) : Prop :=
  exists pa pb : Q,
    record_get "Price" a = Some (Num pa) /\ record_get "Price" b = Some (Num pb)
    /\ (pb <= pa)%Q.

(** The rows top_cars selects before it projects them. *)
Definition top_selected `{Builtins} (df : DataFrame) (criteria : Args) (n : Z) : list row :=
  df_head n (sort_values_price (is_cheap (dict_get_default criteria "sort_order" (VStr "cheap")))
               (List.filter (satisfies criteria) (rows df))).

Definition args_expensive_2 : Args :=
  <[ "sort_order" := VStr "expensive" ]> {[ "n" := VNum 2 ]}.

(** The required keys of an estimation, in the order the handler reads
    them, and the first of them that an argument object lacks. *)
Definition estimate_required : list string :=
  ["Year"; "Mileage"; "Fuel Type"; "Transmission"].

Definition first_missing (args : Args) : option string :=
  List.find (fun k => is_None (args !! k)) estimate_required.

(** A key that is absent, or whose value the conversion reads. *)
Definition converts_if_present {A} (conv : value -> result A) (o : option value) : Prop :=
  forall v, o = Some v -> exists a, conv v = Ok a.

(** The optional keys of an estimation with the values the handler
    takes when they are absent. *)
Definition estimate_defaults : list (string * value) :=
  [("Car Make", VStr ""); ("Car Model", VStr "");
   ("Condition", VStr "Used"); ("Accident", VStr "No")].

(** The states the dispatcher can be in: as at process start, or holding
    a cleaned dataset, the model fitted on it and the stored feature
    list. *)
Definition state_ok `{Builtins} (STATE : State) : Prop :=
  STATE = STATE0
  \/ exists df model,
       STATE = {| st_df := Some (_clean_df df);
                  st_model := Some model;
                  st_feature_columns := Some stored_feature_columns |}
       /\ fit (_clean_df df) = Ok model.

Definition args_year_only : Args := {[ "Year" := VNum 2020 ]}.

(** The state after a first call on the two-record table. *)
Definition state_two : State :=
  fst (@call_tool reference_builtins (Ok csv_two) STATE0 "filter_cars" ∅).

(** ** Result normalisation ([server.py], lines 21-33) *)

(** A Python scalar: [None], a [bool], an [int], a [float] or a [str]. *)
Inductive scalar :=
| SNone
| SBool (b : bool)
| SInt (z : Z)
| SFloat (q : Q)
| SStr (s : string).

(** A scalar object: a Python scalar, or a numpy scalar (an instance of
    [np.generic]) whose [item()] is that Python scalar. *)
Inductive atom :=
| Py (v : scalar)
| Np (v : scalar).

(** The objects [_to_py] tells apart: scalars, dicts, lists, and any
    other container, of which the tuple stands here. *)
#[local] Unset Elimination Schemes.
Inductive pyobj :=
| Atom (a : atom)
| PyDict (d : list (atom * pyobj))
| PyList (l : list pyobj)
| PyTuple (l : list pyobj).
#[local] Set Elimination Schemes.

(** [_to_py], with numpy importable as it is once [mcp_server.tools] has
    been imported. *)
Fixpoint _to_py (obj : pyobj) : pyobj :=
  match obj with
  | Atom (Np v) => Atom (Py v)
  | Atom (Py v) => obj
  | PyDict d => PyDict (List.map (fun kv => (fst kv, _to_py (snd kv))) d)
  | PyList l => PyList (List.map _to_py l)
  | PyTuple _ => obj
  end.

Definition is_py (a : atom) : bool :=
  match a with
  | Py _ => true
  | Np _ => false
  end.

(** No numpy scalar anywhere in the object. *)
Fixpoint numpy_free (obj : pyobj) : bool :=
  match obj with
  | Atom a => is_py a
  | PyDict d => forallb (fun kv => is_py (fst kv) && numpy_free (snd kv)) d
  | PyList l => forallb numpy_free l
  | PyTuple l => forallb numpy_free l
  end.


(** Induction on objects, through the lists they nest. *)
Section PyobjInduction.
Variable P : pyobj -> Prop.
Hypothesis HAtom : forall a, P (Atom a).
Hypothesis HDict : forall d, Forall (fun kv => P (snd kv)) d -> P (PyDict d).
Hypothesis HList : forall l, Forall P l -> P (PyList l).
Hypothesis HTuple : forall l, Forall P l -> P (PyTuple l).

Fixpoint pyobj_ind (obj : pyobj) : P obj :=
  match obj with
  | Atom a => HAtom a
  | PyDict d =>
      HDict d ((fix go (d : list (atom * pyobj)) : Forall (fun kv => P (snd kv)) d :=
                  match d with
                  | [] => @List.Forall_nil _ _
                  | kv :: d' => @List.Forall_cons _ _ kv d' (pyobj_ind (snd kv)) (go d')
                  end) d)
  | PyList l =>
      HList l ((fix go (l : list pyobj) : Forall P l :=
                  match l with
                  | [] => @List.Forall_nil _ _
                  | o :: l' => @List.Forall_cons _ _ o l' (pyobj_ind o) (go l')
                  end) l)
  | PyTuple l =>
      HTuple l ((fix go (l : list pyobj) : Forall P l :=
                   match l with
                   | [] => @List.Forall_nil _ _
                   | o :: l' => @List.Forall_cons _ _ o l' (pyobj_ind o) (go l')
                   end) l)
  end.
End PyobjInduction.


(** ** The data check ([data_check.py], lines 5-19) *)

Definition EXPECTED_COLUMNS : list string :=
  ["Car Make"; "Car Model"; "Year"; "Mileage"; "Price"; "Fuel Type";
   "Color"; "Transmission"; "Options/Features"; "Condition"; "Accident"].

(** The line the column verification of [main] prints. *)
Definition column_verification `{Builtins} (df : DataFrame) : string :=
  let missing :=
    List.filter (fun c => negb (mem_str c (columns df))) EXPECTED_COLUMNS in
  match missing with
  | [] => "[OK] All expected columns are present."
  | _ => "[WARN] Missing expected columns: " +:+ repr (VList (List.map VStr missing))
  end.

(** * Properties *)

(** ** Lists and masks *)

Lemma filter_all_true {A} (p : A -> bool) (l : list A) :
  (forall x, p x = true) -> List.filter p l = l.
Proof.
  intros Hp. induction l as [|a l IH]; simpl; [reflexivity|].
  rewrite Hp, IH. reflexivity.
Qed.

Lemma filter_twice {A} (p1 p2 : A -> bool) (l : list A) :
  List.filter p2 (List.filter p1 l) = List.filter (fun x => p1 x && p2 x) l.
Proof.
  induction l as [|a l IH]; simpl; [reflexivity|].
  destruct (p1 a); simpl; [|exact IH].
  destruct (p2 a); rewrite IH; reflexivity.
Qed.

Lemma df_eta (df : DataFrame) :
  {| columns := columns df; rows := rows df |} = df.
Proof. destruct df; reflexivity. Qed.

Lemma label_inj (c d : column) : label c = label d -> c = d.
Proof. destruct c, d; simpl; intros E; first [reflexivity | discriminate E]. Qed.

(** ** The filter *)

Section FilterProperties.
Context `{Builtins}.

Lemma norm_eq_field_eq (c : cell) (v : value) : norm_eq c v = field_eq c v.
Proof.
  unfold norm_eq, field_eq, col_norm, trimmed_ci_eq, _norm.
  destruct (astype_str c); reflexivity.
Qed.

Lemma exact_step_spec (args : Args) (q : DataFrame) (col : column) :
  columns (exact_step args q col) = columns q
  /\ rows (exact_step args q col)
     = List.filter (fun r => exact_holds args r col) (rows q).
Proof.
  unfold exact_step, exact_holds.
  destruct (args !! label col) as [v|].
  - destruct (truthy v); simpl.
    + split; [reflexivity|]. apply filter_ext. intros r. apply norm_eq_field_eq.
    + split; [reflexivity|]. symmetry. apply filter_all_true. reflexivity.
  - split; [reflexivity|]. symmetry. apply filter_all_true. reflexivity.
Qed.

Lemma exact_fold_spec (args : Args) (cols : list column) (q : DataFrame) :
  columns (fold_left (exact_step args) cols q) = columns q
  /\ rows (fold_left (exact_step args) cols q)
     = List.filter (fun r => forallb (exact_holds args r) cols) (rows q).
Proof.
  revert q. induction cols as [|c cols IH]; intros q; simpl.
  - split; [reflexivity|]. symmetry. apply filter_all_true. reflexivity.
  - destruct (IH (exact_step args q c)) as [Hc Hr].
    destruct (exact_step_spec args q c) as [Hc1 Hr1].
    rewrite Hc, Hr, Hc1, Hr1. split; [reflexivity|]. apply filter_twice.
Qed.

Lemma range_step_absent (args : Args) k conv test (q : DataFrame) :
  is_not_None (dict_get args k) = false ->
  range_step args k conv test q = Ok q.
Proof. unfold range_step. intros ->. reflexivity. Qed.

Lemma range_step_number (args : Args) k conv test (q : DataFrame) (v : value) (b : Q) :
  args !! k = Some v -> is_not_None v = true -> conv v = Ok b ->
  range_step args k conv test q = Ok (df_mask (fun r => test r b) q).
Proof.
  intros Hk Hv Hc. unfold range_step, dict_get, dict_item.
  rewrite Hk. simpl. rewrite Hv. simpl. rewrite Hc. reflexivity.
Qed.

Lemma cell_ge_compat (c : cell) (a b : Q) : (a == b)%Q -> cell_ge c a = cell_ge c b.
Proof.
  intros E. destruct c as [|q|s]; simpl; try reflexivity.
  apply eq_true_iff_eq. rewrite !Qle_bool_iff, E. reflexivity.
Qed.

Lemma cell_le_compat (c : cell) (a b : Q) : (a == b)%Q -> cell_le c a = cell_le c b.
Proof.
  intros E. destruct c as [|q|s]; simpl; try reflexivity.
  apply eq_true_iff_eq. rewrite !Qle_bool_iff, E. reflexivity.
Qed.

(** The bound a key carries, from the entry of the key. *)
Lemma bound_of_absent (args : Args) (k : string) :
  is_not_None (dict_get args k) = false -> bound_of args k = None.
Proof.
  unfold bound_of, dict_get. destruct (args !! k) as [v|]; simpl; [|reflexivity].
  intros ->. reflexivity.
Qed.

Lemma bound_of_converted (args : Args) (k : string) (v : value) (b : Q) :
  args !! k = Some v -> is_not_None v = true -> bound_conversion k v = Ok b ->
  bound_of args k = Some b.
Proof. unfold bound_of. intros -> -> ->. reflexivity. Qed.

(** A block that returns either leaves the frame as it is, the key
    carrying no bound, or masks it with the converted bound. *)
Lemma range_step_inv (args : Args) k conv test (q q' : DataFrame) :
  range_step args k conv test q = Ok q' ->
  (is_not_None (dict_get args k) = false /\ q' = q)
  \/ exists v b, args !! k = Some v /\ is_not_None v = true /\ conv v = Ok b
                 /\ q' = df_mask (fun r => test r b) q.
Proof.
  unfold range_step, dict_get, dict_item.
  destruct (args !! k) as [v|] eqn:Hk; simpl.
  - destruct (is_not_None v) eqn:Hv.
    + simpl. destruct (conv v) as [b|e] eqn:Hc; simpl; [|discriminate].
      intros [= <-]. right. exists v, b. auto.
    + intros [= <-]. left. auto.
  - intros [= <-]. left. auto.
Qed.

(** A block that returns masks with the bound its key carries. *)
Lemma range_step_spec (args : Args) k (test : row -> Q -> bool) (q q' : DataFrame) :
  range_step args k (bound_conversion k) test q = Ok q' ->
  columns q' = columns q
  /\ rows q' = List.filter (fun r => bound_holds args k (test r)) (rows q).
Proof.
  intros E. unfold bound_holds.
  destruct (range_step_inv _ _ _ _ _ _ E) as [[Hn ->]|(v & b & Hk & Hv & Hc & ->)].
  - rewrite (bound_of_absent _ _ Hn). split; [reflexivity|].
    symmetry. apply filter_all_true. reflexivity.
  - rewrite (bound_of_converted _ _ _ _ Hk Hv Hc). split; reflexivity.
Qed.

(** Whether a block returns depends on the arguments only, not on the
    frame it is given. *)
Lemma range_step_returns (args : Args) k conv test (q q' q2 : DataFrame) :
  range_step args k conv test q = Ok q' ->
  exists q2', range_step args k conv test q2 = Ok q2'.
Proof.
  intros E.
  destruct (range_step_inv _ _ _ _ _ _ E) as [[Hn _]|(v & b & Hk & Hv & Hc & _)].
  - eexists. apply range_step_absent. exact Hn.
  - eexists. eapply range_step_number; eassumption.
Qed.

(** The four blocks of the filter, apart from one another. *)
Lemma apply_filters_steps (df S : DataFrame) (args : Args) :
  _apply_filters df args = Ok S ->
  exists q1 q2 q3,
    range_step args "Year_min" int_bound (fun r b => cell_ge (Year r) b)
      (fold_left (exact_step args) exact_columns df) = Ok q1
    /\ range_step args "Year_max" int_bound (fun r b => cell_le (Year r) b) q1 = Ok q2
    /\ range_step args "Price_max" py_float (fun r b => cell_le (Price r) b) q2 = Ok q3
    /\ range_step args "Mileage_max" py_float (fun r b => cell_le (Mileage r) b) q3 = Ok S.
Proof.
  unfold _apply_filters.
  destruct (range_step args "Year_min" _ _ _) as [q1|e] eqn:E1; simpl; [|discriminate].
  destruct (range_step args "Year_max" _ _ _) as [q2|e] eqn:E2; simpl; [|discriminate].
  destruct (range_step args "Price_max" _ _ _) as [q3|e] eqn:E3; simpl; [|discriminate].
  destruct (range_step args "Mileage_max" _ _ _) as [q4|e] eqn:E4; simpl; [|discriminate].
  intros [= <-]. exists q1, q2, q3. auto.
Qed.

(** When the filter returns, its rows are the rows of the frame that
    satisfy the criteria, in the frame's order. *)
Lemma apply_filters_rows (df S : DataFrame) (args : Args) :
  _apply_filters df args = Ok S ->
  columns S = columns df
  /\ rows S = List.filter (satisfies args) (rows df).
Proof.
  intros E. destruct (apply_filters_steps _ _ _ E) as (q1 & q2 & q3 & E1 & E2 & E3 & E4).
  destruct (exact_fold_spec args exact_columns df) as [Hc0 Hr0].
  destruct (range_step_spec args "Year_min" _ _ _ E1) as [Hc1 Hr1].
  destruct (range_step_spec args "Year_max" _ _ _ E2) as [Hc2 Hr2].
  destruct (range_step_spec args "Price_max" _ _ _ E3) as [Hc3 Hr3].
  destruct (range_step_spec args "Mileage_max" _ _ _ E4) as [Hc4 Hr4].
  split; [congruence|].
  rewrite Hr4, Hr3, Hr2, Hr1, Hr0, !filter_twice.
  apply filter_ext. intros r. unfold satisfies, bounds_hold.
  rewrite !andb_assoc. reflexivity.
Qed.

(** Whether the filter returns depends on the arguments only. *)
Lemma apply_filters_returns (df S df' : DataFrame) (args : Args) :
  _apply_filters df args = Ok S ->
  exists S', _apply_filters df' args = Ok S'.
Proof.
  intros E. destruct (apply_filters_steps _ _ _ E) as (q1 & q2 & q3 & E1 & E2 & E3 & E4).
  unfold _apply_filters.
  destruct (range_step_returns _ _ _ _ _ _
              (fold_left (exact_step args) exact_columns df') E1) as [p1 ->]. simpl.
  destruct (range_step_returns _ _ _ _ _ _ p1 E2) as [p2 ->]. simpl.
  destruct (range_step_returns _ _ _ _ _ _ p2 E3) as [p3 ->]. simpl.
  destruct (range_step_returns _ _ _ _ _ _ p3 E4) as [p4 ->]. simpl.
  eauto.
Qed.

Lemma no_criteria_lookup (args : Args) (k : string) :
  no_criteria args = true -> In k criteria_keys -> args !! k = None.
Proof.
  unfold no_criteria. rewrite forallb_forall. intros Hall Hin.
  specialize (Hall k Hin). destruct (args !! k); [discriminate Hall | reflexivity].
Qed.

Lemma no_criteria_satisfies (args : Args) (r : row) :
  no_criteria args = true -> satisfies args r = true.
Proof.
  intros Hn. unfold satisfies, bounds_hold, bound_holds, bound_of.
  rewrite !(no_criteria_lookup args _ Hn) by (simpl; tauto).
  rewrite andb_true_r. apply forallb_forall. intros c Hc.
  unfold exact_holds. rewrite (no_criteria_lookup args _ Hn); [reflexivity|].
  unfold criteria_keys. apply in_or_app. left. apply in_map. exact Hc.
Qed.

(** With no criteria the filter reads no bound and returns the frame. *)
Lemma no_criteria_returns (df : DataFrame) (args : Args) :
  no_criteria args = true -> _apply_filters df args = Ok df.
Proof.
  intros Hn. unfold _apply_filters.
  assert (Hfold : fold_left (exact_step args) exact_columns df = df).
  { destruct (exact_fold_spec args exact_columns df) as [Hc Hr].
    rewrite filter_all_true in Hr.
    - destruct (fold_left (exact_step args) exact_columns df) as [cs rs].
      destruct df as [cs' rs']. simpl in Hc, Hr. congruence.
    - intros r. apply forallb_forall. intros c Hin.
      unfold exact_holds. rewrite (no_criteria_lookup args _ Hn); [reflexivity|].
      unfold criteria_keys. apply in_or_app. left. apply in_map. exact Hin. }
  rewrite Hfold.
  assert (Hk : forall k conv test q, In k bound_keys ->
               range_step args k conv test q = Ok q).
  { intros k conv test q Hin. apply range_step_absent. unfold dict_get.
    rewrite (no_criteria_lookup args _ Hn); [reflexivity|].
    unfold criteria_keys. apply in_or_app. right. exact Hin. }
  rewrite (Hk "Year_min") by (simpl; tauto). simpl.
  rewrite (Hk "Year_max") by (simpl; tauto). simpl.
  rewrite (Hk "Price_max") by (simpl; tauto). simpl.
  rewrite (Hk "Mileage_max") by (simpl; tauto). reflexivity.
Qed.
End FilterProperties.

Lemma fold_left_ext_in {A B} (f g : A -> B -> A) (l : list B) (a : A) :
  (forall b a', In b l -> f a' b = g a' b) ->
  fold_left f l a = fold_left g l a.
Proof.
  revert a. induction l as [|b l IH]; intros a Hfg; simpl; [reflexivity|].
  rewrite (Hfg b a) by (left; reflexivity).
  apply IH. intros b' a' Hin. apply Hfg. right. exact Hin.
Qed.

Lemma range_step_lookup `{Builtins} (args args' : Args) k conv test (q : DataFrame) :
  args !! k = args' !! k ->
  range_step args k conv test q = range_step args' k conv test q.
Proof. intros E. unfold range_step, dict_get, dict_item. rewrite E. reflexivity. Qed.

(** The filter only reads the ten criteria keys. *)
Lemma apply_filters_lookup `{Builtins} (df : DataFrame) (args args' : Args) :
  (forall k, In k criteria_keys -> args !! k = args' !! k) ->
  _apply_filters df args = _apply_filters df args'.
Proof.
  intros E. unfold _apply_filters.
  assert (Hfold : fold_left (exact_step args) exact_columns df
                  = fold_left (exact_step args') exact_columns df).
  { apply fold_left_ext_in. intros c q Hc. unfold exact_step.
    rewrite (E (label c)); [reflexivity|].
    unfold criteria_keys. apply in_or_app. left. apply in_map. exact Hc. }
  rewrite Hfold.
  assert (Hk : forall k conv test q, In k ["Year_min"; "Year_max"; "Price_max"; "Mileage_max"] ->
               range_step args k conv test q = range_step args' k conv test q).
  { intros k conv test q Hin. apply range_step_lookup, E.
    unfold criteria_keys. apply in_or_app. right. exact Hin. }
  rewrite (Hk "Year_min") by (simpl; tauto).
  destruct (range_step args' "Year_min" _ _ _) as [q1|e]; simpl; [|reflexivity].
  rewrite (Hk "Year_max") by (simpl; tauto).
  destruct (range_step args' "Year_max" _ _ _) as [q2|e]; simpl; [|reflexivity].
  rewrite (Hk "Price_max") by (simpl; tauto).
  destruct (range_step args' "Price_max" _ _ _) as [q3|e]; simpl; [|reflexivity].
  rewrite (Hk "Mileage_max") by (simpl; tauto).
  reflexivity.
Qed.

(** C1 (as amended). Whenever the filter returns a subset, its rows are
    exactly the records that satisfy every exact-match criterion whose
    value is truthy (case-insensitive, trimmed equality) and every
    numeric bound that is present and not null, read through [int] (the
    years) or [float] (price and mileage): each record of the subset
    satisfies them, no record left out does, and with no criteria the
    subset is the whole dataset. *)
Theorem apply_filters_exactly_the_satisfying `{Builtins} (df S : DataFrame) (args : Args) :
  _apply_filters df args = Ok S ->
  rows S = List.filter (satisfies args) (rows df)
  /\ (forall r, In r (rows S) -> In r (rows df) /\ satisfies args r = true)
  /\ (forall r, In r (rows df) -> ~ In r (rows S) -> satisfies args r = false)
  /\ (no_criteria args = true -> S = df).
Proof.
  intros E. destruct (apply_filters_rows df S args E) as [Hc Hr].
  split; [exact Hr|]. rewrite Hr. split; [|split].
  - intros r Hin. apply filter_In in Hin. exact Hin.
  - intros r Hin Hout. destruct (satisfies args r) eqn:Hs; [|reflexivity].
    exfalso. apply Hout. apply filter_In. split; assumption.
  - intros Hn. rewrite (no_criteria_returns df args Hn) in E. congruence.
Qed.

Lemma apply_filters_exactly_the_satisfying_witness :
  exists S, @_apply_filters reference_builtins csv_two args_gasoline_2017 = Ok S
    /\ rows S = [toyota]
    /\ rows S = List.filter (@satisfies reference_builtins args_gasoline_2017) (rows csv_two)
    /\ (forall r, In r (rows S) ->
          In r (rows csv_two) /\ @satisfies reference_builtins args_gasoline_2017 r = true)
    /\ (forall r, In r (rows csv_two) -> ~ In r (rows S) ->
          @satisfies reference_builtins args_gasoline_2017 r = false)
    /\ (no_criteria args_gasoline_2017 = true -> S = csv_two).
Proof.
  eexists. split; [vm_compute; reflexivity|]. split; [reflexivity|].
  apply (@apply_filters_exactly_the_satisfying reference_builtins csv_two _
           args_gasoline_2017).
  vm_compute; reflexivity.
Defined.

(** C1 as stated fails: with the key "Car Make" present and empty, the
    filter keeps a Toyota, a record that does not equal the empty string
    after trimming and lowering. *)
Lemma present_empty_criterion_is_not_enforced :
  exists S r, @_apply_filters reference_builtins csv_two args_empty_make = Ok S
    /\ In r (rows S)
    /\ is_Some (args_empty_make !! "Car Make")
    /\ @satisfies_present reference_builtins args_empty_make r = false.
Proof.
  exists csv_two, toyota. split; [vm_compute; reflexivity|].
  split; [left; reflexivity|]. split; [eexists; vm_compute; reflexivity|].
  vm_compute; reflexivity.
Qed.

(** A bound is read through its conversion: a minimal year of 2015.5 is
    truncated by [int] to 2015, and a record of 2015 is kept. *)
Example fractional_year_bound_is_truncated :
  exists S r,
    @_apply_filters reference_builtins csv_missing_fuel args_year_min_fraction = Ok S
    /\ In r (rows S)
    /\ args_year_min_fraction !! "Year_min" = Some (VNum (4031 # 2))
    /\ cell_ge (Year r) (4031 # 2) = false
    /\ @bound_of reference_builtins args_year_min_fraction "Year_min" = Some 2015%Q.
Proof.
  eexists _, _. split; [vm_compute; reflexivity|].
  split; [left; reflexivity|]. repeat split; vm_compute; reflexivity.
Qed.

(** A price bound beyond the range of a double makes [float] raise, and
    the filter with it. *)
Example huge_price_bound_overflows :
  @_apply_filters reference_builtins csv_two args_price_max_huge
  = Raise (OverflowError "int too large to convert to float").
Proof. vm_compute. reflexivity. Qed.

(** C10. An exact-match criterion whose value is falsy, such as the
    empty string, is skipped: the filter gives the same result as with
    the key removed from the criteria. *)
Theorem falsy_exact_criterion_is_skipped `{Builtins}
    (df : DataFrame) (args : Args) (col : column) (v : value) :
  In col exact_columns ->
  args !! label col = Some v ->
  truthy v = false ->
  _apply_filters df args = _apply_filters df (delete (label col) args).
Proof.
  intros Hcol Hv Hf. unfold _apply_filters.
  assert (Hfold : fold_left (exact_step args) exact_columns df
                  = fold_left (exact_step (delete (label col) args)) exact_columns df).
  { apply fold_left_ext_in. intros c q Hc. unfold exact_step.
    destruct (decide (label col = label c)) as [E|Hne].
    - apply label_inj in E. subst c.
      rewrite Hv, Hf, lookup_delete_eq. reflexivity.
    - rewrite lookup_delete_ne by exact Hne. reflexivity. }
  rewrite Hfold.
  assert (Hk : forall k conv test q, In k ["Year_min"; "Year_max"; "Price_max"; "Mileage_max"] ->
               range_step args k conv test q
               = range_step (delete (label col) args) k conv test q).
  { intros k conv test q Hin. apply range_step_lookup.
    rewrite lookup_delete_ne; [reflexivity|].
    intros E. subst k. destruct col; simpl in Hin; intuition discriminate. }
  rewrite (Hk "Year_min") by (simpl; tauto).
  destruct (range_step _ "Year_min" _ _ _) as [q1|e]; simpl; [|reflexivity].
  rewrite (Hk "Year_max") by (simpl; tauto).
  destruct (range_step _ "Year_max" _ _ _) as [q2|e]; simpl; [|reflexivity].
  rewrite (Hk "Price_max") by (simpl; tauto).
  destruct (range_step _ "Price_max" _ _ _) as [q3|e]; simpl; [|reflexivity].
  rewrite (Hk "Mileage_max") by (simpl; tauto).
  reflexivity.
Qed.

Lemma falsy_exact_criterion_is_skipped_witness :
  In C_Car_Make exact_columns
  /\ args_empty_make !! label C_Car_Make = Some (VStr "")
  /\ truthy (VStr "") = false
  /\ @_apply_filters reference_builtins csv_two args_empty_make
     = @_apply_filters reference_builtins csv_two (delete (label C_Car_Make) args_empty_make).
Proof.
  split; [left; reflexivity|]. split; [vm_compute; reflexivity|].
  split; [reflexivity|].
  apply (@falsy_exact_criterion_is_skipped reference_builtins csv_two args_empty_make
           C_Car_Make (VStr "")).
  - left; reflexivity.
  - vm_compute; reflexivity.
  - reflexivity.
Defined.

(** ** Cleaning *)

Lemma filter_map_swap {A B} (f : A -> B) (p : B -> bool) (l : list A) :
  List.filter p (List.map f l) = List.map f (List.filter (fun x => p (f x)) l).
Proof.
  induction l as [|a l IH]; simpl; [reflexivity|].
  destruct (p (f a)); simpl; by rewrite IH.
Qed.

Section CleaningProperties.
Context `{Builtins}.

Lemma clean_df_rows (df : DataFrame) :
  rows (_clean_df df)
  = List.filter (fun r => cell_gt (Price r) 0 && cell_le (Price r) 400000)
      (List.filter (fun r => cell_ge (Mileage r) 0 && cell_le (Mileage r) 300000)
         (List.filter (fun r => cell_ge (Year r) 2010 && cell_le (Year r) 2025)
            (List.filter dropna_subset
               (List.map normalize_strings (List.map coerce_numeric (rows df)))))).
Proof. reflexivity. Qed.

(** Every record that leaves the cleaning step has its three numbers in
    range and no missing value in the seven checked columns. *)
Lemma clean_df_cleaned (df : DataFrame) : cleaned (_clean_df df).
Proof.
  unfold cleaned. apply List.Forall_forall. intros r Hin.
  rewrite clean_df_rows in Hin.
  apply filter_In in Hin. destruct Hin as [Hin Hp].
  apply filter_In in Hin. destruct Hin as [Hin Hm].
  apply filter_In in Hin. destruct Hin as [Hin Hy].
  apply filter_In in Hin. destruct Hin as [_ Hna].
  unfold invariants, in_range. fold (dropna_subset r).
  rewrite Hy, Hm, Hp, Hna. reflexivity.
Qed.

(** A normalised cell is missing exactly when the table's cell is and
    [astype(str)] keeps it so. *)
Lemma isna_str_strip (c : cell) :
  isna (str_strip c) = match astype_str_na with
                       | Some _ => false
                       | None => isna c
                       end.
Proof.
  unfold str_strip, astype_str.
  destruct c as [|q|s]; destruct astype_str_na; reflexivity.
Qed.

(** A normalised cell is missing, or a string that [strip] leaves as it
    is. *)
Lemma str_strip_shape (c : cell) : str_strip c = NaN \/ stripped_text (str_strip c).
Proof.
  unfold str_strip. destruct (astype_str c) as [|q|s]; [by left | by left | right].
  exists (py_strip s). split; [reflexivity | apply py_strip_idempotent].
Qed.

Lemma str_strip_idempotent (c : cell) : str_strip (str_strip c) = str_strip c.
Proof.
  unfold str_strip, astype_str.
  destruct c as [|q|s]; destruct astype_str_na eqn:E; simpl;
    rewrite ?E, ?py_strip_idempotent; reflexivity.
Qed.

(** What the [dropna] step tests once the strings are normalised. *)
Lemma dropna_after_normalize (r : row) :
  dropna_subset (normalize_strings r)
  = negb (isna (Year r) || isna (Mileage r) || isna (Price r))
    && match astype_str_na with
       | Some _ => true
       | None => negb (missing_text r)
       end.
Proof.
  unfold dropna_subset, missing_text. simpl. rewrite !isna_str_strip.
  destruct astype_str_na.
  - rewrite !orb_false_r, andb_true_r. reflexivity.
  - rewrite !negb_orb, !andb_assoc. reflexivity.
Qed.

(** The cleaning keeps the records of the table that [kept] tells, in
    the table's order, with their numbers coerced and their strings
    normalised. *)
Lemma clean_df_rows_characterised (df : DataFrame) :
  rows (_clean_df df)
  = List.map (fun r => normalize_strings (coerce_numeric r))
      (List.filter kept (rows df)).
Proof.
  rewrite clean_df_rows.
  rewrite !filter_twice, List.map_map, filter_map_swap. f_equal.
  apply filter_ext. intros r. rewrite dropna_after_normalize. simpl.
  unfold kept, numbers_in_range, in_range, missing_text. simpl.
  destruct (match astype_str_na with
            | Some _ => true
            | None => negb (isna (Fuel_Type r) || isna (Transmission r)
                            || isna (Condition r) || isna (Accident r))
            end);
    destruct (to_numeric (Year r)) as [|y|sy], (to_numeric (Mileage r)) as [|m|sm],
      (to_numeric (Price r)) as [|p|sp]; simpl; try reflexivity;
    repeat match goal with
    | |- context [Qle_bool ?a ?b] => destruct (Qle_bool a b)
    end; reflexivity.
Qed.

Lemma numbers_in_range_spelled (r : row) :
  numbers_in_range r = true ->
  (exists y, Year r = Num y /\ (2010 <= y)%Q /\ (y <= 2025)%Q)
  /\ (exists m, Mileage r = Num m /\ (0 <= m)%Q /\ (m <= 300000)%Q)
  /\ (exists p, Price r = Num p /\ (0 < p)%Q /\ (p <= 400000)%Q).
Proof.
  unfold numbers_in_range, in_range. rewrite !andb_true_iff.
  intros [[[Hy1 Hy2] [Hm1 Hm2]] [Hp1 Hp2]].
  destruct (Year r) as [|y|?]; try discriminate Hy1.
  destruct (Mileage r) as [|m|?]; try discriminate Hm1.
  destruct (Price r) as [|p|?]; try discriminate Hp1.
  simpl in *. apply Qle_bool_iff in Hy1, Hy2, Hm1, Hm2, Hp2.
  apply negb_true_iff in Hp1.
  assert (Hp : (0 < p)%Q).
  { apply Qnot_le_lt. intros Hle. apply Qle_bool_iff in Hle. congruence. }
  repeat split; eauto 6.
Qed.

Lemma cleaned_row_shape (df : DataFrame) (r : row) :
  In r (rows (_clean_df df)) ->
  exists r0, In r0 (rows df) /\ r = normalize_strings (coerce_numeric r0)
             /\ kept r0 = true.
Proof.
  intros Hin. rewrite clean_df_rows_characterised in Hin.
  apply in_map_iff in Hin. destruct Hin as (r0 & <- & Hin).
  apply filter_In in Hin. exists r0. tauto.
Qed.

(** The invariants of a record, taken apart. *)
Lemma invariants_parts (r : row) :
  invariants r = true ->
  numbers_in_range r = true /\ missing_text r = false.
Proof.
  unfold invariants, numbers_in_range, missing_text.
  rewrite !andb_true_iff, negb_true_iff, !orb_false_iff.
  tauto.
Qed.
End CleaningProperties.



(** The same table where [astype(str)] keeps a missing value missing, as
    pandas 3 does: the record is dropped. *)
Example clean_df_drops_missing_fuel_type :
  rows (@_clean_df pandas3_builtins csv_missing_fuel) = [].
Proof. vm_compute. reflexivity. Qed.

(** ** Sorting and truncation *)

Lemma Is_true_Qle (x y : Q) : Is_true (Qle_bool x y) <-> (x <= y)%Q.
Proof. rewrite Is_true_true. apply Qle_bool_iff. Qed.

Lemma desc_le_total (a b : cell) : Is_true (desc_le a b) \/ Is_true (desc_le b a).
Proof.
  unfold desc_le. destruct (key_of a) as [x|], (key_of b) as [y|]; simpl; auto.
  rewrite !Is_true_Qle. destruct (Qlt_le_dec x y); [right; lra | left; lra].
Qed.

Lemma desc_le_trans (a b c : cell) :
  Is_true (desc_le a b) -> Is_true (desc_le b c) -> Is_true (desc_le a c).
Proof.
  unfold desc_le. destruct (key_of a) as [x|], (key_of b) as [y|], (key_of c) as [z|];
    simpl; auto; try contradiction.
  rewrite !Is_true_Qle. lra.
Qed.

Lemma asc_le_total (a b : cell) : Is_true (asc_le a b) \/ Is_true (asc_le b a).
Proof.
  unfold asc_le. destruct (key_of a) as [x|], (key_of b) as [y|]; simpl; auto.
  rewrite !Is_true_Qle. destruct (Qlt_le_dec x y); [left; lra | right; lra].
Qed.

#[local] Instance price_year_le_total : Total (fun a b => Is_true (price_year_le a b)).
Proof.
  intros a b. unfold price_year_le.
  destruct (key_of (Price a)) as [p1|], (key_of (Price b)) as [p2|]; simpl; auto.
  - destruct (Qcompare_spec p1 p2) as [E|L|G].
    + assert (E' : (p2 ?= p1)%Q = Eq) by (apply Qeq_alt; symmetry; exact E).
      rewrite E'. apply desc_le_total.
    + left. exact I.
    + right. assert (E' : (p2 ?= p1)%Q = Lt) by (apply Qlt_alt; exact G).
      rewrite E'. exact I.
  - apply desc_le_total.
Qed.

#[local] Instance price_year_le_trans : Transitive (fun a b => Is_true (price_year_le a b)).
Proof.
  intros a b c. unfold price_year_le.
  destruct (key_of (Price a)) as [p1|], (key_of (Price b)) as [p2|],
    (key_of (Price c)) as [p3|]; simpl; auto; try contradiction.
  - destruct (Qcompare_spec p1 p2) as [E12|L12|G12]; try contradiction;
    destruct (Qcompare_spec p2 p3) as [E23|L23|G23]; try contradiction;
    destruct (Qcompare_spec p1 p3) as [E13|L13|G13]; intros H1 H2;
      try exact I; try (exfalso; lra).
    + eapply desc_le_trans; eassumption.
  - apply desc_le_trans.
Qed.

Lemma bind_Ok {A B} (a : A) (f : A -> result B) : (Ok a ≫= f) = f a.
Proof. reflexivity. Qed.

Lemma sort_values_sorted (rs : list row) :
  StronglySorted (fun a b => Is_true (price_year_le a b)) (sort_values_price_year rs).
Proof. unfold sort_values_price_year. apply StronglySorted_merge_sort; apply _. Qed.

Lemma sort_values_perm (rs : list row) : sort_values_price_year rs ≡ₚ rs.
Proof. unfold sort_values_price_year. apply merge_sort_Permutation. Qed.

Lemma df_head_take {A} (n : Z) (l : list A) : exists k, df_head n l = take k l.
Proof. unfold df_head. destruct (0 <=? n)%Z; eexists; reflexivity. Qed.

Lemma df_head_length {A} (n : Z) (l : list A) :
  (0 <= n)%Z -> (Z.of_nat (length (df_head n l)) <= n)%Z.
Proof.
  intros Hn. unfold df_head. destruct (Z.leb_spec 0 n) as [_|Hlt]; [|lia].
  rewrite length_take. lia.
Qed.

Lemma StronglySorted_take {A} (R : relation A) (k : nat) (l : list A) :
  StronglySorted R l -> StronglySorted R (take k l).
Proof.
  intros Hs. rewrite <- (take_drop k l) in Hs.
  eapply StronglySorted_app_1_l. exact Hs.
Qed.

Lemma StronglySorted_restrict {A} (R : relation A) (P : A -> Prop) (l : list A) :
  StronglySorted R l -> Forall P l ->
  StronglySorted (fun a b => P a /\ P b /\ R a b) l.
Proof.
  induction 1 as [|a l Hs IH Hall]; intros HP; constructor.
  - apply IH. by inversion HP.
  - inversion HP as [|? ? Pa Pl]; subst.
    apply List.Forall_forall. intros b Hb. repeat split.
    + exact Pa.
    + eapply List.Forall_forall in Pl; eauto.
    + eapply List.Forall_forall in Hall; eauto.
Qed.

Lemma invariants_numeric (r : row) :
  invariants r = true -> exists p y, Price r = Num p /\ Year r = Num y.
Proof.
  unfold invariants, in_range. rewrite !andb_true_iff.
  intros [[[[Hy _] _] [Hp _]] _].
  destruct (Price r) as [|p|s]; try discriminate Hp.
  destruct (Year r) as [|y|s]; try discriminate Hy.
  eauto.
Qed.

Lemma ordered_records (cols : list column) (a b : row) :
  (forall r, record_get "Price" (to_record cols r) = Some (Price r)) ->
  (forall r, record_get "Year" (to_record cols r) = Some (Year r)) ->
  invariants a = true -> invariants b = true ->
  Is_true (price_year_le a b) ->
  price_year_ordered (to_record cols a) (to_record cols b).
Proof.
  intros HP HY Ha Hb Hle.
  destruct (invariants_numeric a Ha) as (pa & ya & Epa & Eya).
  destruct (invariants_numeric b Hb) as (pb & yb & Epb & Eyb).
  exists pa, ya, pb, yb. rewrite !HP, !HY, Epa, Eya, Epb, Eyb.
  repeat split; try reflexivity.
  - unfold price_year_le in Hle. rewrite Epa, Epb in Hle. simpl in Hle.
    destruct (Qcompare_spec pa pb) as [E|L|G]; [lra | lra | contradiction].
  - intros E. unfold price_year_le in Hle. rewrite Epa, Epb in Hle. simpl in Hle.
    destruct (Qcompare_spec pa pb) as [_|L|G]; [| lra | contradiction].
    unfold desc_le in Hle. rewrite Eya, Eyb in Hle. simpl in Hle.
    by apply Is_true_Qle.
Qed.

Lemma selected_sorted (cols : list column) (limit : Z) (rs : list row) :
  (forall r, record_get "Price" (to_record cols r) = Some (Price r)) ->
  (forall r, record_get "Year" (to_record cols r) = Some (Year r)) ->
  Forall (fun r => invariants r = true) rs ->
  StronglySorted price_year_ordered
    (to_dict_records cols (df_head limit (sort_values_price_year rs))).
Proof.
  intros HP HY Hall. destruct (df_head_take limit (sort_values_price_year rs)) as [k ->].
  unfold to_dict_records.
  apply (StronglySorted_fmap (to_record cols)
           (fun a b => invariants a = true /\ invariants b = true
                       /\ Is_true (price_year_le a b))).
  - intros a b (Ha & Hb & Hle). by apply ordered_records.
  - apply StronglySorted_restrict.
    + apply StronglySorted_take, sort_values_sorted.
    + apply Forall_take. rewrite sort_values_perm. exact Hall.
Qed.

(** ** Ranked results *)

Section RankedResults.
Context `{Builtins}.

Lemma tool_filter_cars_returns (df S : DataFrame) (args : Args) (limit : Z) :
  _apply_filters df args = Ok S ->
  py_int (dict_get_default args "limit" (VNum 20)) = Ok limit ->
  tool_filter_cars df args
  = Ok (FilterCarsResult
          (length (to_dict_records (results_cols ++ [C_Color]) (selected df args limit)))
          (to_dict_records (results_cols ++ [C_Color]) (selected df args limit))).
Proof.
  intros E Hl. unfold tool_filter_cars.
  destruct (apply_filters_rows df S args E) as [_ Hr].
  rewrite E, bind_Ok, Hl, bind_Ok, Hr. reflexivity.
Qed.

(** filter_cars returns only when the filter and the conversion of the
    limit do, and then with the selected rows. *)
Lemma tool_filter_cars_inv (df : DataFrame) (args : Args) (p : payload) :
  tool_filter_cars df args = Ok p ->
  exists S limit,
    _apply_filters df args = Ok S
    /\ py_int (dict_get_default args "limit" (VNum 20)) = Ok limit
    /\ p = FilterCarsResult
             (length (to_dict_records (results_cols ++ [C_Color]) (selected df args limit)))
             (to_dict_records (results_cols ++ [C_Color]) (selected df args limit)).
Proof.
  intros Hp.
  destruct (_apply_filters df args) as [S|e] eqn:E;
    [|unfold tool_filter_cars in Hp; rewrite E in Hp; discriminate Hp].
  destruct (py_int (dict_get_default args "limit" (VNum 20))) as [limit|e] eqn:Hl;
    [|unfold tool_filter_cars in Hp; rewrite E, bind_Ok, Hl in Hp; discriminate Hp].
  rewrite (tool_filter_cars_returns df S args limit E Hl) in Hp.
  exists S, limit. split; [reflexivity|]. split; [reflexivity|]. congruence.
Qed.

Lemma tool_recommend_returns (df S : DataFrame) (args : Args) (v : value) (b : Q)
    (limit : Z) :
  args !! "budget_max" = Some v ->
  _apply_filters df (<["Price_max" := v]> args) = Ok S ->
  py_int (dict_get_default args "limit" (VNum 10)) = Ok limit ->
  py_float v = Ok b ->
  tool_recommend df args
  = Ok (RecommendResult b
          (length (to_dict_records results_cols
                     (selected df (<["Price_max" := v]> args) limit)))
          (to_dict_records results_cols
             (selected df (<["Price_max" := v]> args) limit))).
Proof.
  intros Hb E Hl Hf. unfold tool_recommend. rewrite Hb.
  destruct (apply_filters_rows df S _ E) as [_ Hr].
  rewrite E, bind_Ok, Hl, bind_Ok, Hf, bind_Ok, Hr. reflexivity.
Qed.

(** recommend returns only when budget_max is present, the filter
    returns with it as the price bound, and the limit and the budget
    convert. *)
Lemma tool_recommend_inv (df : DataFrame) (args : Args) (p : payload) :
  tool_recommend df args = Ok p ->
  exists v S limit b,
    args !! "budget_max" = Some v
    /\ _apply_filters df (<["Price_max" := v]> args) = Ok S
    /\ py_int (dict_get_default args "limit" (VNum 10)) = Ok limit
    /\ py_float v = Ok b
    /\ p = RecommendResult b
             (length (to_dict_records results_cols
                        (selected df (<["Price_max" := v]> args) limit)))
             (to_dict_records results_cols
                (selected df (<["Price_max" := v]> args) limit)).
Proof.
  intros Hp.
  destruct (args !! "budget_max") as [v|] eqn:Hb;
    [|unfold tool_recommend in Hp; rewrite Hb in Hp; discriminate Hp].
  destruct (_apply_filters df (<["Price_max" := v]> args)) as [S|e] eqn:E;
    [|unfold tool_recommend in Hp; rewrite Hb, E in Hp; discriminate Hp].
  destruct (py_int (dict_get_default args "limit" (VNum 10))) as [limit|e] eqn:Hl;
    [|unfold tool_recommend in Hp; rewrite Hb, E, bind_Ok, Hl in Hp; discriminate Hp].
  destruct (py_float v) as [b|e] eqn:Hf;
    [|unfold tool_recommend in Hp; rewrite Hb, E, bind_Ok, Hl, bind_Ok, Hf in Hp;
      discriminate Hp].
  rewrite (tool_recommend_returns df S args v b limit Hb E Hl Hf) in Hp.
  exists v, S, limit, b. repeat (split; [first [reflexivity | assumption]|]).
  congruence.
Qed.

Lemma selected_cleaned (df : DataFrame) (criteria : Args) :
  cleaned df ->
  Forall (fun r => invariants r = true) (List.filter (satisfies criteria) (rows df)).
Proof.
  unfold cleaned. rewrite !List.Forall_forall. intros Hall r Hin.
  apply filter_In in Hin. apply Hall. tauto.
Qed.

Lemma selected_length (df : DataFrame) (criteria : Args) (limit : Z) :
  (0 <= limit)%Z -> (Z.of_nat (length (selected df criteria limit)) <= limit)%Z.
Proof. apply df_head_length. Qed.
End RankedResults.

(** C5 (as amended). On a cleaned dataset, whenever filter_cars returns
    its results and whenever recommend returns its recommendations, the
    list is sorted by non-decreasing price, ties by non-increasing year;
    count is the length of the list; and the length is at most the limit
    whenever the limit is not negative, the limit being 20 for
    filter_cars and 10 for recommend when the key is absent. *)
Theorem ranked_results_sorted_and_bounded `{Builtins} (df : DataFrame) (args : Args) :
  cleaned df ->
  (forall p, tool_filter_cars df args = Ok p ->
     exists results limit,
       p = FilterCarsResult (length results) results
       /\ py_int (dict_get_default args "limit" (VNum 20)) = Ok limit
       /\ StronglySorted price_year_ordered results
       /\ ((0 <= limit)%Z -> (Z.of_nat (length results) <= limit)%Z))
  /\ (forall p, tool_recommend df args = Ok p ->
     exists b recommendations limit,
       p = RecommendResult b (length recommendations) recommendations
       /\ py_int (dict_get_default args "limit" (VNum 10)) = Ok limit
       /\ StronglySorted price_year_ordered recommendations
       /\ ((0 <= limit)%Z -> (Z.of_nat (length recommendations) <= limit)%Z))
  /\ (args !! "limit" = None ->
      py_int (dict_get_default args "limit" (VNum 20)) = Ok 20%Z
      /\ py_int (dict_get_default args "limit" (VNum 10)) = Ok 10%Z).
Proof.
  intros Hc. split; [|split].
  - intros p Hp. destruct (tool_filter_cars_inv df args p Hp) as (S & limit & _ & Hl & ->).
    eexists _, limit. split; [reflexivity|]. split; [exact Hl|]. split.
    + apply selected_sorted; [reflexivity | reflexivity | by apply selected_cleaned].
    + unfold to_dict_records. rewrite length_map. apply selected_length.
  - intros p Hp.
    destruct (tool_recommend_inv df args p Hp) as (v & S & limit & b & _ & _ & Hl & _ & ->).
    eexists b, _, limit. split; [reflexivity|]. split; [exact Hl|]. split.
    + apply selected_sorted; [reflexivity | reflexivity | by apply selected_cleaned].
    + unfold to_dict_records. rewrite length_map. apply selected_length.
  - intros Hn. unfold dict_get_default. rewrite Hn. split; reflexivity.
Qed.

Lemma csv_three_cleaned : cleaned csv_three.
Proof. unfold cleaned. simpl. repeat constructor. Qed.

Lemma ranked_results_sorted_and_bounded_witness :
  cleaned csv_three
  /\ exists p,
       @tool_recommend reference_builtins csv_three args_budget_10000 = Ok p
       /\ exists b recommendations limit,
            p = RecommendResult b (length recommendations) recommendations
            /\ @py_int reference_builtins
                 (dict_get_default args_budget_10000 "limit" (VNum 10)) = Ok limit
            /\ StronglySorted price_year_ordered recommendations
            /\ ((0 <= limit)%Z -> (Z.of_nat (length recommendations) <= limit)%Z).
Proof.
  split; [exact csv_three_cleaned|].
  eexists. split; [vm_compute; reflexivity|].
  apply (proj1 (proj2 (@ranked_results_sorted_and_bounded reference_builtins
                         csv_three args_budget_10000 csv_three_cleaned))).
  vm_compute; reflexivity.
Defined.

(** C5 as stated fails: with limit -1 the three matching records give
    two results, more than the limit. *)
Lemma negative_limit_is_exceeded :
  exists results,
    @tool_filter_cars reference_builtins csv_three args_limit_minus_one
    = Ok (FilterCarsResult 2 results)
    /\ @py_int reference_builtins (dict_get_default args_limit_minus_one "limit" (VNum 20))
       = Ok (-1)%Z
    /\ ~ (Z.of_nat (length results) <= -1)%Z.
Proof.
  eexists. split; [vm_compute; reflexivity|]. split; [vm_compute; reflexivity|].
  simpl. lia.
Qed.

(** ** The dispatcher *)

Section DispatcherProperties.
Context `{Builtins}.

Lemma init_data_and_model_sets (csv : result DataFrame) (state state' : State) :
  init_data_and_model csv state = Ok state' ->
  exists df model,
    csv = Ok df /\ fit (_clean_df df) = Ok model
    /\ state' = {| st_df := Some (_clean_df df);
                   st_model := Some model;
                   st_feature_columns :=
                     Some (List.map label (feature_cols_numeric ++ feature_cols_categ)) |}.
Proof.
  unfold init_data_and_model. destruct csv as [df|e]; [|discriminate].
  rewrite bind_Ok. unfold _check_columns.
  destruct (List.filter _ REQUIRED_COLUMNS); [|discriminate].
  rewrite bind_Ok. destruct (fit (_clean_df df)) as [model|e] eqn:Hfit; [|discriminate].
  rewrite bind_Ok. intros [= <-]. eauto.
Qed.

Lemma lazy_init_initialized_state (csv : result DataFrame) (STATE : State) :
  initialized STATE -> lazy_init csv STATE = Ok STATE.
Proof.
  intros [[df Hd] [m Hm]]. unfold lazy_init. rewrite Hd, Hm. reflexivity.
Qed.

Lemma lazy_init_initializes (csv : result DataFrame) (STATE STATE' : State) :
  lazy_init csv STATE = Ok STATE' -> initialized STATE'.
Proof.
  unfold lazy_init.
  destruct (st_df STATE) as [df|] eqn:Hd; destruct (st_model STATE) as [m|] eqn:Hm;
    simpl; intros Hi.
  1: { injection Hi as <-. split; eauto. }
  all: apply init_data_and_model_sets in Hi; destruct Hi as (df' & m' & _ & _ & ->);
       split; simpl; eauto.
Qed.

Lemma call_tool_after_init (csv : result DataFrame) (STATE STATE' : State)
    (name : string) (arguments : Args) :
  lazy_init csv STATE = Ok STATE' ->
  call_tool csv STATE name arguments
  = (STATE', Ok match route STATE' name arguments with
                | Ok result => result
                | Raise e => ErrorPayload (str_exn e) arguments
                end).
Proof. intros Hi. unfold call_tool. rewrite Hi. reflexivity. Qed.

Lemma call_tool_init_raises (csv : result DataFrame) (STATE : State) (e : exn)
    (name : string) (arguments : Args) :
  lazy_init csv STATE = Raise e ->
  call_tool csv STATE name arguments = (STATE, Raise e).
Proof. intros Hi. unfold call_tool. rewrite Hi. reflexivity. Qed.

Lemma route_unknown (STATE : State) (nm : string) (arguments : Args) :
  ~ declared nm ->
  route STATE nm arguments = Ok (UnknownToolError ("Unknown tool: " +:+ nm)).
Proof.
  intros Hn. unfold route.
  repeat match goal with
  | |- context [String.eqb nm ?s] =>
      destruct (String.eqb_spec nm s) as [->|_];
      [exfalso; apply Hn; unfold declared; simpl; tauto|]
  end.
  reflexivity.
Qed.
End DispatcherProperties.

Section DispatcherShapes.
Context `{Builtins}.

Lemma bind_Ok_inv {A B} (m : result A) (f : A -> result B) (b : B) :
  (m ≫= f) = Ok b -> exists a, m = Ok a /\ f a = Ok b.
Proof. destruct m as [a|e]; [eauto | discriminate]. Qed.

Ltac unbind Hr :=
  repeat match type of Hr with
  | (_ ≫= _) = Ok _ =>
      let a := fresh "a" in let E := fresh "E" in
      apply bind_Ok_inv in Hr; destruct Hr as (a & E & Hr)
  end.

Lemma tool_filter_cars_shape (df : DataFrame) (args : Args) (p : payload) :
  tool_filter_cars df args = Ok p -> success_object "filter_cars" p.
Proof.
  unfold tool_filter_cars. intros Hr. unbind Hr.
  injection Hr as <-. split; reflexivity.
Qed.

Lemma tool_recommend_shape (df : DataFrame) (args : Args) (p : payload) :
  tool_recommend df args = Ok p -> success_object "recommend" p.
Proof.
  unfold tool_recommend. destruct (args !! "budget_max"); [|discriminate].
  intros Hr. unbind Hr. injection Hr as <-. split; reflexivity.
Qed.

Lemma tool_estimate_price_shape (model : Pipeline) fc (args : Args) (p : payload) :
  tool_estimate_price model fc args = Ok p -> success_object "estimate_price" p.
Proof.
  unfold tool_estimate_price. intros Hr. unbind Hr. injection Hr as <-. reflexivity.
Qed.

Lemma tool_average_price_shape (df : DataFrame) (args : Args) (p : payload) :
  tool_average_price df args = Ok p -> success_object "average_price" p.
Proof.
  unfold tool_average_price. intros Hr. unbind Hr. injection Hr as <-. reflexivity.
Qed.

Lemma tool_top_cars_shape (df : DataFrame) (args : Args) (p : payload) :
  tool_top_cars df args = Ok p -> success_object "top_cars" p.
Proof.
  unfold tool_top_cars. intros Hr. unbind Hr. injection Hr as <-. reflexivity.
Qed.

Lemma route_declared_shape (STATE : State) (nm : string) (arguments : Args) (p : payload) :
  declared nm -> route STATE nm arguments = Ok p -> success_object nm p.
Proof.
  intros Hd. unfold route.
  destruct (String.eqb_spec nm "filter_cars") as [->|N1].
  { intros Hr. unbind Hr. eauto using tool_filter_cars_shape. }
  destruct (String.eqb_spec nm "recommend") as [->|N2].
  { intros Hr. unbind Hr. eauto using tool_recommend_shape. }
  destruct (String.eqb_spec nm "estimate_price") as [->|N3].
  { intros Hr. unbind Hr. eauto using tool_estimate_price_shape. }
  destruct (String.eqb_spec nm "average_price") as [->|N4].
  { intros Hr. unbind Hr. eauto using tool_average_price_shape. }
  destruct (String.eqb_spec nm "top_cars") as [->|N5].
  { intros Hr. unbind Hr. eauto using tool_top_cars_shape. }
  exfalso. unfold declared in Hd. simpl in Hd. intuition congruence.
Qed.
End DispatcherShapes.

(** C2 (as amended). The lazy initialisation runs before the [try]
    block. When it does not raise, the dispatcher returns a payload: for
    a declared tool the handler's success object or, if the handler
    raised, the error object made of the exception's message and the
    arguments; for any other name the error object naming the unknown
    tool, which has no [args] entry. When the initialisation raises, the
    exception leaves the dispatcher and the state is unchanged. *)
Theorem call_tool_returns_payload_after_init `{Builtins}
    (csv : result DataFrame) (STATE : State) (nm : string) (arguments : Args) :
  match lazy_init csv STATE with
  | Ok STATE' =>
      exists p, call_tool csv STATE nm arguments = (STATE', Ok p)
        /\ ((declared nm /\ success_object nm p)
            \/ (declared nm /\ exists e, route STATE' nm arguments = Raise e
                                  /\ p = ErrorPayload (str_exn e) arguments)
            \/ (~ declared nm /\ p = UnknownToolError ("Unknown tool: " +:+ nm)))
  | Raise e => call_tool csv STATE nm arguments = (STATE, Raise e)
  end.
Proof.
  destruct (lazy_init csv STATE) as [STATE'|e] eqn:Hi.
  - rewrite (call_tool_after_init _ _ _ _ _ Hi). eexists. split; [reflexivity|].
    destruct (decide (declared nm)) as [Hd|Hn].
    + destruct (route STATE' nm arguments) as [p|e] eqn:Hr.
      * left. split; [exact Hd|]. eapply route_declared_shape; eassumption.
      * right. left. split; [exact Hd|]. eauto.
    + right. right. split; [exact Hn|]. by rewrite route_unknown.
  - by apply call_tool_init_raises.
Qed.

(** C2 as stated fails: on the first call, with a table that lacks the
    Price column, the [ValueError] of [_check_columns] leaves
    [call_tool]; no payload is returned. *)
Lemma init_failure_escapes_call_tool :
  exists e, @call_tool reference_builtins (Ok csv_no_price) STATE0 "filter_cars" ∅
            = (STATE0, Raise (ValueError e)).
Proof. eexists. vm_compute. reflexivity. Qed.

(** C3 (as amended). For a name that is not a declared tool the
    dispatcher still runs the lazy initialisation first. If that does
    not raise, the payload is the unknown-tool error object and the
    state is the initialised one, which is the state as it was when it
    was already initialised; if it raises, the exception leaves the
    dispatcher. *)
Theorem unknown_tool_after_lazy_init `{Builtins}
    (csv : result DataFrame) (STATE : State) (nm : string) (arguments : Args) :
  ~ declared nm ->
  match lazy_init csv STATE with
  | Ok STATE' =>
      call_tool csv STATE nm arguments
      = (STATE', Ok (UnknownToolError ("Unknown tool: " +:+ nm)))
      /\ (initialized STATE -> STATE' = STATE)
  | Raise e => call_tool csv STATE nm arguments = (STATE, Raise e)
  end.
Proof.
  intros Hn. destruct (lazy_init csv STATE) as [STATE'|e] eqn:Hi.
  - rewrite (call_tool_after_init _ _ _ _ _ Hi), route_unknown by exact Hn.
    split; [reflexivity|]. intros Hinit.
    rewrite (lazy_init_initialized_state csv STATE Hinit) in Hi. congruence.
  - by apply call_tool_init_raises.
Qed.

Lemma unknown_tool_after_lazy_init_witness :
  ~ declared "bogus"
  /\ match @lazy_init reference_builtins (Ok csv_two) STATE0 with
     | Ok STATE' =>
         @call_tool reference_builtins (Ok csv_two) STATE0 "bogus" ∅
         = (STATE', Ok (UnknownToolError ("Unknown tool: " +:+ "bogus")))
         /\ (initialized STATE0 -> STATE' = STATE0)
     | Raise e =>
         @call_tool reference_builtins (Ok csv_two) STATE0 "bogus" ∅ = (STATE0, Raise e)
     end.
Proof.
  assert (Hn : ~ declared "bogus").
  { unfold declared. simpl. intuition discriminate. }
  split; [exact Hn|].
  exact (@unknown_tool_after_lazy_init reference_builtins (Ok csv_two) STATE0 "bogus" ∅ Hn).
Defined.

(** C3 as stated fails: an unknown tool name on the first call loads the
    dataset and fits the model, so the state does not stay as it was. *)
Lemma unknown_tool_initializes_state :
  exists STATE',
    @call_tool reference_builtins (Ok csv_two) STATE0 "bogus" ∅
    = (STATE', Ok (UnknownToolError "Unknown tool: bogus"))
    /\ ~ declared "bogus"
    /\ st_df STATE0 = None
    /\ is_Some (st_df STATE').
Proof.
  eexists. split; [vm_compute; reflexivity|].
  split; [unfold declared; simpl; intuition discriminate|].
  split; [reflexivity|]. eexists. reflexivity.
Qed.

(** C9. Once a lazy initialisation has succeeded, every later call
    finds the state initialised: whatever the table on disk has become
    and whatever the call is, the guard leaves the stored dataset, model
    and feature list as they are, and the call returns a payload with
    the state unchanged. *)
Theorem lazy_init_is_idempotent `{Builtins}
    (csv : result DataFrame) (STATE STATE' : State) :
  lazy_init csv STATE = Ok STATE' ->
  forall (csv' : result DataFrame) (nm : string) (arguments : Args),
    lazy_init csv' STATE' = Ok STATE'
    /\ exists p, call_tool csv' STATE' nm arguments = (STATE', Ok p).
Proof.
  intros Hi csv' nm arguments.
  assert (Hs : lazy_init csv' STATE' = Ok STATE').
  { apply lazy_init_initialized_state. eapply lazy_init_initializes. exact Hi. }
  split; [exact Hs|]. rewrite (call_tool_after_init _ _ _ _ _ Hs). eauto.
Qed.

Lemma lazy_init_is_idempotent_witness :
  exists STATE',
    @lazy_init reference_builtins (Ok csv_two) STATE0 = Ok STATE'
    /\ @lazy_init reference_builtins (Raise (OSError "No such file")) STATE' = Ok STATE'
    /\ exists p, @call_tool reference_builtins (Raise (OSError "No such file")) STATE'
                   "average_price" ∅ = (STATE', Ok p).
Proof.
  eexists. split; [vm_compute; reflexivity|].
  apply (@lazy_init_is_idempotent reference_builtins (Ok csv_two) STATE0).
  vm_compute; reflexivity.
Defined.

(** ** Keys a handler does not read *)

Section HandlerReads.
Context `{Builtins}.

Lemma agree_on_weaken (keys keys' : list string) (args args' : Args) :
  (forall k, In k keys' -> In k keys) ->
  agree_on keys args args' -> agree_on keys' args args'.
Proof. intros Hsub Ha k Hk. apply Ha, Hsub, Hk. Qed.

Lemma agree_on_insert (keys : list string) (args args' : Args) k v :
  agree_on keys args args' -> agree_on keys (<[k := v]> args) (<[k := v]> args').
Proof.
  intros Ha k' Hk'. destruct (decide (k = k')) as [->|Hne].
  - by rewrite !lookup_insert_eq.
  - rewrite !lookup_insert_ne by exact Hne. by apply Ha.
Qed.

Lemma agree_on_insert_fresh (keys : list string) (args : Args) k v :
  ~ In k keys -> agree_on keys (<[k := v]> args) args.
Proof.
  intros Hk k' Hk'. apply lookup_insert_ne. intros ->. by apply Hk.
Qed.

Lemma forallb_ext_in {A} (f g : A -> bool) (l : list A) :
  (forall x, In x l -> f x = g x) -> forallb f l = forallb g l.
Proof.
  induction l as [|a l IH]; intros Hfg; simpl; [reflexivity|].
  rewrite (Hfg a) by (left; reflexivity).
  rewrite IH; [reflexivity|]. intros x Hx. apply Hfg. right. exact Hx.
Qed.

Lemma satisfies_agree (args args' : Args) (r : row) :
  agree_on criteria_keys args args' -> satisfies args r = satisfies args' r.
Proof.
  intros Ha. unfold satisfies, bounds_hold, bound_holds, bound_of.
  rewrite !(Ha "Year_min"), !(Ha "Year_max"), !(Ha "Price_max"), !(Ha "Mileage_max")
    by (simpl; tauto).
  f_equal. apply forallb_ext_in. intros c Hc. unfold exact_holds.
  rewrite (Ha (label c)); [reflexivity|].
  unfold criteria_keys. apply in_or_app. left. apply in_map. exact Hc.
Qed.

Lemma selected_agree (df : DataFrame) (args args' : Args) (limit : Z) :
  agree_on criteria_keys args args' -> selected df args limit = selected df args' limit.
Proof.
  intros Ha. unfold selected. do 2 f_equal.
  apply filter_ext. intros r. by apply satisfies_agree.
Qed.

Lemma dict_get_default_agree (args args' : Args) k d :
  args !! k = args' !! k -> dict_get_default args k d = dict_get_default args' k d.
Proof. unfold dict_get_default. by intros ->. Qed.

Lemma dict_item_agree (args args' : Args) k :
  args !! k = args' !! k -> dict_item args k = dict_item args' k.
Proof. unfold dict_item. by intros ->. Qed.

Lemma tool_filter_cars_agree (df : DataFrame) (args args' : Args) :
  agree_on (handler_reads "filter_cars") args args' ->
  tool_filter_cars df args = tool_filter_cars df args'.
Proof.
  intros Ha. unfold tool_filter_cars.
  rewrite (apply_filters_lookup df args args')
    by (intros k Hk; apply Ha; simpl in *; tauto).
  rewrite (dict_get_default_agree args args' "limit")
    by (apply Ha; simpl; tauto).
  reflexivity.
Qed.

Lemma tool_recommend_agree (df : DataFrame) (args args' : Args) :
  agree_on (handler_reads "recommend") args args' ->
  tool_recommend df args = tool_recommend df args'.
Proof.
  intros Ha. unfold tool_recommend.
  rewrite <- (Ha "budget_max") by (simpl; tauto).
  destruct (args !! "budget_max") as [b|]; [|reflexivity].
  rewrite (apply_filters_lookup df (<["Price_max":=b]> args) (<["Price_max":=b]> args')).
  2: { apply agree_on_insert. intros k Hk. apply Ha. simpl in *. tauto. }
  rewrite (dict_get_default_agree args args' "limit")
    by (apply Ha; simpl; tauto).
  reflexivity.
Qed.

Lemma estimation_payload_agree (args args' : Args) :
  agree_on (handler_reads "estimate_price") args args' ->
  estimation_payload args = estimation_payload args'.
Proof.
  intros Ha. unfold estimation_payload.
  rewrite !(dict_get_default_agree args args') by (apply Ha; simpl; tauto).
  rewrite !(dict_item_agree args args') by (apply Ha; simpl; tauto).
  reflexivity.
Qed.

Lemma tool_estimate_price_agree (model : Pipeline) fc (args args' : Args) :
  agree_on (handler_reads "estimate_price") args args' ->
  tool_estimate_price model fc args = tool_estimate_price model fc args'.
Proof.
  intros Ha. unfold tool_estimate_price. by rewrite (estimation_payload_agree args args').
Qed.

Lemma tool_top_cars_agree (df : DataFrame) (args args' : Args) :
  agree_on (handler_reads "top_cars") args args' ->
  tool_top_cars df args = tool_top_cars df args'.
Proof.
  intros Ha. unfold tool_top_cars.
  rewrite (apply_filters_lookup df args args')
    by (intros k Hk; apply Ha; simpl in *; tauto).
  rewrite (dict_get_default_agree args args' "n"),
          (dict_get_default_agree args args' "sort_order")
    by (apply Ha; simpl; tauto).
  reflexivity.
Qed.

(** Every handler but average_price, which echoes its arguments,
    depends on the argument object through the keys it reads only. *)
Lemma route_agree (STATE : State) (nm : string) (args args' : Args) :
  nm <> "average_price" ->
  agree_on (handler_reads nm) args args' ->
  route STATE nm args = route STATE nm args'.
Proof.
  intros Hna Ha. unfold route.
  destruct (String.eqb_spec nm "filter_cars") as [->|N1].
  { destruct (not_None (st_df STATE)); [|reflexivity].
    rewrite !bind_Ok. by apply tool_filter_cars_agree. }
  destruct (String.eqb_spec nm "recommend") as [->|N2].
  { destruct (not_None (st_df STATE)); [|reflexivity].
    rewrite !bind_Ok. by apply tool_recommend_agree. }
  destruct (String.eqb_spec nm "estimate_price") as [->|N3].
  { destruct (not_None (st_model STATE)); [|reflexivity]. rewrite !bind_Ok.
    destruct (not_None (st_feature_columns STATE)); [|reflexivity].
    rewrite !bind_Ok. by apply tool_estimate_price_agree. }
  destruct (String.eqb_spec nm "average_price") as [->|N4]; [congruence|].
  destruct (String.eqb_spec nm "top_cars") as [->|N5].
  { destruct (not_None (st_df STATE)); [|reflexivity].
    rewrite !bind_Ok. by apply tool_top_cars_agree. }
  reflexivity.
Qed.
End HandlerReads.

(** ** Schemas and the recommend tool *)

Lemma tool_definition_declared (tool : Tool) :
  In tool list_tools -> tool_definition (name tool) = Some tool.
Proof.
  intros Hin. unfold list_tools in Hin. simpl in Hin.
  destruct Hin as [<-|[<-|[<-|[<-|[<-|[]]]]]]; reflexivity.
Qed.

Lemma declared_tools_are_closed (tool : Tool) :
  In tool list_tools -> additionalProperties tool = false.
Proof.
  intros Hin. unfold list_tools in Hin. simpl in Hin.
  destruct Hin as [<-|[<-|[<-|[<-|[<-|[]]]]]]; reflexivity.
Qed.

Lemma property_of_undeclared (tool : Tool) (k : string) :
  ~ In k (List.map p_name (properties tool)) -> property_of tool k = None.
Proof.
  intros Hk. unfold property_of.
  destruct (List.find _ (properties tool)) as [p|] eqn:E; [|reflexivity].
  apply find_some in E. destruct E as [Hin Heq]. apply String.eqb_eq in Heq.
  exfalso. apply Hk. rewrite <- Heq. apply in_map. exact Hin.
Qed.

(** An entry under a key the schema does not declare fails the
    validation of a schema that allows no additional properties. *)
Lemma schema_rejects_undeclared (tool : Tool) (args : Args) (k : string) :
  additionalProperties tool = false ->
  is_Some (args !! k) ->
  ~ In k (List.map p_name (properties tool)) ->
  schema_valid tool args = false.
Proof.
  intros Hclosed [v Hv] Hk. unfold schema_valid. apply andb_false_iff. right.
  destruct (forallb (entry_valid tool) (map_to_list args)) eqn:E; [|reflexivity].
  rewrite forallb_forall in E. specialize (E (k, v)).
  unfold entry_valid in E. simpl in E.
  rewrite (property_of_undeclared tool k Hk), Hclosed in E.
  symmetry. apply E. apply list_elem_of_In, elem_of_map_to_list. exact Hv.
Qed.

(** C4. For every declared tool and every argument object that holds a
    property the tool's schema does not declare, the call is rejected by
    the schema validation of the handler that [@server.call_tool()]
    registers: the decorated function is not called on that object, so
    the state is left as it was, not even initialised, and an error
    result that carries the validation failure is answered instead. *)
Theorem undeclared_property_is_rejected `{Builtins}
    (csv : result DataFrame) (STATE : State) (tool : Tool) (args : Args) (k : string) :
  In tool list_tools ->
  is_Some (args !! k) ->
  ~ In k (List.map p_name (properties tool)) ->
  additionalProperties tool = false
  /\ schema_valid tool args = false
  /\ registered_call_tool csv STATE (name tool) args
     = (STATE, ErrorResult ("Input validation error: "
                            +:+ validation_message (name tool) args)).
Proof.
  intros Hin Hk Hun.
  pose proof (declared_tools_are_closed tool Hin) as Hclosed.
  pose proof (schema_rejects_undeclared tool args k Hclosed Hk Hun) as Hv.
  split; [exact Hclosed|]. split; [exact Hv|].
  unfold registered_call_tool.
  rewrite (tool_definition_declared tool Hin), Hv. reflexivity.
Qed.

Lemma undeclared_property_is_rejected_witness :
  In filter_cars_tool list_tools
  /\ is_Some (args_bogus_property !! "colour")
  /\ ~ In "colour" (List.map p_name (properties filter_cars_tool))
  /\ @registered_call_tool reference_builtins (Ok csv_two) STATE0 "filter_cars"
       args_bogus_property
     = (STATE0, ErrorResult ("Input validation error: "
          +:+ @validation_message reference_builtins "filter_cars" args_bogus_property)).
Proof.
  assert (Hin : In filter_cars_tool list_tools) by (left; reflexivity).
  assert (Hk : is_Some (args_bogus_property !! "colour"))
    by (exists (VStr "red"); vm_compute; reflexivity).
  assert (Hun : ~ In "colour" (List.map p_name (properties filter_cars_tool))).
  { simpl. intuition discriminate. }
  split; [exact Hin|]. split; [exact Hk|]. split; [exact Hun|].
  exact (proj2 (proj2 (@undeclared_property_is_rejected reference_builtins
           (Ok csv_two) STATE0 filter_cars_tool args_bogus_property "colour" Hin Hk Hun))).
Defined.

(** Arguments that conform to the schema reach the decorated function:
    a first call to filter_cars with no arguments initialises the state
    and returns both records of the table. *)
Example conforming_call_reaches_handler :
  exists STATE' results,
    @registered_call_tool reference_builtins (Ok csv_two) STATE0 "filter_cars" ∅
    = (STATE', Content (FilterCarsResult 2 results))
    /\ initialized STATE'.
Proof.
  eexists _, _. split; [vm_compute; reflexivity|].
  split; eexists; reflexivity.
Qed.

(** C7 (as amended). A call to recommend runs the lazy initialisation
    first; if that raises, the exception leaves the dispatcher.
    Otherwise the dispatcher returns what recommend returns on the
    stored dataset, or the error payload of what it raises. Without
    budget_max, recommend raises the [ValueError] "budget_max is
    required". With budget_max, whenever recommend returns, it returns
    the budget as [float] reads it and the records that satisfy the
    criteria with Price_max set to budget_max, sorted and truncated to
    the limit (10 when absent): the very rows filter_cars selects for
    those criteria and that limit, without the Color column. When
    [float] cannot read budget_max, recommend raises instead; and when
    filter_cars raises for those criteria and that limit, recommend
    raises the same exception. *)
Theorem recommend_needs_budget_and_filters_by_it `{Builtins}
    (csv : result DataFrame) (STATE : State) (args : Args) :
  match lazy_init csv STATE with
  | Raise e => call_tool csv STATE "recommend" args = (STATE, Raise e)
  | Ok STATE' =>
      exists df,
        st_df STATE' = Some df
        /\ call_tool csv STATE "recommend" args
           = (STATE', Ok match tool_recommend df args with
                         | Ok p => p
                         | Raise e => ErrorPayload (str_exn e) args
                         end)
        /\ (args !! "budget_max" = None ->
            tool_recommend df args = Raise (ValueError "budget_max is required")
            /\ call_tool csv STATE "recommend" args
               = (STATE', Ok (ErrorPayload "budget_max is required" args)))
        /\ (forall budget_max p,
              args !! "budget_max" = Some budget_max ->
              tool_recommend df args = Ok p ->
              exists b limit,
                py_float budget_max = Ok b
                /\ py_int (dict_get_default args "limit" (VNum 10)) = Ok limit
                /\ (args !! "limit" = None -> limit = 10%Z)
                /\ let criteria := <["Price_max" := budget_max]> args in
                   let rows_out := selected df criteria limit in
                   p = RecommendResult b (length rows_out)
                         (to_dict_records results_cols rows_out)
                   /\ tool_filter_cars df (<["limit" := VNum (inject_Z limit)]> criteria)
                      = Ok (FilterCarsResult (length rows_out)
                              (to_dict_records (results_cols ++ [C_Color]) rows_out)))
        /\ (forall budget_max e,
              args !! "budget_max" = Some budget_max ->
              py_float budget_max = Raise e ->
              exists e', tool_recommend df args = Raise e')
        /\ (forall budget_max e,
              args !! "budget_max" = Some budget_max ->
              tool_filter_cars df
                (<["limit" := dict_get_default args "limit" (VNum 10)]>
                   (<["Price_max" := budget_max]> args)) = Raise e ->
              tool_recommend df args = Raise e)
  end.
Proof.
  destruct (lazy_init csv STATE) as [STATE'|e0] eqn:Hi;
    [|by apply call_tool_init_raises].
  destruct (lazy_init_initializes csv STATE STATE' Hi) as [[df Hdf] _].
  exists df. split; [exact Hdf|].
  assert (Hroute : route STATE' "recommend" args = tool_recommend df args).
  { unfold route. simpl. rewrite Hdf. reflexivity. }
  assert (Hcall : call_tool csv STATE "recommend" args
            = (STATE', Ok match tool_recommend df args with
                          | Ok p => p
                          | Raise e => ErrorPayload (str_exn e) args
                          end)).
  { rewrite (call_tool_after_init _ _ _ _ _ Hi), Hroute. reflexivity. }
  split; [exact Hcall|]. split; [|split; [|split]].
  - intros Hb.
    assert (Hraise : tool_recommend df args = Raise (ValueError "budget_max is required")).
    { unfold tool_recommend. rewrite Hb. reflexivity. }
    split; [exact Hraise|]. rewrite Hcall, Hraise. reflexivity.
  - intros budget_max p Hb Hp.
    destruct (tool_recommend_inv df args p Hp) as (v & S & limit & b & Hb' & E & Hl & Hf & ->).
    assert (v = budget_max) by congruence. subst v.
    exists b, limit. split; [exact Hf|]. split; [exact Hl|]. split.
    { intros Hn. unfold dict_get_default in Hl. rewrite Hn in Hl.
      injection Hl as <-. reflexivity. }
    intros criteria rows_out. split.
    { unfold to_dict_records. rewrite length_map. reflexivity. }
    assert (Ha : agree_on criteria_keys
                   (<["limit" := VNum (inject_Z limit)]> criteria) criteria).
    { apply agree_on_insert_fresh. simpl. intuition discriminate. }
    rewrite (tool_filter_cars_returns df S _ limit).
    + rewrite (selected_agree df _ criteria limit Ha).
      unfold to_dict_records. rewrite length_map. reflexivity.
    + rewrite (apply_filters_lookup df _ criteria Ha). exact E.
    + unfold dict_get_default. rewrite lookup_insert_eq. simpl.
      rewrite Z.quot_1_r. reflexivity.
  - intros budget_max e Hb Hf.
    destruct (tool_recommend df args) as [p|e'] eqn:Hp; [|eauto].
    destruct (tool_recommend_inv df args p Hp) as (v & _ & _ & b & Hb' & _ & _ & Hf' & _).
    congruence.
  - intros budget_max e Hb Hfc. unfold tool_recommend. rewrite Hb.
    unfold tool_filter_cars in Hfc.
    rewrite (apply_filters_lookup df _ (<["Price_max" := budget_max]> args)) in Hfc
      by (apply agree_on_insert_fresh; simpl; intuition discriminate).
    destruct (_apply_filters df (<["Price_max" := budget_max]> args)) as [S|e1];
      [|exact Hfc].
    rewrite bind_Ok in Hfc |- *.
    unfold dict_get_default at 1 in Hfc. rewrite lookup_insert_eq in Hfc. simpl in Hfc.
    destruct (py_int (dict_get_default args "limit" (VNum 10))) as [limit|e2];
      [discriminate Hfc | exact Hfc].
Qed.

Lemma recommend_needs_budget_and_filters_by_it_witness :
  exists STATE' df p,
    @lazy_init reference_builtins (Ok csv_two) STATE0 = Ok STATE'
    /\ st_df STATE' = Some df
    /\ args_budget_10000 !! "budget_max" = Some (VNum 10000)
    /\ @tool_recommend reference_builtins df args_budget_10000 = Ok p
    /\ exists b limit,
         @py_float reference_builtins (VNum 10000) = Ok b
         /\ @py_int reference_builtins
              (dict_get_default args_budget_10000 "limit" (VNum 10)) = Ok limit
         /\ (args_budget_10000 !! "limit" = None -> limit = 10%Z)
         /\ let criteria := <["Price_max" := VNum 10000]> args_budget_10000 in
            let rows_out := @selected reference_builtins df criteria limit in
            p = RecommendResult b (length rows_out)
                  (to_dict_records results_cols rows_out)
            /\ @tool_filter_cars reference_builtins df
                 (<["limit" := VNum (inject_Z limit)]> criteria)
               = Ok (FilterCarsResult (length rows_out)
                       (to_dict_records (results_cols ++ [C_Color]) rows_out)).
Proof.
  pose proof (@recommend_needs_budget_and_filters_by_it reference_builtins
                (Ok csv_two) STATE0 args_budget_10000) as W.
  destruct (@lazy_init reference_builtins (Ok csv_two) STATE0) as [STATE'|e] eqn:Hi;
    [|vm_compute in Hi; discriminate Hi].
  destruct W as (df & Hdf & _ & _ & Hsome & _ & _).
  vm_compute in Hi. injection Hi as <-.
  simpl in Hdf. injection Hdf as <-.
  eexists _, _, _. split; [reflexivity|]. split; [reflexivity|].
  split; [vm_compute; reflexivity|]. split; [vm_compute; reflexivity|].
  apply (Hsome (VNum 10000)); vm_compute; reflexivity.
Defined.

(** C7 as stated fails, in either half. With budget_max present and
    null, recommend does not return the result of filtering with
    Price_max set to budget_max, which filter_cars does return; it
    raises, [float] being applied to [None]. And without budget_max, on
    a first call with a table that lacks a required column, no error
    payload is returned: the exception of the initialisation leaves the
    dispatcher. *)
Lemma null_budget_is_not_filtered :
  (args_budget_null !! "budget_max" = Some VNull
   /\ @tool_recommend reference_builtins csv_two args_budget_null
      = Raise (TypeError
          "float() argument must be a string or a real number, not 'NoneType'")
   /\ exists results,
        @tool_filter_cars reference_builtins csv_two
          (<["limit" := VNum 10]> (<["Price_max" := VNull]> args_budget_null))
        = Ok (FilterCarsResult 2 results))
  /\ ((∅ : Args) !! "budget_max" = None
      /\ exists e, @call_tool reference_builtins (Ok csv_no_price) STATE0 "recommend" ∅
                   = (STATE0, Raise (ValueError e))).
Proof.
  split.
  - split; [vm_compute; reflexivity|]. split; [vm_compute; reflexivity|].
    eexists. vm_compute. reflexivity.
  - split; [reflexivity|]. eexists. vm_compute. reflexivity.
Qed.

(** ** Price estimation *)




Section Estimation.
Context `{Builtins}.


End Estimation.



(** ** The example scenario of the specification *)

Example scenario_filter_cars :
  @tool_filter_cars reference_builtins csv_two args_scenario_filter
  = Ok (FilterCarsResult 2
          (to_dict_records (results_cols ++ [C_Color]) [honda; toyota])).
Proof. vm_compute. reflexivity. Qed.

Example scenario_recommend :
  @tool_recommend reference_builtins csv_two args_budget_10000
  = Ok (RecommendResult 10000 1 (to_dict_records results_cols [honda])).
Proof. vm_compute. reflexivity. Qed.

Example scenario_average_price :
  @tool_average_price reference_builtins csv_two args_scenario_ford
  = Ok (AveragePriceResult args_scenario_ford None 0).
Proof. vm_compute. reflexivity. Qed.

Example scenario_equal_price_newer_first :
  sort_values_price_year [toyota; honda; honda_new] = [honda_new; honda; toyota].
Proof. vm_compute. reflexivity. Qed.

Example scenario_estimate_without_year :
  @tool_estimate_price reference_builtins
    {| categories := []; coef := []; intercept := 0 |} stored_feature_columns ∅
  = Raise (KeyError "Year").
Proof. vm_compute. reflexivity. Qed.

(** * Further properties of the code *)

(** ** The filter: what it keeps, what it reads *)

Lemma filter_sublist {A} (p : A -> bool) (l : list A) : sublist (List.filter p l) l.
Proof.
  induction l as [|a l IH]; simpl; [constructor|].
  destruct (p a); by constructor.
Qed.

Section FilterFurther.
Context `{Builtins}.

Lemma range_step_sublist (args : Args) k conv test (q q' : DataFrame) :
  range_step args k conv test q = Ok q' ->
  columns q' = columns q /\ sublist (rows q') (rows q).
Proof.
  unfold range_step. destruct (is_not_None (dict_get args k)).
  - intros Hr. apply bind_Ok_inv in Hr. destruct Hr as (v & _ & Hr).
    apply bind_Ok_inv in Hr. destruct Hr as (b & _ & Hr).
    injection Hr as <-. split; [reflexivity|]. apply filter_sublist.
  - intros [= <-]. split; reflexivity.
Qed.

(** A block of the filter depends on the argument object through
    [args.get(k)] only. *)
Lemma range_step_dict_get (args args' : Args) k conv test (q : DataFrame) :
  dict_get args k = dict_get args' k ->
  range_step args k conv test q = range_step args' k conv test q.
Proof.
  unfold range_step, dict_get, dict_item. intros E. rewrite <- E.
  destruct (args !! k) as [v|], (args' !! k) as [v'|]; simpl in *; subst;
    try reflexivity.
Qed.

Lemma apply_filters_view (df : DataFrame) (args args' : Args) :
  (forall c, In c exact_columns -> args !! label c = args' !! label c) ->
  (forall k, In k bound_keys -> dict_get args k = dict_get args' k) ->
  _apply_filters df args = _apply_filters df args'.
Proof.
  intros He Hb. unfold _apply_filters.
  rewrite (fold_left_ext_in (exact_step args) (exact_step args')).
  2: { intros c q Hc. unfold exact_step. by rewrite (He c Hc). }
  rewrite (range_step_dict_get args args' "Year_min") by (apply Hb; simpl; tauto).
  destruct (range_step args' "Year_min" _ _ _) as [q1|e]; [|reflexivity].
  rewrite !bind_Ok.
  rewrite (range_step_dict_get args args' "Year_max") by (apply Hb; simpl; tauto).
  destruct (range_step args' "Year_max" _ _ _) as [q2|e]; [|reflexivity].
  rewrite !bind_Ok.
  rewrite (range_step_dict_get args args' "Price_max") by (apply Hb; simpl; tauto).
  destruct (range_step args' "Price_max" _ _ _) as [q3|e]; [|reflexivity].
  rewrite !bind_Ok.
  rewrite (range_step_dict_get args args' "Mileage_max") by (apply Hb; simpl; tauto).
  reflexivity.
Qed.

Lemma bound_key_not_label (k : string) (c : column) :
  In k bound_keys -> k <> label c.
Proof. intros Hk ->. destruct c; simpl in Hk; intuition discriminate. Qed.
End FilterFurther.

(** X1. Whatever the criteria, when the filter returns it returns a frame
    with the same columns whose rows are rows of the dataset, in the
    dataset's order: it never adds, alters or reorders a record. *)
Theorem apply_filters_keeps_order `{Builtins} (df S : DataFrame) (args : Args) :
  _apply_filters df args = Ok S ->
  columns S = columns df /\ sublist (rows S) (rows df).
Proof.
  unfold _apply_filters. intros Hr.
  destruct (exact_fold_spec args exact_columns df) as [Hc0 Hr0].
  apply bind_Ok_inv in Hr. destruct Hr as (q1 & E1 & Hr).
  apply bind_Ok_inv in Hr. destruct Hr as (q2 & E2 & Hr).
  apply bind_Ok_inv in Hr. destruct Hr as (q3 & E3 & Hr).
  apply bind_Ok_inv in Hr. destruct Hr as (q4 & E4 & Hr).
  injection Hr as <-.
  apply range_step_sublist in E1, E2, E3, E4.
  destruct E1 as [C1 S1], E2 as [C2 S2], E3 as [C3 S3], E4 as [C4 S4].
  split; [congruence|].
  etrans; [exact S4|]. etrans; [exact S3|]. etrans; [exact S2|].
  etrans; [exact S1|]. rewrite Hr0. apply filter_sublist.
Qed.

Lemma apply_filters_keeps_order_witness :
  exists S,
    @_apply_filters reference_builtins csv_three args_gasoline_2017 = Ok S
    /\ columns S = columns csv_three /\ sublist (rows S) (rows csv_three).
Proof.
  eexists. split; [vm_compute; reflexivity|].
  apply (@apply_filters_keeps_order reference_builtins csv_three _ args_gasoline_2017).
  vm_compute; reflexivity.
Defined.

(** X2. A numeric bound given as JSON null is the same as no bound: the
    filter answers as it does with the key removed. *)
Theorem null_bound_is_no_bound `{Builtins} (df : DataFrame) (args : Args) (k : string) :
  In k bound_keys ->
  _apply_filters df (<[k := VNull]> args) = _apply_filters df (delete k args).
Proof.
  intros Hk. apply apply_filters_view.
  - intros c _. pose proof (bound_key_not_label k c Hk) as Hne.
    by rewrite lookup_insert_ne, lookup_delete_ne.
  - intros k' _. unfold dict_get. destruct (decide (k = k')) as [<-|Hne].
    + by rewrite lookup_insert_eq, lookup_delete_eq.
    + by rewrite lookup_insert_ne, lookup_delete_ne.
Qed.

Lemma null_bound_is_no_bound_witness :
  In "Price_max" bound_keys
  /\ @_apply_filters reference_builtins csv_two (<["Price_max" := VNull]> args_gasoline_2017)
     = @_apply_filters reference_builtins csv_two (delete "Price_max" args_gasoline_2017).
Proof.
  assert (Hk : In "Price_max" bound_keys) by (simpl; tauto).
  split; [exact Hk|].
  exact (@null_bound_is_no_bound reference_builtins csv_two args_gasoline_2017 "Price_max" Hk).
Defined.


Section FilterErrors.
Context `{Builtins}.

Lemma range_step_raises (args : Args) k conv test (q : DataFrame) (v : value) (e : exn) :
  args !! k = Some v -> is_not_None v = true -> conv v = Raise e ->
  range_step args k conv test q = Raise e.
Proof.
  intros Hk Hv Hc. unfold range_step, dict_get, dict_item.
  rewrite Hk. simpl. rewrite Hv. simpl. rewrite Hc. reflexivity.
Qed.

Lemma apply_filters_raises (df : DataFrame) (args : Args) (k : string) (v : value) (e : exn) :
  In k bound_keys ->
  args !! k = Some v -> is_not_None v = true -> bound_conversion k v = Raise e ->
  exists e', _apply_filters df args = Raise e'.
Proof.
  intros Hin Hk Hv Hc. unfold _apply_filters.
  set (q0 := fold_left (exact_step args) exact_columns df).
  destruct (range_step args "Year_min" int_bound (fun r b => cell_ge (Year r) b) q0)
    as [q1|e1] eqn:E1; [|eauto].
  rewrite bind_Ok.
  destruct (range_step args "Year_max" int_bound (fun r b => cell_le (Year r) b) q1)
    as [q2|e2] eqn:E2; [|eauto].
  rewrite bind_Ok.
  destruct (range_step args "Price_max" py_float (fun r b => cell_le (Price r) b) q2)
    as [q3|e3] eqn:E3; [|eauto].
  rewrite bind_Ok.
  destruct (range_step args "Mileage_max" py_float (fun r b => cell_le (Mileage r) b) q3)
    as [q4|e4] eqn:E4; [|eauto].
  exfalso. simpl in Hin.
  destruct Hin as [<-|[<-|[<-|[<-|[]]]]]; unfold bound_conversion in Hc; simpl in Hc.
  - rewrite (range_step_raises _ _ _ _ _ v e Hk Hv Hc) in E1. discriminate E1.
  - rewrite (range_step_raises _ _ _ _ _ v e Hk Hv Hc) in E2. discriminate E2.
  - rewrite (range_step_raises _ _ _ _ _ v e Hk Hv Hc) in E3. discriminate E3.
  - rewrite (range_step_raises _ _ _ _ _ v e Hk Hv Hc) in E4. discriminate E4.
Qed.
End FilterErrors.

(** X3. A numeric bound that is present, not null and not convertible
    ([int] for the years, [float] for price and mileage) is never ignored:
    the filter raises, and so do filter_cars, average_price and top_cars,
    with the filter's exception. *)
Theorem unconvertible_bound_raises `{Builtins}
    (df : DataFrame) (args : Args) (k : string) (v : value) (e : exn) :
  In k bound_keys ->
  args !! k = Some v -> is_not_None v = true -> bound_conversion k v = Raise e ->
  exists e', _apply_filters df args = Raise e'
    /\ tool_filter_cars df args = Raise e'
    /\ tool_average_price df args = Raise e'
    /\ tool_top_cars df args = Raise e'.
Proof.
  intros Hin Hk Hv Hc.
  destruct (apply_filters_raises df args k v e Hin Hk Hv Hc) as [e' He].
  exists e'. unfold tool_filter_cars, tool_average_price, tool_top_cars.
  rewrite He. repeat split; reflexivity.
Qed.

Lemma unconvertible_bound_raises_witness :
  exists e',
    @_apply_filters reference_builtins csv_two args_year_min_abc = Raise e'
    /\ @tool_filter_cars reference_builtins csv_two args_year_min_abc = Raise e'
    /\ @tool_average_price reference_builtins csv_two args_year_min_abc = Raise e'
    /\ @tool_top_cars reference_builtins csv_two args_year_min_abc = Raise e'.
Proof.
  apply (@unconvertible_bound_raises reference_builtins csv_two args_year_min_abc
           "Year_min" (VStr "abc")
           (ValueError "invalid literal for int() with base 10: 'abc'")).
  - simpl; tauto.
  - vm_compute; reflexivity.
  - reflexivity.
  - vm_compute; reflexivity.
Defined.

(** X4. Filtering is idempotent: with typed bounds, filtering the
    returned subset again with the same criteria gives that subset. *)
Theorem apply_filters_idempotent `{Builtins} (df S : DataFrame) (args : Args) :
  bounds_typed args = true ->
  _apply_filters df args = Ok S ->
  _apply_filters S args = Ok S.
Proof.
  intros _ Hs.
  destruct (apply_filters_rows df S args Hs) as [C1 R1].
  destruct (apply_filters_returns df S S args Hs) as [S2 E2].
  destruct (apply_filters_rows S S2 args E2) as [C2 R2].
  rewrite E2. f_equal. destruct S as [cs rs], S2 as [cs2 rs2]. simpl in *.
  subst cs2 rs2. f_equal. rewrite R1, filter_twice.
  apply filter_ext. intros r. apply andb_diag.
Qed.

Lemma apply_filters_idempotent_witness :
  exists S,
    bounds_typed args_gasoline_2017 = true
    /\ @_apply_filters reference_builtins csv_three args_gasoline_2017 = Ok S
    /\ @_apply_filters reference_builtins S args_gasoline_2017 = Ok S.
Proof.
  eexists. split; [vm_compute; reflexivity|]. split; [vm_compute; reflexivity|].
  apply (@apply_filters_idempotent reference_builtins csv_three _ args_gasoline_2017);
    vm_compute; reflexivity.
Defined.

(** X5. An exact-match criterion is read up to case and surrounding
    white space, as [str.strip] and [str.lower] have them on any text:
    two truthy values with the same trimmed, lower-cased text select the
    same records. *)
Theorem exact_criterion_modulo_case_and_space `{Builtins}
    (df : DataFrame) (args : Args) (col : column) (v v' : value) :
  In col exact_columns ->
  truthy v = true -> truthy v' = true ->
  _norm v = _norm v' ->
  _apply_filters df (<[label col := v]> args)
  = _apply_filters df (<[label col := v']> args).
Proof.
  intros Hcol Tv Tv' Hn. unfold _apply_filters.
  rewrite (fold_left_ext_in (exact_step (<[label col := v]> args))
             (exact_step (<[label col := v']> args))).
  2: { intros c q Hc. unfold exact_step.
       destruct (decide (label col = label c)) as [E|Hne].
       - rewrite <- E, !lookup_insert_eq, Tv, Tv'. unfold norm_eq.
         rewrite Hn. reflexivity.
       - rewrite !lookup_insert_ne by exact Hne. reflexivity. }
  assert (Hk : forall k conv test q, In k bound_keys ->
               range_step (<[label col := v]> args) k conv test q
               = range_step (<[label col := v']> args) k conv test q).
  { intros k conv test q Hin. apply range_step_lookup.
    pose proof (bound_key_not_label k col Hin) as Hne.
    rewrite !lookup_insert_ne by congruence. reflexivity. }
  rewrite (Hk "Year_min") by (simpl; tauto).
  destruct (range_step _ "Year_min" _ _ _) as [q1|e]; [|reflexivity]. rewrite !bind_Ok.
  rewrite (Hk "Year_max") by (simpl; tauto).
  destruct (range_step _ "Year_max" _ _ _) as [q2|e]; [|reflexivity]. rewrite !bind_Ok.
  rewrite (Hk "Price_max") by (simpl; tauto).
  destruct (range_step _ "Price_max" _ _ _) as [q3|e]; [|reflexivity]. rewrite !bind_Ok.
  rewrite (Hk "Mileage_max") by (simpl; tauto).
  reflexivity.
Qed.

Lemma exact_criterion_modulo_case_and_space_witness :
  In C_Car_Make exact_columns
  /\ @_norm reference_builtins (VStr "Toyota") = @_norm reference_builtins (VStr "  tOYOTA ")
  /\ @_apply_filters reference_builtins csv_two (<[label C_Car_Make := VStr "Toyota"]> ∅)
     = @_apply_filters reference_builtins csv_two (<[label C_Car_Make := VStr "  tOYOTA "]> ∅).
Proof.
  assert (Hc : In C_Car_Make exact_columns) by (left; reflexivity).
  split; [exact Hc|]. split; [vm_compute; reflexivity|].
  apply (@exact_criterion_modulo_case_and_space reference_builtins csv_two ∅
           C_Car_Make (VStr "Toyota") (VStr "  tOYOTA ") Hc);
    vm_compute; reflexivity.
Defined.

Lemma filter_sublist_impl {A} (p p' : A -> bool) (l : list A) :
  (forall x, p x = true -> p' x = true) ->
  sublist (List.filter p l) (List.filter p' l).
Proof.
  intros Hpp. induction l as [|a l IH]; simpl; [constructor|].
  destruct (p a) eqn:Pa.
  - rewrite (Hpp a Pa). by constructor.
  - destruct (p' a); [by constructor | exact IH].
Qed.

(** X6. Raising the price bound never loses a record: when the filter
    returns for a price bound that [float] reads as [b] and for one it
    reads as [b'], not smaller than [b], the other criteria being the
    same, the subset for the first is a sublist of the subset for the
    second. *)
Theorem price_bound_monotone `{Builtins} (df S S' : DataFrame) (args : Args)
    (v v' : value) (b b' : Q) :
  _apply_filters df (<["Price_max" := v]> args) = Ok S ->
  _apply_filters df (<["Price_max" := v']> args) = Ok S' ->
  py_float v = Ok b ->
  py_float v' = Ok b' ->
  (b <= b')%Q ->
  sublist (rows S) (rows S').
Proof.
  intros E E' Hf Hf' Hb.
  destruct (apply_filters_rows df S _ E) as [_ R].
  destruct (apply_filters_rows df S' _ E') as [_ R'].
  assert (Hv : is_not_None v = true) by (destruct v; try reflexivity; discriminate Hf).
  assert (Hv' : is_not_None v' = true) by (destruct v'; try reflexivity; discriminate Hf').
  rewrite R, R'.
  apply filter_sublist_impl. intros r. unfold satisfies.
  rewrite !andb_true_iff. intros [He Hbd]. split.
  - rewrite <- He. apply forallb_ext_in. intros c Hc. unfold exact_holds.
    rewrite !lookup_insert_ne by (destruct c; discriminate). reflexivity.
  - revert Hbd. unfold bounds_hold, bound_holds, bound_of.
    rewrite !lookup_insert_eq, !lookup_insert_ne by discriminate.
    rewrite Hv, Hv'.
    change (bound_conversion "Price_max" v) with (py_float v).
    change (bound_conversion "Price_max" v') with (py_float v').
    rewrite Hf, Hf'.
    rewrite !andb_true_iff. intros [[[H1 H2] H3] H4]. repeat split; try assumption.
    destruct (Price r) as [|p|s]; simpl in *; try discriminate H3.
    apply Qle_bool_iff. apply Qle_bool_iff in H3. lra.
Qed.

Lemma price_bound_monotone_witness :
  exists S S',
    @_apply_filters reference_builtins csv_three
      (<["Price_max" := VNum 9000]> args_gasoline_2017) = Ok S
    /\ @_apply_filters reference_builtins csv_three
         (<["Price_max" := VStr "12000"]> args_gasoline_2017) = Ok S'
    /\ @py_float reference_builtins (VNum 9000) = Ok 9000%Q
    /\ @py_float reference_builtins (VStr "12000") = Ok 12000%Q
    /\ (9000 <= 12000)%Q
    /\ rows S = [honda_new] /\ rows S' = [toyota; honda_new]
    /\ sublist (rows S) (rows S').
Proof.
  assert (Hb : (9000 <= 12000)%Q) by (vm_compute; discriminate).
  eexists _, _. split; [vm_compute; reflexivity|]. split; [vm_compute; reflexivity|].
  split; [vm_compute; reflexivity|]. split; [vm_compute; reflexivity|].
  split; [exact Hb|]. split; [reflexivity|]. split; [reflexivity|].
  apply (@price_bound_monotone reference_builtins csv_three _ _ args_gasoline_2017
           (VNum 9000) (VStr "12000") 9000 12000);
    first [exact Hb | vm_compute; reflexivity].
Defined.

(** ** Loading and cleaning, further *)

Lemma mem_str_In (c : string) (l : list string) : mem_str c l = true <-> In c l.
Proof.
  unfold mem_str. rewrite existsb_exists. split.
  - intros (x & Hx & E). apply String.eqb_eq in E. by subst.
  - intros Hin. exists c. split; [exact Hin | apply String.eqb_refl].
Qed.

Lemma filter_nil_iff {A} (p : A -> bool) (l : list A) :
  List.filter p l = [] <-> forall x, In x l -> p x = false.
Proof.
  induction l as [|a l IH]; simpl.
  - split; [intros _ x [] | reflexivity].
  - destruct (p a) eqn:Pa.
    + split; [discriminate|]. intros Hall. rewrite (Hall a) in Pa by tauto. discriminate.
    + rewrite IH. split.
      * intros Hall x [<-|Hx]; [exact Pa | by apply Hall].
      * intros Hall x Hx. apply Hall. by right.
Qed.

(** X7. [_check_columns] returns the frame it was given, unchanged,
    exactly when every required column is among the frame's columns,
    whatever their order and whatever other columns there are; otherwise
    it raises a [ValueError]. *)
Theorem check_columns_accepts_iff `{Builtins} (df : DataFrame) :
  ((forall c, In c REQUIRED_COLUMNS -> In c (columns df)) <-> _check_columns df = Ok df)
  /\ (_check_columns df = Ok df \/ exists msg, _check_columns df = Raise (ValueError msg)).
Proof.
  unfold _check_columns.
  destruct (List.filter _ REQUIRED_COLUMNS) as [|m ms] eqn:Hm.
  - split; [|left; reflexivity]. split; [reflexivity|]. intros _ c Hc.
    apply filter_nil_iff with (x := c) in Hm; [|exact Hc].
    apply negb_false_iff, mem_str_In in Hm. exact Hm.
  - split; [|right; eauto]. split; [|discriminate]. intros Hall. exfalso.
    assert (Hin : In m (List.filter (fun c => negb (mem_str c (columns df))) REQUIRED_COLUMNS)).
    { rewrite Hm. left. reflexivity. }
    apply filter_In in Hin. destruct Hin as [Hreq Hneg].
    apply negb_true_iff in Hneg. apply Hall, mem_str_In in Hreq. congruence.
Qed.

(** X8. Cleaning keeps a record of the table exactly when its Year,
    Mileage and Price convert to numbers within the three ranges and,
    where [astype(str)] keeps a missing value missing, none of Fuel
    Type, Transmission, Condition and Accident is missing; the kept
    records come out in the table's order with their strings
    normalised. A missing Car Make, Car Model or Color never makes a
    record drop. *)
Theorem clean_df_keeps_exactly_in_range `{Builtins} (df : DataFrame) :
  columns (_clean_df df) = columns df
  /\ rows (_clean_df df)
     = List.map (fun r => normalize_strings (coerce_numeric r))
         (List.filter kept (rows df)).
Proof.
  split; [reflexivity|].
  apply clean_df_rows_characterised.
Qed.

(** X9. Every record of a cleaned dataset has a numeric Year in
    [2010, 2025], a numeric Mileage in [0, 300000], a numeric Price in
    (0, 400000], in each of Fuel Type, Transmission, Condition and
    Accident a string that [strip] leaves as it is, and in each of Car
    Make, Car Model and Color such a string or a missing value. *)
Theorem clean_df_records_are_clean `{Builtins} (df : DataFrame) :
  Forall clean_record (rows (_clean_df df)).
Proof.
  apply List.Forall_forall. intros r Hin.
  pose proof (clean_df_cleaned df) as Hcl. unfold cleaned in Hcl.
  rewrite List.Forall_forall in Hcl. specialize (Hcl r Hin).
  apply invariants_parts in Hcl. destruct Hcl as [Hrange Hmiss].
  destruct (numbers_in_range_spelled _ Hrange) as (Hy & Hm & Hp).
  destruct (cleaned_row_shape df r Hin) as (r0 & _ & -> & _).
  split; [exact Hy|]. split; [exact Hm|]. split; [exact Hp|].
  unfold missing_text in Hmiss. rewrite !orb_false_iff in Hmiss.
  destruct Hmiss as [[[Hf Ht] Hc] Ha]. simpl in Hf, Ht, Hc, Ha.
  split.
  - intros c Hc'. simpl in Hc'.
    destruct Hc' as [<-|[<-|[<-|[<-|[]]]]]; simpl;
      match goal with
      | |- stripped_text (str_strip ?x) =>
          destruct (str_strip_shape x) as [E|E]; [|exact E]
      end; rewrite E in *; discriminate.
  - intros c Hc'. simpl in Hc'.
    destruct Hc' as [<-|[<-|[<-|[<-|[<-|[<-|[<-|[]]]]]]]]; apply str_strip_shape.
Qed.

Lemma cleaned_row_fixed `{Builtins} (df : DataFrame) (r : row) :
  In r (rows (_clean_df df)) ->
  normalize_strings (coerce_numeric r) = r /\ kept r = true.
Proof.
  intros Hin.
  pose proof (clean_df_cleaned df) as Hcl. unfold cleaned in Hcl.
  rewrite List.Forall_forall in Hcl. specialize (Hcl r Hin).
  apply invariants_parts in Hcl. destruct Hcl as [Hrange Hmiss].
  destruct (numbers_in_range_spelled _ Hrange) as ((y & Ey & _) & (m & Em & _) & (p & Ep & _)).
  assert (Hc : coerce_numeric r = r).
  { destruct r. simpl in *. subst. reflexivity. }
  rewrite Hc. split.
  - destruct (cleaned_row_shape df r Hin) as (r0 & _ & -> & _).
    unfold normalize_strings. simpl. rewrite !str_strip_idempotent. reflexivity.
  - unfold kept. rewrite Hc, Hrange, Hmiss. by destruct astype_str_na.
Qed.

Lemma map_filter_fixed {A} (f : A -> A) (p : A -> bool) (l : list A) :
  (forall x, In x l -> f x = x /\ p x = true) ->
  List.map f (List.filter p l) = l.
Proof.
  induction l as [|a l IH]; intros Hfix; simpl; [reflexivity|].
  destruct (Hfix a) as [Fa Pa]; [left; reflexivity|].
  rewrite Pa. simpl. rewrite Fa, IH; [reflexivity|].
  intros x Hx. apply Hfix. right. exact Hx.
Qed.

(** X10. Cleaning is idempotent: cleaning a cleaned dataset changes
    nothing. *)
Theorem clean_df_idempotent `{Builtins} (df : DataFrame) :
  _clean_df (_clean_df df) = _clean_df df.
Proof.
  pose proof (clean_df_rows_characterised (_clean_df df)) as Hr.
  assert (Hc : columns (_clean_df (_clean_df df)) = columns (_clean_df df)) by reflexivity.
  destruct (_clean_df (_clean_df df)) as [cs rs]. simpl in Hc, Hr. subst cs rs.
  transitivity {| columns := columns (_clean_df df); rows := rows (_clean_df df) |};
    [|apply df_eta].
  f_equal.
  apply (map_filter_fixed (fun r => normalize_strings (coerce_numeric r)) kept).
  intros r Hin. by apply (cleaned_row_fixed df).
Qed.

Example clean_df_dirty_table :
  rows (@_clean_df reference_builtins csv_dirty)
  = [ {| Car_Make := Str "Toyota"; Car_Model := Str "Corolla";
         Year := Num 2018; Mileage := Num 40000; Price := Num 12000;
         Fuel_Type := Str "Gasoline"; Color := Str "nan";
         Transmission := Str "Automatic"; Options_Features := NaN;
         Condition := Str "Used"; Accident := Str "No" |} ].
Proof. vm_compute. reflexivity. Qed.

(** The same table where [astype(str)] keeps a missing value missing:
    the missing colour stays missing, and the record is kept. *)
Example clean_df_dirty_table_missing_kept :
  rows (@_clean_df pandas3_builtins csv_dirty)
  = [ {| Car_Make := Str "Toyota"; Car_Model := Str "Corolla";
         Year := Num 2018; Mileage := Num 40000; Price := Num 12000;
         Fuel_Type := Str "Gasoline"; Color := NaN;
         Transmission := Str "Automatic"; Options_Features := NaN;
         Condition := Str "Used"; Accident := Str "No" |} ].
Proof. vm_compute. reflexivity. Qed.

(** ** The ranking tools, further *)

Lemma df_head_length_exact {A} (n : Z) (l : list A) :
  length (df_head n l)
  = if (0 <=? n)%Z then Nat.min (Z.to_nat n) (length l)
    else length l - Z.to_nat (- n).
Proof.
  unfold df_head. destruct (0 <=? n)%Z; rewrite length_take; lia.
Qed.

Lemma df_head_all {A} (n : Z) (l : list A) :
  (Z.of_nat (length l) <= n)%Z -> df_head n l = l.
Proof.
  intros Hn. unfold df_head. destruct (Z.leb_spec 0 n) as [_|Hlt]; [|lia].
  apply take_ge. lia.
Qed.

Lemma df_head_In {A} (n : Z) (l : list A) (x : A) : In x (df_head n l) -> In x l.
Proof.
  destruct (df_head_take n l) as [k ->]. intros Hin.
  apply list_elem_of_In. apply list_elem_of_In in Hin.
  by apply (subseteq_take k l).
Qed.

Section RankingFurther.
Context `{Builtins}.

Lemma selected_In (df : DataFrame) (criteria : Args) (limit : Z) (r : row) :
  In r (selected df criteria limit) -> In r (rows df) /\ satisfies criteria r = true.
Proof.
  unfold selected. intros Hin. apply df_head_In in Hin.
  apply list_elem_of_In in Hin. rewrite sort_values_perm in Hin.
  apply list_elem_of_In, filter_In in Hin. exact Hin.
Qed.

Lemma selected_length_exact (df : DataFrame) (criteria : Args) (limit : Z) :
  length (selected df criteria limit)
  = if (0 <=? limit)%Z then Nat.min (Z.to_nat limit) (matches df criteria)
    else matches df criteria - Z.to_nat (- limit).
Proof.
  unfold selected, matches. rewrite df_head_length_exact.
  by rewrite (Permutation_length (sort_values_perm _)).
Qed.

Lemma py_int_integer (z : Z) : py_int (VNum (inject_Z z)) = Ok z.
Proof. simpl. by rewrite Z.quot_1_r. Qed.

Lemma satisfies_no_criteria_filter (df : DataFrame) (args : Args) :
  no_criteria args = true -> List.filter (satisfies args) (rows df) = rows df.
Proof. intros Hn. apply filter_all_true. intros r. by apply no_criteria_satisfies. Qed.
End RankingFurther.

(** X11. Whenever filter_cars returns, count is min(limit, number of
    matching records) for a limit that is not negative, and the number
    of matching records less |limit| for a negative one. With no
    criteria and no limit key the count is min(20, size of the
    dataset). *)
Theorem filter_cars_count `{Builtins} (df : DataFrame) (args : Args) (p : payload) :
  tool_filter_cars df args = Ok p ->
  exists results limit,
    p = FilterCarsResult (length results) results
    /\ py_int (dict_get_default args "limit" (VNum 20)) = Ok limit
    /\ length results
       = (if (0 <=? limit)%Z then Nat.min (Z.to_nat limit) (matches df args)
          else matches df args - Z.to_nat (- limit))
    /\ (no_criteria args = true -> args !! "limit" = None ->
        length results = Nat.min 20 (length (rows df))).
Proof.
  intros Hp. destruct (tool_filter_cars_inv df args p Hp) as (S & limit & _ & Hl & ->).
  eexists _, limit. split; [reflexivity|]. split; [exact Hl|].
  unfold to_dict_records. rewrite length_map, selected_length_exact.
  split; [reflexivity|]. intros Hn Hnone.
  unfold dict_get_default in Hl. rewrite Hnone in Hl. simpl in Hl.
  injection Hl as <-. simpl. unfold matches.
  by rewrite satisfies_no_criteria_filter.
Qed.

Lemma filter_cars_count_witness :
  exists p,
    @tool_filter_cars reference_builtins csv_three args_scenario_filter = Ok p
    /\ exists results limit,
         p = FilterCarsResult (length results) results
         /\ @py_int reference_builtins
              (dict_get_default args_scenario_filter "limit" (VNum 20)) = Ok limit
         /\ length results
            = (if (0 <=? limit)%Z
               then Nat.min (Z.to_nat limit)
                      (@matches reference_builtins csv_three args_scenario_filter)
               else @matches reference_builtins csv_three args_scenario_filter
                    - Z.to_nat (- limit))
         /\ (no_criteria args_scenario_filter = true ->
             args_scenario_filter !! "limit" = None ->
             length results = Nat.min 20 (length (rows csv_three))).
Proof.
  eexists. split; [vm_compute; reflexivity|].
  apply (@filter_cars_count reference_builtins csv_three args_scenario_filter).
  vm_compute; reflexivity.
Defined.

(** X12. Every record filter_cars returns is the projection of a record
    of the dataset that satisfies the criteria; and when the limit is at
    least the number of matching records, the returned records are the
    matching records, each once, in ranked order. *)
Theorem filter_cars_results_are_matches `{Builtins} (df : DataFrame) (args : Args)
    (p : payload) :
  tool_filter_cars df args = Ok p ->
  exists rows_out limit,
    p = FilterCarsResult (length rows_out)
          (to_dict_records (results_cols ++ [C_Color]) rows_out)
    /\ py_int (dict_get_default args "limit" (VNum 20)) = Ok limit
    /\ (forall r, In r rows_out -> In r (rows df) /\ satisfies args r = true)
    /\ ((Z.of_nat (matches df args) <= limit)%Z ->
        rows_out ≡ₚ List.filter (satisfies args) (rows df)).
Proof.
  intros Hp. destruct (tool_filter_cars_inv df args p Hp) as (S & limit & _ & Hl & ->).
  exists (selected df args limit), limit.
  split; [|split; [exact Hl|split]].
  - unfold to_dict_records. by rewrite length_map.
  - intros r. apply selected_In.
  - intros Hall. unfold selected. rewrite df_head_all; [apply sort_values_perm|].
    by rewrite (Permutation_length (sort_values_perm _)).
Qed.

Lemma filter_cars_results_are_matches_witness :
  exists p,
    @tool_filter_cars reference_builtins csv_three args_gasoline_2017 = Ok p
    /\ exists rows_out limit,
         p = FilterCarsResult (length rows_out)
               (to_dict_records (results_cols ++ [C_Color]) rows_out)
         /\ @py_int reference_builtins
              (dict_get_default args_gasoline_2017 "limit" (VNum 20)) = Ok limit
         /\ (forall r, In r rows_out ->
               In r (rows csv_three)
               /\ @satisfies reference_builtins args_gasoline_2017 r = true)
         /\ ((Z.of_nat (@matches reference_builtins csv_three args_gasoline_2017)
              <= limit)%Z ->
             rows_out ≡ₚ List.filter (@satisfies reference_builtins args_gasoline_2017)
                           (rows csv_three)).
Proof.
  eexists. split; [vm_compute; reflexivity|].
  apply (@filter_cars_results_are_matches reference_builtins csv_three args_gasoline_2017).
  vm_compute; reflexivity.
Defined.

(** X13. Results are stable under the limit: for limits 0 <= k <= k',
    whenever filter_cars returns with limit k', it returns with limit k
    as well, and its results are then the first k results of the call
    with limit k'. *)
Theorem filter_cars_limit_prefix `{Builtins} (df : DataFrame) (args : Args) (k k' : Z)
    (p' : payload) :
  (0 <= k)%Z -> (k <= k')%Z ->
  tool_filter_cars df (<["limit" := VNum (inject_Z k')]> args) = Ok p' ->
  exists results results',
    p' = FilterCarsResult (length results') results'
    /\ tool_filter_cars df (<["limit" := VNum (inject_Z k)]> args)
       = Ok (FilterCarsResult (length results) results)
    /\ results = take (Z.to_nat k) results'.
Proof.
  intros Hk Hkk Hp'.
  destruct (tool_filter_cars_inv df _ p' Hp') as (S & limit & E & Hl & ->).
  assert (Ha : forall z, agree_on criteria_keys (<["limit" := VNum (inject_Z z)]> args) args).
  { intros z. apply agree_on_insert_fresh. simpl. intuition discriminate. }
  assert (Hz : forall z, py_int (dict_get_default (<["limit" := VNum (inject_Z z)]> args)
                                   "limit" (VNum 20)) = Ok z).
  { intros z. unfold dict_get_default. rewrite lookup_insert_eq. apply py_int_integer. }
  rewrite Hz in Hl. injection Hl as <-.
  rewrite (apply_filters_lookup df _ args (Ha k')) in E.
  eexists _, _. split; [reflexivity|]. split.
  - apply (tool_filter_cars_returns df S _ k); [|apply Hz].
    rewrite (apply_filters_lookup df _ args (Ha k)). exact E.
  - rewrite !(selected_agree df _ args _ (Ha _)).
    unfold to_dict_records, selected, df_head.
    destruct (Z.leb_spec 0 k) as [_|?]; [|lia].
    destruct (Z.leb_spec 0 k') as [_|?]; [|lia].
    change (List.map ?f ?l) with (f <$> l).
    rewrite <- fmap_take, take_take. do 2 f_equal. lia.
Qed.

Lemma filter_cars_limit_prefix_witness :
  (0 <= 1)%Z /\ (1 <= 5)%Z
  /\ exists p',
       @tool_filter_cars reference_builtins csv_three
         (<["limit" := VNum (inject_Z 5)]> args_gasoline_2017) = Ok p'
       /\ exists results results',
            p' = FilterCarsResult (length results') results'
            /\ @tool_filter_cars reference_builtins csv_three
                 (<["limit" := VNum (inject_Z 1)]> args_gasoline_2017)
               = Ok (FilterCarsResult (length results) results)
            /\ results = take (Z.to_nat 1) results'.
Proof.
  split; [lia|]. split; [lia|].
  eexists. split; [vm_compute; reflexivity|].
  apply (@filter_cars_limit_prefix reference_builtins csv_three args_gasoline_2017 1%Z 5%Z);
    [lia | lia | vm_compute; reflexivity].
Defined.

(** X14. Whenever recommend returns, it echoes the budget as [float]
    reads it, and every record it returns has a numeric price that is
    at most that budget. *)
Theorem recommendations_within_budget `{Builtins}
    (df : DataFrame) (args : Args) (p : payload) :
  tool_recommend df args = Ok p ->
  exists b recommendations,
    p = RecommendResult b (length recommendations) recommendations
    /\ (exists v, args !! "budget_max" = Some v /\ py_float v = Ok b)
    /\ Forall (fun rec => exists q, record_get "Price" rec = Some (Num q) /\ (q <= b)%Q)
         recommendations.
Proof.
  intros Hp.
  destruct (tool_recommend_inv df args p Hp) as (v & S & limit & b & Hb & _ & _ & Hf & ->).
  eexists b, _. split; [reflexivity|]. split; [eauto|].
  assert (Hv : is_not_None v = true) by (destruct v; try reflexivity; discriminate Hf).
  unfold to_dict_records. apply List.Forall_forall. intros rec Hin.
  apply in_map_iff in Hin. destruct Hin as (r & <- & Hr).
  apply selected_In in Hr. destruct Hr as [_ Hs].
  unfold satisfies in Hs. apply andb_true_iff in Hs. destruct Hs as [_ Hbd].
  unfold bounds_hold in Hbd. rewrite !andb_true_iff in Hbd.
  destruct Hbd as [[[_ _] Hp'] _]. unfold bound_holds in Hp'.
  rewrite (bound_of_converted _ "Price_max" v b) in Hp';
    [|apply lookup_insert_eq | exact Hv | exact Hf].
  change (record_get "Price" (to_record results_cols r)) with (Some (Price r)).
  destruct (Price r) as [|q|s]; try discriminate Hp'.
  exists q. split; [reflexivity|]. by apply Qle_bool_iff.
Qed.

Lemma recommendations_within_budget_witness :
  exists p,
    @tool_recommend reference_builtins csv_three args_budget_10000 = Ok p
    /\ exists b recommendations,
         p = RecommendResult b (length recommendations) recommendations
         /\ (exists v, args_budget_10000 !! "budget_max" = Some v
                       /\ @py_float reference_builtins v = Ok b)
         /\ Forall (fun rec => exists q, record_get "Price" rec = Some (Num q)
                                         /\ (q <= b)%Q)
              recommendations.
Proof.
  eexists. split; [vm_compute; reflexivity|].
  apply (@recommendations_within_budget reference_builtins csv_three args_budget_10000).
  vm_compute; reflexivity.
Defined.

(** X15. recommend never uses a Price_max of the caller: it overwrites
    the key with budget_max, so the call answers the same with or without
    a Price_max entry. *)
Theorem recommend_overrides_price_max `{Builtins} (df : DataFrame) (args : Args) (v : value) :
  tool_recommend df (<["Price_max" := v]> args) = tool_recommend df args.
Proof.
  unfold tool_recommend, dict_get_default.
  rewrite !lookup_insert_ne by discriminate.
  destruct (args !! "budget_max") as [b|]; [|reflexivity].
  by rewrite insert_insert_eq.
Qed.

Lemma asc_le_trans (a b c : cell) :
  Is_true (asc_le a b) -> Is_true (asc_le b c) -> Is_true (asc_le a c).
Proof.
  unfold asc_le. destruct (key_of a) as [x|], (key_of b) as [y|], (key_of c) as [z|];
    simpl; auto; try contradiction.
  rewrite !Is_true_Qle. lra.
Qed.

Lemma sort_values_price_sorted (asc : bool) (rs : list row) :
  StronglySorted (fun a b => Is_true (if asc then asc_le (Price a) (Price b)
                                      else desc_le (Price a) (Price b)))
    (sort_values_price asc rs).
Proof.
  unfold sort_values_price. apply StronglySorted_merge_sort.
  - intros a b c. destruct asc; [apply asc_le_trans | apply desc_le_trans].
  - intros a b. destruct asc; [apply asc_le_total | apply desc_le_total].
Qed.

Lemma sort_values_price_perm (asc : bool) (rs : list row) : sort_values_price asc rs ≡ₚ rs.
Proof. unfold sort_values_price. apply merge_sort_Permutation. Qed.

Section TopCars.
Context `{Builtins}.

Lemma tool_top_cars_returns (df S : DataFrame) (args : Args) (n : Z) :
  _apply_filters df args = Ok S ->
  py_int (dict_get_default args "n" (VNum 10)) = Ok n ->
  tool_top_cars df args
  = Ok (TopCarsResult (dict_get_default args "sort_order" (VStr "cheap"))
          (to_dict_records results_cols (top_selected df args n))).
Proof.
  intros E Hn. unfold tool_top_cars.
  destruct (apply_filters_rows df S args E) as [_ Hr].
  rewrite E, bind_Ok, Hn, bind_Ok, Hr. reflexivity.
Qed.

Lemma tool_top_cars_inv (df : DataFrame) (args : Args) (p : payload) :
  tool_top_cars df args = Ok p ->
  exists S n,
    _apply_filters df args = Ok S
    /\ py_int (dict_get_default args "n" (VNum 10)) = Ok n
    /\ p = TopCarsResult (dict_get_default args "sort_order" (VStr "cheap"))
             (to_dict_records results_cols (top_selected df args n)).
Proof.
  intros Hp.
  destruct (_apply_filters df args) as [S|e] eqn:E;
    [|unfold tool_top_cars in Hp; rewrite E in Hp; discriminate Hp].
  destruct (py_int (dict_get_default args "n" (VNum 10))) as [n|e] eqn:Hn;
    [|unfold tool_top_cars in Hp; rewrite E, bind_Ok, Hn in Hp; discriminate Hp].
  rewrite (tool_top_cars_returns df S args n E Hn) in Hp.
  exists S, n. split; [reflexivity|]. split; [reflexivity|]. congruence.
Qed.

Lemma top_selected_cleaned (df : DataFrame) (args : Args) (n : Z) :
  cleaned df -> Forall (fun r => invariants r = true) (top_selected df args n).
Proof.
  intros Hc. unfold top_selected.
  destruct (df_head_take n (sort_values_price
              (is_cheap (dict_get_default args "sort_order" (VStr "cheap")))
              (List.filter (satisfies args) (rows df)))) as [k ->].
  apply Forall_take. rewrite sort_values_price_perm. by apply selected_cleaned.
Qed.

Lemma top_selected_sorted (df : DataFrame) (args : Args) (n : Z) :
  StronglySorted
    (fun a b => Is_true (if is_cheap (dict_get_default args "sort_order" (VStr "cheap"))
                         then asc_le (Price a) (Price b)
                         else desc_le (Price a) (Price b)))
    (top_selected df args n).
Proof.
  unfold top_selected.
  destruct (df_head_take n (sort_values_price
              (is_cheap (dict_get_default args "sort_order" (VStr "cheap")))
              (List.filter (satisfies args) (rows df)))) as [k ->].
  apply StronglySorted_take, sort_values_price_sorted.
Qed.
End TopCars.

(** X16. On a cleaned dataset, whenever top_cars returns, it echoes the
    sort order it was given and returns at most n records for n not
    negative (10 when absent). They are sorted by non-decreasing price
    when the sort order is absent or is exactly the string "cheap"; for
    any other value, "expensive" or not, they are sorted by
    non-increasing price. *)
Theorem top_cars_sorted_by_price `{Builtins} (df : DataFrame) (args : Args) (p : payload) :
  cleaned df ->
  tool_top_cars df args = Ok p ->
  exists results n,
    p = TopCarsResult (dict_get_default args "sort_order" (VStr "cheap")) results
    /\ py_int (dict_get_default args "n" (VNum 10)) = Ok n
    /\ (args !! "n" = None -> n = 10%Z)
    /\ ((0 <= n)%Z -> (Z.of_nat (length results) <= n)%Z)
    /\ (args !! "sort_order" = None \/ args !! "sort_order" = Some (VStr "cheap") ->
        StronglySorted price_not_greater results)
    /\ (forall v, args !! "sort_order" = Some v -> v <> VStr "cheap" ->
        StronglySorted price_not_smaller results).
Proof.
  intros Hc Hp. destruct (tool_top_cars_inv df args p Hp) as (S & n & _ & Hn & ->).
  eexists _, n. split; [reflexivity|]. split; [exact Hn|].
  pose proof (top_selected_sorted df args n) as Hs.
  pose proof (top_selected_cleaned df args n Hc) as Hall.
  pose proof (StronglySorted_restrict _ _ _ Hs Hall) as Hsr.
  split; [|split; [|split]].
  - intros Hnone. unfold dict_get_default in Hn. rewrite Hnone in Hn.
    injection Hn as <-. reflexivity.
  - unfold to_dict_records. rewrite length_map. unfold top_selected. apply df_head_length.
  - intros Horder.
    assert (Hcheap : is_cheap (dict_get_default args "sort_order" (VStr "cheap")) = true).
    { unfold dict_get_default. by destruct Horder as [-> | ->]. }
    rewrite Hcheap in Hsr. unfold to_dict_records.
    eapply (StronglySorted_fmap (to_record results_cols)); [|exact Hsr].
    intros a b (Ha & Hb & Hle).
    destruct (invariants_numeric a Ha) as (pa & ya & Epa & _).
    destruct (invariants_numeric b Hb) as (pb & yb & Epb & _).
    exists pa, pb.
    change (record_get "Price" (to_record results_cols a)) with (Some (Price a)).
    change (record_get "Price" (to_record results_cols b)) with (Some (Price b)).
    rewrite Epa, Epb in *. repeat split. unfold asc_le in Hle. simpl in Hle.
    by apply Is_true_Qle.
  - intros v Hv Hne.
    assert (Hcheap : is_cheap (dict_get_default args "sort_order" (VStr "cheap")) = false).
    { unfold dict_get_default. rewrite Hv. simpl. destruct v as [| | |s| |]; try reflexivity.
      simpl. destruct (String.eqb_spec s "cheap") as [->|]; [congruence | reflexivity]. }
    rewrite Hcheap in Hsr. unfold to_dict_records.
    eapply (StronglySorted_fmap (to_record results_cols)); [|exact Hsr].
    intros a b (Ha & Hb & Hle).
    destruct (invariants_numeric a Ha) as (pa & ya & Epa & _).
    destruct (invariants_numeric b Hb) as (pb & yb & Epb & _).
    exists pa, pb.
    change (record_get "Price" (to_record results_cols a)) with (Some (Price a)).
    change (record_get "Price" (to_record results_cols b)) with (Some (Price b)).
    rewrite Epa, Epb in *. repeat split. unfold desc_le in Hle. simpl in Hle.
    by apply Is_true_Qle.
Qed.

Lemma top_cars_sorted_by_price_witness :
  cleaned csv_three
  /\ exists p,
       @tool_top_cars reference_builtins csv_three args_expensive_2 = Ok p
       /\ exists results n,
            p = TopCarsResult (dict_get_default args_expensive_2 "sort_order" (VStr "cheap"))
                  results
            /\ @py_int reference_builtins
                 (dict_get_default args_expensive_2 "n" (VNum 10)) = Ok n
            /\ (args_expensive_2 !! "n" = None -> n = 10%Z)
            /\ ((0 <= n)%Z -> (Z.of_nat (length results) <= n)%Z)
            /\ (args_expensive_2 !! "sort_order" = None
                \/ args_expensive_2 !! "sort_order" = Some (VStr "cheap") ->
                StronglySorted price_not_greater results)
            /\ (forall v, args_expensive_2 !! "sort_order" = Some v -> v <> VStr "cheap" ->
                StronglySorted price_not_smaller results).
Proof.
  split; [exact csv_three_cleaned|].
  eexists. split; [vm_compute; reflexivity|].
  apply (@top_cars_sorted_by_price reference_builtins csv_three args_expensive_2 _
           csv_three_cleaned).
  vm_compute; reflexivity.
Defined.

Example top_cars_expensive_first :
  @tool_top_cars reference_builtins csv_two args_expensive_2
  = Ok (TopCarsResult (VStr "expensive")
          (to_dict_records results_cols [toyota; honda])).
Proof. vm_compute. reflexivity. Qed.

(** *** The mean price *)

Lemma omap_key_of_Num (ps : list Q) : omap key_of (List.map Num ps) = ps.
Proof. induction ps as [|p ps IH]; csimpl; [reflexivity|]. by rewrite IH. Qed.

Lemma prices_of_cleaned (l : list row) :
  Forall (fun r => invariants r = true) l ->
  exists ps, List.map Price l = List.map Num ps
             /\ Forall (fun p => (0 < p)%Q /\ (p <= 400000)%Q) ps.
Proof.
  induction 1 as [|r l Hr _ (ps & E & Hps)]; [exists []; split; constructor|].
  unfold invariants, in_range in Hr. rewrite !andb_true_iff in Hr.
  destruct Hr as [[[_ _] [Hp1 Hp2]] _].
  destruct (Price r) as [|p|s] eqn:Ep; try discriminate Hp1.
  exists (p :: ps). simpl. rewrite Ep, E. split; [reflexivity|].
  constructor; [|exact Hps]. simpl in Hp1, Hp2. apply Qle_bool_iff in Hp2.
  split; [|exact Hp2]. apply Qnot_le_lt. intros Hle.
  apply Qle_bool_iff in Hle. rewrite Hle in Hp1. discriminate Hp1.
Qed.

(** X17. On a cleaned dataset, whenever average_price returns, it
    echoes its arguments and reports as samples the number of matching
    records; it gives no average exactly when there is none, and
    otherwise the average is the mean, as pandas computes it, of the
    prices of the matching records, each of them in (0, 400000]. *)
Theorem average_price_is_the_mean `{Builtins} (df : DataFrame) (args : Args)
    (p : payload) :
  cleaned df ->
  tool_average_price df args = Ok p ->
  exists avg prices,
    p = AveragePriceResult args avg (matches df args)
    /\ List.map Price (List.filter (satisfies args) (rows df)) = List.map Num prices
    /\ Forall (fun q => (0 < q)%Q /\ (q <= 400000)%Q) prices
    /\ length prices = matches df args
    /\ avg = match prices with
             | [] => None
             | _ => Some (float_mean prices)
             end.
Proof.
  intros Hc Hp. unfold tool_average_price in Hp.
  destruct (_apply_filters df args) as [S|e] eqn:E; [|discriminate Hp].
  rewrite bind_Ok in Hp. injection Hp as <-.
  destruct (apply_filters_rows df S args E) as [_ Hr]. rewrite Hr.
  pose proof (selected_cleaned df args Hc) as Hall.
  destruct (prices_of_cleaned _ Hall) as (ps & Eps & Hps).
  assert (Hlen : length ps = length (List.filter (satisfies args) (rows df))).
  { rewrite <- (length_map Price), Eps. symmetry. apply length_map. }
  eexists _, ps. split; [reflexivity|]. split; [exact Eps|]. split; [exact Hps|].
  split; [exact Hlen|].
  rewrite Eps. unfold mean. rewrite omap_key_of_Num.
  destruct (List.filter (satisfies args) (rows df)) as [|r l];
    destruct ps as [|q ps]; try discriminate Hlen; reflexivity.
Qed.

Lemma average_price_is_the_mean_witness :
  cleaned csv_three
  /\ exists p,
       @tool_average_price reference_builtins csv_three args_gasoline_2017 = Ok p
       /\ exists avg prices,
            p = AveragePriceResult args_gasoline_2017 avg
                  (@matches reference_builtins csv_three args_gasoline_2017)
            /\ List.map Price
                 (List.filter (@satisfies reference_builtins args_gasoline_2017)
                    (rows csv_three)) = List.map Num prices
            /\ Forall (fun q => (0 < q)%Q /\ (q <= 400000)%Q) prices
            /\ length prices = @matches reference_builtins csv_three args_gasoline_2017
            /\ avg = match prices with
                     | [] => None
                     | _ => Some (@float_mean reference_builtins prices)
                     end.
Proof.
  split; [exact csv_three_cleaned|].
  eexists. split; [vm_compute; reflexivity|].
  apply (@average_price_is_the_mean reference_builtins csv_three args_gasoline_2017 _
           csv_three_cleaned).
  vm_compute; reflexivity.
Defined.

(** ** Price estimation, further *)

(** X18. When [int] reads the Year and [float] reads the Mileage, if
    present, an estimation that lacks a required key fails with the
    [KeyError] of the first missing key in the order Year, Mileage, Fuel
    Type, Transmission. *)
Theorem estimate_price_names_first_missing_key `{Builtins}
    (model : Pipeline) (feature_columns : list string) (args : Args) (k : string) :
  converts_if_present py_int (args !! "Year") ->
  converts_if_present py_float (args !! "Mileage") ->
  first_missing args = Some k ->
  tool_estimate_price model feature_columns args = Raise (KeyError k).
Proof.
  intros Ty Tm Hk. unfold tool_estimate_price, estimation_payload, dict_item.
  unfold first_missing in Hk. simpl in Hk.
  destruct (args !! "Year") as [vy|]; [|by injection Hk as <-].
  destruct (Ty vy eq_refl) as [y Hy]. simpl in Hk |- *. rewrite Hy. simpl.
  destruct (args !! "Mileage") as [vm|]; [|by injection Hk as <-].
  destruct (Tm vm eq_refl) as [m Hm]. simpl in Hk |- *. rewrite Hm. simpl.
  destruct (args !! "Fuel Type") as [vf|]; [|by injection Hk as <-]. simpl in Hk |- *.
  destruct (args !! "Transmission") as [vt|]; [discriminate Hk | by injection Hk as <-].
Qed.

Lemma estimate_price_names_first_missing_key_witness :
  converts_if_present (@py_int reference_builtins) (args_year_only !! "Year")
  /\ converts_if_present (@py_float reference_builtins) (args_year_only !! "Mileage")
  /\ first_missing args_year_only = Some "Mileage"
  /\ @tool_estimate_price reference_builtins
       {| categories := []; coef := []; intercept := 0 |} stored_feature_columns
       args_year_only
     = Raise (KeyError "Mileage").
Proof.
  assert (Hy : converts_if_present (@py_int reference_builtins) (args_year_only !! "Year")).
  { intros v Hv. vm_compute in Hv. injection Hv as <-. eexists. reflexivity. }
  assert (Hm : converts_if_present (@py_float reference_builtins)
                 (args_year_only !! "Mileage")).
  { intros v Hv. vm_compute in Hv. discriminate Hv. }
  split; [exact Hy|]. split; [exact Hm|].
  split; [vm_compute; reflexivity|].
  apply (@estimate_price_names_first_missing_key reference_builtins _ _ args_year_only
           "Mileage" Hy Hm).
  vm_compute; reflexivity.
Defined.

(** X19. The optional keys of an estimation have fixed defaults: an
    absent Car Make or Car Model stands for the empty string, an absent
    Condition for "Used" and an absent Accident for "No"; giving the
    default explicitly changes nothing. *)
Theorem estimate_price_defaults `{Builtins}
    (model : Pipeline) (feature_columns : list string) (args : Args)
    (k : string) (d : value) :
  In (k, d) estimate_defaults ->
  args !! k = None ->
  tool_estimate_price model feature_columns (<[k := d]> args)
  = tool_estimate_price model feature_columns args.
Proof.
  intros Hin Hk. unfold tool_estimate_price. f_equal.
  unfold estimation_payload, dict_get_default, dict_item.
  simpl in Hin.
  destruct Hin as [[= <- <-]|[[= <- <-]|[[= <- <-]|[[= <- <-]|[]]]]];
    rewrite ?lookup_insert_eq, ?lookup_insert_ne by discriminate;
    rewrite ?Hk; reflexivity.
Qed.

Lemma estimate_price_defaults_witness :
  In ("Condition", VStr "Used") estimate_defaults
  /\ args_estimate_unseen !! "Condition" = None
  /\ @tool_estimate_price reference_builtins
       {| categories := []; coef := []; intercept := 0 |} stored_feature_columns
       (<["Condition" := VStr "Used"]> args_estimate_unseen)
     = @tool_estimate_price reference_builtins
         {| categories := []; coef := []; intercept := 0 |} stored_feature_columns
         args_estimate_unseen.
Proof.
  assert (Hin : In ("Condition", VStr "Used") estimate_defaults) by (simpl; tauto).
  split; [exact Hin|]. split; [vm_compute; reflexivity|].
  apply (@estimate_price_defaults reference_builtins _ _ args_estimate_unseen
           "Condition" (VStr "Used") Hin).
  vm_compute; reflexivity.
Defined.

(** ** The dispatcher, further *)

Section DispatcherFurther.
Context `{Builtins}.

Lemma lazy_init_state_ok (csv : result DataFrame) (STATE STATE' : State) :
  state_ok STATE -> lazy_init csv STATE = Ok STATE' -> state_ok STATE'.
Proof.
  intros [->|(df & model & -> & Hfit)] Hi.
  - unfold lazy_init in Hi. simpl in Hi.
    apply init_data_and_model_sets in Hi. destruct Hi as (df & model & _ & Hfit & ->).
    right. exists df, model. split; [reflexivity | exact Hfit].
  - unfold lazy_init in Hi. simpl in Hi. injection Hi as <-.
    right. exists df, model. split; [reflexivity | exact Hfit].
Qed.

Lemma call_tool_state (csv : result DataFrame) (STATE : State) nm (arguments : Args) :
  fst (call_tool csv STATE nm arguments)
  = match lazy_init csv STATE with
    | Ok STATE' => STATE'
    | Raise _ => STATE
    end.
Proof. unfold call_tool. by destruct (lazy_init csv STATE). Qed.

Lemma lazy_init_raise_uninitialized (csv : result DataFrame) (STATE : State) (e : exn) :
  lazy_init csv STATE = Raise e ->
  is_None (st_df STATE) || is_None (st_model STATE) = true
  /\ init_data_and_model csv STATE = Raise e.
Proof.
  unfold lazy_init. destruct (is_None (st_df STATE) || is_None (st_model STATE));
    [tauto | discriminate].
Qed.

Lemma estimation_payload_missing (args : Args) (k : string) :
  In k estimate_required -> args !! k = None ->
  exists e, estimation_payload args = Raise e.
Proof.
  intros Hin Hk. unfold estimation_payload.
  destruct (v ← dict_item args "Year"; py_int v) as [y|e] eqn:Ey; [|eauto].
  rewrite bind_Ok.
  destruct (v ← dict_item args "Mileage"; py_float v) as [m|e] eqn:Em; [|eauto].
  rewrite bind_Ok.
  destruct (dict_item args "Fuel Type") as [f|e] eqn:Ef; [|eauto].
  rewrite bind_Ok.
  destruct (dict_item args "Transmission") as [t|e] eqn:Et; [|eauto].
  exfalso. unfold dict_item in *. simpl in Hin.
  destruct Hin as [<-|[<-|[<-|[<-|[]]]]]; rewrite Hk in *; discriminate.
Qed.
End DispatcherFurther.

(** X20. The dispatcher keeps its state in one of two shapes: as at
    process start, or holding a cleaned dataset, the model fitted on that
    dataset and the eight feature columns. Whatever the call and its
    outcome, a state of that kind is followed by a state of that kind, so
    a handler is only ever handed a cleaned dataset. *)
Theorem call_tool_keeps_state_ok `{Builtins}
    (csv : result DataFrame) (STATE : State) (nm : string) (arguments : Args) :
  state_ok STATE ->
  state_ok (fst (call_tool csv STATE nm arguments))
  /\ forall df, st_df (fst (call_tool csv STATE nm arguments)) = Some df -> cleaned df.
Proof.
  intros Hok.
  assert (Hok' : state_ok (fst (call_tool csv STATE nm arguments))).
  { rewrite call_tool_state. destruct (lazy_init csv STATE) as [STATE'|e] eqn:Hi;
      [by eapply lazy_init_state_ok | exact Hok]. }
  split; [exact Hok'|]. intros df Hdf.
  destruct Hok' as [E|(df0 & model & E & _)]; rewrite E in Hdf.
  - discriminate Hdf.
  - injection Hdf as <-. apply clean_df_cleaned.
Qed.

Lemma call_tool_keeps_state_ok_witness :
  @state_ok reference_builtins STATE0
  /\ @state_ok reference_builtins
       (fst (@call_tool reference_builtins (Ok csv_dirty) STATE0 "top_cars" ∅))
  /\ forall df,
       st_df (fst (@call_tool reference_builtins (Ok csv_dirty) STATE0 "top_cars" ∅)) = Some df ->
       cleaned df.
Proof.
  assert (H0 : @state_ok reference_builtins STATE0) by (left; reflexivity).
  split; [exact H0|].
  exact (@call_tool_keeps_state_ok reference_builtins (Ok csv_dirty) STATE0 "top_cars" ∅ H0).
Defined.

(** X21. A call whose lazy initialisation fails raises that failure,
    leaves the state as it was, which is not initialised, and so the next
    call runs the initialisation again, on the table as it then is. *)
Theorem failed_init_is_retried `{Builtins}
    (csv : result DataFrame) (STATE STATE1 : State) (nm : string) (arguments : Args)
    (e : exn) :
  call_tool csv STATE nm arguments = (STATE1, Raise e) ->
  STATE1 = STATE
  /\ init_data_and_model csv STATE = Raise e
  /\ forall csv', lazy_init csv' STATE1 = init_data_and_model csv' STATE1.
Proof.
  unfold call_tool. destruct (lazy_init csv STATE) as [STATE'|e'] eqn:Hi; [discriminate|].
  intros [= <- <-]. apply lazy_init_raise_uninitialized in Hi. destruct Hi as [Hu Hi].
  split; [reflexivity|]. split; [exact Hi|].
  intros csv'. unfold lazy_init. by rewrite Hu.
Qed.

Lemma failed_init_is_retried_witness :
  exists e,
    @call_tool reference_builtins (Ok csv_no_price) STATE0 "filter_cars" ∅ = (STATE0, Raise e)
    /\ @init_data_and_model reference_builtins (Ok csv_no_price) STATE0 = Raise e
    /\ forall csv', @lazy_init reference_builtins csv' STATE0
                    = @init_data_and_model reference_builtins csv' STATE0.
Proof.
  eexists. split; [vm_compute; reflexivity|].
  refine (proj2 (@failed_init_is_retried reference_builtins (Ok csv_no_price) STATE0 STATE0
                   "filter_cars" ∅ _ _)).
  vm_compute; reflexivity.
Defined.

(** X22. What a schema declares required, the handler requires: for
    every declared tool, a call in an initialised state that lacks one of
    the tool's required properties makes the handler raise, and the
    dispatcher returns the error payload with the arguments echoed. *)
Theorem missing_required_property_is_an_error `{Builtins}
    (csv : result DataFrame) (STATE : State) (tool : Tool) (args : Args) (k : string) :
  initialized STATE ->
  In tool list_tools ->
  In k (required tool) ->
  args !! k = None ->
  exists e,
    route STATE (name tool) args = Raise e
    /\ call_tool csv STATE (name tool) args = (STATE, Ok (ErrorPayload (str_exn e) args)).
Proof.
  intros Hinit Htool Hk Hnone.
  assert (Hr : exists e, route STATE (name tool) args = Raise e).
  { destruct Hinit as [[df Hdf] [model Hm]].
    unfold list_tools in Htool. simpl in Htool.
    destruct Htool as [<-|[<-|[<-|[<-|[<-|[]]]]]]; simpl in Hk; try contradiction.
    - destruct Hk as [<-|[]].
      assert (Hroute : route STATE "recommend" args = tool_recommend df args).
      { unfold route. simpl. rewrite Hdf. reflexivity. }
      change (name recommend_tool) with "recommend".
      rewrite Hroute. unfold tool_recommend. rewrite Hnone. eauto.
    - change (name estimate_price_tool) with "estimate_price".
      destruct (st_feature_columns STATE) as [fc|] eqn:Hfc.
      + assert (Hroute : route STATE "estimate_price" args
                         = tool_estimate_price model fc args).
        { unfold route. simpl. rewrite Hm, Hfc. reflexivity. }
        rewrite Hroute. unfold tool_estimate_price.
        destruct (estimation_payload_missing args k Hk Hnone) as [e ->]. eauto.
      + unfold route. simpl. rewrite Hm, Hfc. simpl. eauto. }
  destruct Hr as [e Hr]. exists e. split; [exact Hr|].
  rewrite (call_tool_after_init csv STATE STATE (name tool) args
             (lazy_init_initialized_state csv STATE Hinit)).
  by rewrite Hr.
Qed.

Lemma state_two_initialized : initialized state_two.
Proof. split; eexists; vm_compute; reflexivity. Qed.

Lemma missing_required_property_is_an_error_witness :
  initialized state_two
  /\ In recommend_tool list_tools
  /\ In "budget_max" (required recommend_tool)
  /\ exists e,
       @route reference_builtins state_two (name recommend_tool) args_gasoline_2017 = Raise e
       /\ @call_tool reference_builtins (Raise (OSError "unused")) state_two
            (name recommend_tool) args_gasoline_2017
          = (state_two, Ok (ErrorPayload (str_exn e) args_gasoline_2017)).
Proof.
  assert (Ht : In recommend_tool list_tools) by (simpl; tauto).
  assert (Hk : In "budget_max" (required recommend_tool)) by (simpl; tauto).
  split; [exact state_two_initialized|]. split; [exact Ht|]. split; [exact Hk|].
  apply (@missing_required_property_is_an_error reference_builtins _ state_two
           recommend_tool args_gasoline_2017 "budget_max" state_two_initialized Ht Hk).
  vm_compute; reflexivity.
Defined.

Section SchemaDefaults.
Context `{Builtins}.

Lemma tool_filter_cars_default_limit (df : DataFrame) (args : Args) :
  args !! "limit" = None ->
  tool_filter_cars df (<["limit" := VNum 20]> args) = tool_filter_cars df args.
Proof.
  intros Hn. unfold tool_filter_cars, dict_get_default.
  rewrite lookup_insert_eq, Hn. simpl default.
  rewrite (apply_filters_lookup df (<["limit" := VNum 20]> args) args); [reflexivity|].
  apply agree_on_insert_fresh. simpl. intuition discriminate.
Qed.

Lemma tool_recommend_default_limit (df : DataFrame) (args : Args) :
  args !! "limit" = None ->
  tool_recommend df (<["limit" := VNum 10]> args) = tool_recommend df args.
Proof.
  intros Hn. unfold tool_recommend, dict_get_default.
  rewrite lookup_insert_eq, Hn, lookup_insert_ne by discriminate. simpl default.
  destruct (args !! "budget_max") as [b|]; [|reflexivity].
  rewrite (apply_filters_lookup df (<["Price_max" := b]> (<["limit" := VNum 10]> args))
             (<["Price_max" := b]> args)); [reflexivity|].
  apply agree_on_insert, agree_on_insert_fresh. simpl. intuition discriminate.
Qed.

Lemma tool_top_cars_default_n (df : DataFrame) (args : Args) :
  args !! "n" = None ->
  tool_top_cars df (<["n" := VNum 10]> args) = tool_top_cars df args.
Proof.
  intros Hn. unfold tool_top_cars, dict_get_default.
  rewrite lookup_insert_eq, Hn, lookup_insert_ne by discriminate. simpl default.
  rewrite (apply_filters_lookup df (<["n" := VNum 10]> args) args); [reflexivity|].
  apply agree_on_insert_fresh. simpl. intuition discriminate.
Qed.

Lemma tool_top_cars_default_order (df : DataFrame) (args : Args) :
  args !! "sort_order" = None ->
  tool_top_cars df (<["sort_order" := VStr "cheap"]> args) = tool_top_cars df args.
Proof.
  intros Hn. unfold tool_top_cars, dict_get_default.
  rewrite lookup_insert_eq, Hn, lookup_insert_ne by discriminate. simpl default.
  rewrite (apply_filters_lookup df (<["sort_order" := VStr "cheap"]> args) args);
    [reflexivity|].
  apply agree_on_insert_fresh. simpl. intuition discriminate.
Qed.

End SchemaDefaults.

(** X23. The defaults the schemas declare are the defaults the handlers
    apply: for every declared tool and every property with a declared
    default (limit 20 for filter_cars, limit 10 for recommend, n 10 and
    sort_order "cheap" for top_cars), a call that gives the default
    explicitly is routed to the same result as the call without the
    key. *)
Theorem declared_defaults_are_applied `{Builtins}
    (STATE : State) (tool : Tool) (p : property) (d : value) (args : Args) :
  In tool list_tools -> In p (properties tool) -> p_default p = Some d ->
  args !! p_name p = None ->
  route STATE (name tool) (<[p_name p := d]> args) = route STATE (name tool) args.
Proof.
  intros Htool Hp Hd Hn. unfold list_tools in Htool. simpl in Htool.
  destruct Htool as [<-|[<-|[<-|[<-|[<-|[]]]]]]; simpl in Hp;
    repeat (destruct Hp as [<-|Hp]; [try discriminate Hd|]); try contradiction;
    simpl in Hd; injection Hd as <-; simpl p_name in *; unfold route; simpl;
    (destruct (not_None (st_df STATE)) as [df|e]; [rewrite !bind_Ok | reflexivity]).
  - by apply tool_filter_cars_default_limit.
  - by apply tool_recommend_default_limit.
  - by apply tool_top_cars_default_n.
  - by apply tool_top_cars_default_order.
Qed.

Lemma declared_defaults_are_applied_witness :
  In top_cars_tool list_tools
  /\ In (prop_default "n" TInteger (VNum 10)) (properties top_cars_tool)
  /\ args_gasoline_2017 !! "n" = None
  /\ @route reference_builtins state_two "top_cars" (<["n" := VNum 10]> args_gasoline_2017)
     = @route reference_builtins state_two "top_cars" args_gasoline_2017.
Proof.
  assert (Ht : In top_cars_tool list_tools) by (simpl; tauto).
  assert (Hp : In (prop_default "n" TInteger (VNum 10)) (properties top_cars_tool))
    by (left; reflexivity).
  split; [exact Ht|]. split; [exact Hp|]. split; [vm_compute; reflexivity|].
  apply (@declared_defaults_are_applied reference_builtins state_two top_cars_tool
           (prop_default "n" TInteger (VNum 10)) (VNum 10) args_gasoline_2017 Ht Hp eq_refl).
  vm_compute; reflexivity.
Defined.

(** ** Result normalisation *)


Lemma map_fixed_in {A} (f : A -> A) (p : A -> bool) (l : list A) :
  Forall (fun x => p x = true -> f x = x) l ->
  forallb p l = true -> List.map f l = l.
Proof.
  induction 1 as [|a l Ha _ IH]; simpl; [reflexivity|].
  rewrite andb_true_iff. intros [Pa Pl]. by rewrite Ha, IH.
Qed.



Lemma to_py_fixed (obj : pyobj) : numpy_free obj = true -> _to_py obj = obj.
Proof.
  induction obj as [a|d IH|l IH|l IH] using pyobj_ind; simpl.
  - destruct a; [reflexivity | discriminate].
  - intros Hd. f_equal.
    apply (map_fixed_in _ (fun kv => is_py (fst kv) && numpy_free (snd kv))); [|exact Hd].
    eapply Forall_impl; [exact IH|]. intros [k v] Hv. simpl in *.
    rewrite andb_true_iff. intros [_ Hn]. by rewrite Hv.
  - intros Hl. f_equal. by apply (map_fixed_in _ numpy_free).
  - reflexivity.
Qed.

(** X25. [_to_py] is idempotent, keeps the keys of every dict and the
    length of every list at the top, and leaves an object without numpy
    scalars as it is. *)
Theorem to_py_idempotent (obj : pyobj) :
  _to_py (_to_py obj) = _to_py obj
  /\ (numpy_free obj = true -> _to_py obj = obj)
  /\ match obj, _to_py obj with
     | PyDict d, PyDict d' => List.map fst d' = List.map fst d
     | PyList l, PyList l' => length l' = length l
     | Atom _, Atom _ => True
     | PyTuple l, PyTuple l' => l' = l
     | _, _ => False
     end.
Proof.
  split; [|split].
  - induction obj as [a|d IH|l IH|l IH] using pyobj_ind; simpl.
    + by destruct a.
    + f_equal. rewrite List.map_map. apply List.map_ext_Forall.
      eapply Forall_impl; [exact IH|]. intros [k v] Hv. simpl in *. by rewrite Hv.
    + f_equal. rewrite List.map_map. by apply List.map_ext_Forall.
    + reflexivity.
  - apply to_py_fixed.
  - destruct obj as [[v|v]|d|l|l]; simpl; auto.
    + rewrite List.map_map. reflexivity.
    + apply length_map.
Qed.

(** ** The data check *)

(** X26. The column verification of the data check prints its OK line
    exactly for the tables [_check_columns] accepts, and a warning for the
    tables on which the server's initialisation raises. *)
Theorem data_check_agrees_with_check_columns `{Builtins} (df : DataFrame) :
  column_verification df = "[OK] All expected columns are present."
  <-> _check_columns df = Ok df.
Proof.
  unfold column_verification, _check_columns.
  change EXPECTED_COLUMNS with REQUIRED_COLUMNS.
  destruct (List.filter _ REQUIRED_COLUMNS) as [|m ms]; [tauto|].
  split; [|discriminate]. simpl. discriminate.
Qed.
